(** * Rule lookup and rule-options validation of the flat config

    A shallow embedding of
    - [lib/shared/string-utils.js]   ([enumerateSplitPoints]),
    - [lib/config/rule-lookup.js]    ([RuleLookupError], [resolveRuleId],
      [searchForPartialRuleNameMatches]),
    - [lib/config/compile-json-schema.js] ([compileJsonSchema]),
    - [lib/config/flat-config-helpers.js] ([getRuleFromConfig],
      [getRuleOptionsSchema], [validateJsonSchemaOnlyAcceptsArraysAtTopLevel]),
    - [lib/config/rule-validator.js] ([resolveRule], [RuleValidator]),
    - [lib/shared/ecma-versions.js]  (the version numbers of ECMAScript),
    together with the properties the specification states about them. *)

From Stdlib Require Import ZArith Ascii String List Bool Lia.
From stdpp Require Import base option list strings gmap pretty.

Local Open Scope string_scope.
Local Open Scope Z_scope.
Set Warnings "-register-all".

(** ** JavaScript values *)

(** Identity of an object, array, function or symbol: what [===], [WeakMap]
    and [Array.prototype.includes] compare. *)
Definition ObjId := nat.
Bind Scope nat_scope with ObjId.

(** The values the modelled code handles. Numbers are the integers (no
    fraction, NaN or infinity occurs in the modelled code). An object, an
    array and a function carry their identity; an object and a function list
    the enumerable string-keyed data properties they have of their own, in
    enumeration order. What a value has besides, through its prototype chain
    or as a property that is not enumerable, is given by [Builtins] below. *)
Inductive JsValue : Type :=
| JUndefined
| JNull
| JBool (b : bool)
| JNum (n : Z)
| JStr (s : string)
| JSym (id : ObjId)
| JFun (id : ObjId) (props : list (string * JsValue))
| JObj (id : ObjId) (props : list (string * JsValue))
| JArr (id : ObjId) (elems : list JsValue).

(** ToBoolean. *)
Definition truthy (v : JsValue) : bool :=
  match v with
  | JUndefined | JNull => false
  | JBool b => b
  | JNum n => negb (n =? 0)
  | JStr s => negb (String.eqb s "")
  | JSym _ | JFun _ _ | JObj _ _ | JArr _ _ => true
  end.

(** The [typeof] operator. *)
Definition typeof (v : JsValue) : string :=
  match v with
  | JUndefined => "undefined"
  | JNull => "object"
  | JBool _ => "boolean"
  | JNum _ => "number"
  | JStr _ => "string"
  | JSym _ => "symbol"
  | JFun _ _ => "function"
  | JObj _ _ | JArr _ _ => "object"
  end.

(** Strict equality [===]: primitives by value, everything else by identity. *)
Definition strict_equals (a b : JsValue) : bool :=
  match a, b with
  | JUndefined, JUndefined => true
  | JNull, JNull => true
  | JBool x, JBool y => Bool.eqb x y
  | JNum x, JNum y => x =? y
  | JStr x, JStr y => String.eqb x y
  | JSym x, JSym y => Nat.eqb x y
  | JFun x _, JFun y _ => Nat.eqb x y
  | JObj x _, JObj y _ => Nat.eqb x y
  | JArr x _, JArr y _ => Nat.eqb x y
  | _, _ => false
  end.

(** [Array.isArray]. *)
Definition Array_isArray (v : JsValue) : bool :=
  match v with JArr _ _ => true | _ => false end.

(** [Array.prototype.includes] on a list of values. *)
Definition includes (l : list JsValue) (v : JsValue) : bool :=
  existsb (strict_equals v) l.

(** ** Outcomes: a call returns or throws *)

(** An instance of [RuleLookupError]: its [code] property and its message. *)
Record RuleLookupErrorInstance : Type := {
  code : JsValue;
  message : string
}.

Inductive Exception : Type :=
| TypeError (msg : string)
| ReferenceError (msg : string)
| RuleLookupErrorThrown (e : RuleLookupErrorInstance)
| Error (msg : string).

Inductive Outcome (A : Type) : Type :=
| Returned (a : A)
| Thrown (e : Exception).

Arguments Returned {A} a.
Arguments Thrown {A} e.

Definition bindO {A B : Type} (m : Outcome A) (k : A -> Outcome B) : Outcome B :=
  match m with
  | Returned a => k a
  | Thrown e => Thrown e
  end.

Declare Scope outcome_scope.
Delimit Scope outcome_scope with outcome.
Notation "'let!' x ':=' m 'in' k" := (bindO m (fun x => k))
  (at level 10, x name, m at level 100, k at level 200) : outcome_scope.
Local Open Scope outcome_scope.

(** ** Property access *)

Fixpoint assoc {A : Type} (k : string) (l : list (string * A)) : option A :=
  match l with
  | [] => None
  | (k', v) :: l' => if String.eqb k k' then Some v else assoc k l'
  end.

(** The value stored under a key, [undefined] when there is none. *)
Definition own_property (k : string) (props : list (string * JsValue)) : JsValue :=
  match assoc k props with
  | Some v => v
  | None => JUndefined
  end.

Definition digit_of (c : ascii) : option nat :=
  let n := nat_of_ascii c in
  if (48 <=? n)%nat && (n <=? 57)%nat then Some (n - 48)%nat else None.

Fixpoint parse_digits (s : string) (acc : nat) : option nat :=
  match s with
  | EmptyString => Some acc
  | String c s' =>
      match digit_of c with
      | Some d => parse_digits s' (10 * acc + d)%nat
      | None => None
      end
  end.

(** A property key that is a canonical array index: decimal digits without a
    leading zero. *)
Definition parse_index (s : string) : option nat :=
  match s with
  | EmptyString => None
  | String "0"%char EmptyString => Some 0%nat
  | String "0"%char _ => None
  | _ => parse_digits s 0
  end.

(** The property [k] that [v] has of its own: a listed property of an object
    or a function, the length or an element of an array, the length or a
    character of a string. It is [undefined] when [v] has no property [k] of
    its own. *)
Definition get_own (v : JsValue) (k : string) : JsValue :=
  match v with
  | JObj _ props | JFun _ props => own_property k props
  | JArr _ elems =>
      if String.eqb k "length" then JNum (Z.of_nat (List.length elems))
      else match parse_index k with
           | Some i => nth i elems JUndefined
           | None => JUndefined
           end
  | JStr s =>
      if String.eqb k "length" then JNum (Z.of_nat (String.length s))
      else match parse_index k with
           | Some i => match String.get i s with
                       | Some c => JStr (String c EmptyString)
                       | None => JUndefined
                       end
           | None => JUndefined
           end
  | _ => JUndefined
  end.

(** [v] has a property [k] of its own, which [get_own] reads. *)
Definition has_own (v : JsValue) (k : string) : bool :=
  match v with
  | JObj _ props | JFun _ props =>
      match assoc k props with Some _ => true | None => false end
  | JArr _ elems =>
      String.eqb k "length"
      || match parse_index k with
         | Some i => (i <? List.length elems)%nat
         | None => false
         end
  | JStr s =>
      String.eqb k "length"
      || match parse_index k with
         | Some i => (i <? String.length s)%nat
         | None => false
         end
  | _ => false
  end.

(** What the engine puts behind every value. [builtin_property v k] is what
    [v[k]] evaluates to when [v], neither [undefined] nor [null], has no
    property [k] of its own among those the model lists: the lookup goes up
    the prototype chain of [v], where [Object.prototype] and the like are
    found ([({}).toString] is a function), or finds a property of [v] that is
    not enumerable (the [length] of a function). Most names give [undefined].
    Which names the prototypes have depends on the version of the engine, so
    the properties below are proved for any such table. What is assumed of
    it: an inherited accessor that throws, throws a [TypeError] (as [caller]
    does on a strict function), and no prototype has a property [schema] or
    [meta]. *)
Class Builtins : Type := {
  builtin_property : JsValue -> string -> Outcome JsValue;
  builtin_throws_TypeError :
    forall v k e, builtin_property v k = Thrown e -> exists msg, e = TypeError msg;
  builtin_schema : forall v, builtin_property v "schema" = Returned JUndefined;
  builtin_meta : forall v, builtin_property v "meta" = Returned JUndefined
}.

(** [v[k]]: reading a property of [undefined] or [null] throws; any other
    value gives the property it has of its own, and without one what it
    inherits. *)
Definition get `{Builtins} (v : JsValue) (k : string) : Outcome JsValue :=
  match v with
  | JUndefined | JNull => Thrown (TypeError ("Cannot read properties of " +:+ (match v with JNull => "null" | _ => "undefined" end) +:+ " (reading '" +:+ k +:+ "')"))
  | _ => if has_own v k then Returned (get_own v k) else builtin_property v k
  end.

(** [a && b], with [b] evaluated only when [a] is truthy. *)
Definition js_and (a : JsValue) (b : Outcome JsValue) : Outcome JsValue :=
  if truthy a then b else Returned a.

(** [a || b], with [b] evaluated only when [a] is falsy. *)
Definition js_or (a : JsValue) (b : Outcome JsValue) : Outcome JsValue :=
  if truthy a then Returned a else b.

(** [Object.entries(v)]: own enumerable string-keyed properties. *)
Definition Object_entries (v : JsValue) : Outcome (list (string * JsValue)) :=
  match v with
  | JUndefined | JNull => Thrown (TypeError "Cannot convert undefined or null to object")
  | JObj _ props | JFun _ props => Returned props
  | JArr _ elems => Returned (imap (fun i e => (pretty i, e)) elems)
  | JStr s => Returned (imap (fun i c => (pretty i, JStr (String c EmptyString))) (list_ascii_of_string s))
  | _ => Returned []
  end.

(** [Object.keys(v)]. *)
Definition Object_keys (v : JsValue) : Outcome (list string) :=
  let! es := Object_entries v in Returned (map fst es).

(** ** Strings *)

(** [str.indexOf(sep, from)], [-1] when there is no occurrence. *)
Definition indexOf (str sep : string) (from : nat) : Z :=
  match String.index from sep str with
  | Some i => Z.of_nat i
  | None => -1
  end.

Fixpoint lastIndexOf_from (sep str : string) (pos : nat) (found : Z) : Z :=
  match str with
  | EmptyString => if String.prefix sep str then Z.of_nat pos else found
  | String _ str' =>
      lastIndexOf_from sep str' (S pos)
        (if String.prefix sep str then Z.of_nat pos else found)
  end.

(** [str.lastIndexOf(sep)], [-1] when there is no occurrence. *)
Definition lastIndexOf (str sep : string) : Z :=
  lastIndexOf_from sep str 0 (-1).

(** Index normalisation of [slice]: a negative index counts from the end,
    and the result is clamped to the string. *)
Definition clamp_index (len i : Z) : Z :=
  if i <? 0 then Z.max (len + i) 0 else Z.min i len.

(** [str.slice(start, end)]; [end_ = None] is the one-argument call. *)
Definition slice (str : string) (start : Z) (end_ : option Z) : string :=
  let len := Z.of_nat (String.length str) in
  let from := clamp_index len start in
  let to := match end_ with Some e => clamp_index len e | None => len end in
  substring (Z.to_nat from) (Z.to_nat (to - from)) str.

(** The double-quote character, for the messages. *)
Definition dquote : string := String (ascii_of_nat 34) EmptyString.

(** Sequencing over a list, stopping at the first throw. *)
Fixpoint concatMapO {A B : Type} (f : A -> Outcome (list B)) (l : list A) : Outcome (list B) :=
  match l with
  | [] => Returned []
  | a :: l' =>
      let! bs := f a in
      let! rest := concatMapO f l' in
      Returned (bs ++ rest)%list
  end.

(** ** lib/shared/string-utils.js *)

Module StringUtils.

(** The [for] loop of [enumerateSplitPoints]: it runs while
    [splitPoint > 0], and each round moves [splitPoint] to the next
    occurrence of the separator. Every round moves forward by at least the
    length of the separator, so [fuel] = length of [str] + 1 rounds are never
    used up. *)
Fixpoint splitLoop (fuel : nat) (str separator : string) (splitPoint : Z)
  : list (string * string) :=
  match fuel with
  | O => []
  | S fuel' =>
      if 0 <? splitPoint then
        let next := splitPoint + Z.of_nat (String.length separator) in
        (slice str 0 (Some splitPoint), slice str next None)
          :: splitLoop fuel' str separator (indexOf str separator (Z.to_nat next))
      else []
  end.

(** [enumerateSplitPoints(str, separator, { includeStart, includeEnd })], the
    pairs in the order the generator yields them. Both arguments are strings
    here, so of the two argument checks only the one on the empty separator
    can fail. *)
Definition enumerateSplitPoints (str separator : string) (includeStart includeEnd : bool)
  : Outcome (list (string * string)) :=
  if (String.length separator =? 0)%nat then
    Thrown (TypeError "separator must be a non-empty string")
  else
    Returned ((if includeStart then [("", str)] else [])
              ++ splitLoop (S (String.length str)) str separator (indexOf str separator 0)
              ++ (if includeEnd then [(str, "")] else []))%list.

End StringUtils.

(** ** lib/config/rule-lookup.js *)

(** The result of a resolution, [{ pluginName, ruleName }]. *)
Record ResolvedRule : Type := {
  pluginName : string;
  ruleName : string
}.

Module RuleLookupError.

(** The three static symbols. *)
Definition noBuiltIn : JsValue := JSym 0.
Definition notInSpecifiedPlugin : JsValue := JSym 1.
Definition notInAnyPlugin : JsValue := JSym 2.

(** [static get codes()]: the symbol-valued static properties of the class. *)
Definition codes : list JsValue :=
  List.filter (fun v => String.eqb (typeof v) "symbol")
    [noBuiltIn; notInSpecifiedPlugin; notInAnyPlugin].

(** [new RuleLookupError(code, message)]. The body of the [if] builds its
    message by interpolating [code], which is a symbol there: the
    interpolation itself throws a [TypeError]. Otherwise [code] becomes a
    non-writable, non-configurable property of the new instance. *)
Definition new (code : JsValue) (message : string) : Outcome RuleLookupErrorInstance :=
  if String.eqb (typeof code) "symbol" && includes codes code then
    Thrown (TypeError "Cannot convert a Symbol value to a string")
  else
    Returned {| code := code; message := message |}.

End RuleLookupError.

Module RuleLookup.

(** [throw new RuleLookupError(code, message)]. *)
Definition throw_new {A : Type} (code : JsValue) (message : string) : Outcome A :=
  match RuleLookupError.new code message with
  | Returned e => Thrown (RuleLookupErrorThrown e)
  | Thrown e => Thrown e
  end.

(** The guarded chain
    [plugins[pluginName] && plugins[pluginName][objectType] &&
     plugins[pluginName][objectType][objectName]]. *)
Definition lookupObject `{Builtins} (plugins : JsValue) (pluginName objectType objectName : string)
  : Outcome JsValue :=
  let! plugin := get plugins pluginName in
  js_and plugin
    (let! objects := get plugin objectType in
     js_and objects (get objects objectName)).

(** [enumerateObjectIdMatches(plugins, objectType, objectId)], the matches in
    the order the generator yields them. *)
Definition enumerateObjectIdMatches `{Builtins} (plugins : JsValue) (objectType objectId : string)
  : Outcome (list (string * string)) :=
  let! splits := StringUtils.enumerateSplitPoints objectId "/" false false in
  concatMapO
    (fun '(pluginName, objectName) =>
       let! found := lookupObject plugins pluginName objectType objectName in
       Returned (if truthy found then [(pluginName, objectName)] else []))
    splits.

(** [resolveRuleId(ruleId, { plugins })]. [ruleId] is a string here.

    The last branch calls [enumerateRuleIdMatches(ruleId, config)]: the module
    declares no [enumerateRuleIdMatches] (its generator is
    [enumerateObjectIdMatches]) and the function has no [config] in scope, so
    evaluating the callee throws a [ReferenceError] and the rest of the branch
    never runs. *)
Definition resolveRuleId `{Builtins} (ruleId : string) (config : JsValue) : Outcome ResolvedRule :=
  let! plugins := get config "plugins" in
  if negb (truthy (JStr ruleId)) || negb (String.eqb (typeof (JStr ruleId)) "string")
     || negb (truthy plugins) || negb (String.eqb (typeof plugins) "object")
  then
    throw_new RuleLookupError.notInAnyPlugin
      ("Could not find " +:+ dquote +:+ ruleId +:+ dquote +:+ " in any plugin.")
  else
    let firstSlash := indexOf ruleId "/" 0 in
    if firstSlash =? -1 then
      let! found := lookupObject plugins "@" "rules" ruleId in
      if truthy found then
        Returned {| pluginName := "@"; ruleName := ruleId |}
      else
        throw_new RuleLookupError.noBuiltIn
          ("There is no built-in rule with the name " +:+ dquote +:+ ruleId +:+ dquote +:+ ".")
    else if firstSlash =? lastIndexOf ruleId "/" then
      let pluginName := slice ruleId 0 (Some firstSlash) in
      let ruleName := slice ruleId (firstSlash + 1) None in
      let! found := lookupObject plugins pluginName "rules" ruleName in
      if truthy found then
        Returned {| pluginName := pluginName; ruleName := ruleName |}
      else
        throw_new RuleLookupError.notInSpecifiedPlugin
          ("Could not find " +:+ dquote +:+ ruleName +:+ dquote +:+ " in plugin "
             +:+ dquote +:+ pluginName +:+ dquote +:+ ".")
    else
      Thrown (ReferenceError "enumerateRuleIdMatches is not defined").

(** [searchForPartialRuleNameMatches(ruleId, { plugins })], the identifiers in
    the order the generator yields them. *)
Definition searchForPartialRuleNameMatches `{Builtins} (ruleId : string) (config : JsValue)
  : Outcome (list string) :=
  let! plugins := get config "plugins" in
  if negb (truthy plugins) then Returned []
  else
    let! splits := StringUtils.enumerateSplitPoints ruleId "/" true false in
    concatMapO
      (fun '(_, ruleName) =>
         let! names := Object_keys plugins in
         concatMapO
           (fun pluginName =>
              let! plugin := get plugins pluginName in
              let! rules := get plugin "rules" in
              let! found := js_and rules (get rules ruleName) in
              Returned (if truthy found then [pluginName +:+ "/" +:+ ruleName] else []))
           names)
      splits.

End RuleLookup.

(** ** The schema engine (ajv), as the code uses it *)

Module Ajv.

(** One entry of [validate.errors]. [params_type] is [error.params.type]
    ([undefined] when the keyword has no such parameter). *)
Record ErrorObject : Type := {
  keyword : string;
  dataPath : string;
  params_type : JsValue;
  message : string;
  data : JsValue
}.

(** A compiled validation function [f]. [f data = None]: the call returned
    [true] and left [f.errors] null. [f data = Some errors]: the call returned
    [false] and set [f.errors] to [errors]. *)
Definition ValidateFunction : Type := JsValue -> option (list ErrorObject).

End Ajv.

(** What the code under [lib/config] takes from elsewhere: the engine that
    [lib/shared/ajv.js] builds, the table [conf/replacements.json] and the
    built-in [JSON.stringify]. The engine is a function of the schema: its
    compilation cache shows in the trace below and nowhere else. *)
Class Collaborators : Type := {
  (** [ajv.compile(schema)]: a validation function, or a throw. *)
  ajv_compile : JsValue -> Outcome Ajv.ValidateFunction;
  (** [ruleReplacements.rules]: removed rule id to its replacements. *)
  ruleReplacements_rules : list (string * list string);
  JSON_stringify : JsValue -> string
}.

(** ** The environment: allocation and calls that leave the module *)

(** The trace is the record the model keeps of the calls the properties
    count: resolutions, schema lookups, calls of the engine. No definition
    reads it.

    Who called the engine. *)
Inductive Caller : Type :=
| ByValidate (rule : JsValue)
| ByTopLevelCheck
| ByCompileJsonSchema.

Inductive Event : Type :=
| EvResolve (ruleId : string)
| EvSchemaLookup (rule : JsValue)
| EvCompile (caller : Caller) (schema : JsValue) (compiled : bool)
| EvRemoveSchema (schema : JsValue)
| EvRun (caller : Caller) (data : JsValue).

(** [next_id]: the identity the next created object gets. [trace]: the calls
    made so far, latest first. *)
Record World : Type := {
  next_id : ObjId;
  trace : list Event
}.

(** Computations over a state [S] that return or throw. *)
Definition M (S A : Type) : Type := S -> Outcome A * S.

Definition ret {S A : Type} (a : A) : M S A := fun s => (Returned a, s).

Definition throw {S A : Type} (e : Exception) : M S A := fun s => (Thrown e, s).

Definition bind {S A B : Type} (m : M S A) (k : A -> M S B) : M S B :=
  fun s =>
    match m s with
    | (Returned a, s') => k a s'
    | (Thrown e, s') => (Thrown e, s')
    end.

Definition liftO {S A : Type} (o : Outcome A) : M S A := fun s => (o, s).

(** [try { m } catch (e) { h e }]. *)
Definition try_catch {S A : Type} (m : M S A) (h : Exception -> M S A) : M S A :=
  fun s =>
    match m s with
    | (Returned a, s') => (Returned a, s')
    | (Thrown e, s') => h e s'
    end.

Declare Scope m_scope.
Delimit Scope m_scope with M.
Notation "x <- m ;; k" := (bind m (fun x => k))
  (at level 100, m at next level, right associativity) : m_scope.
Notation "m ;;; k" := (bind m (fun _ => k))
  (at level 100, right associativity) : m_scope.

(** The identity of a newly created object or array. *)
Definition fresh : M World ObjId :=
  fun w => (Returned (next_id w), {| next_id := S (next_id w); trace := trace w |}).

Definition emit (e : Event) : M World unit :=
  fun w => (Returned tt, {| next_id := next_id w; trace := e :: trace w |}).

(** [ajv.compile(schema)], recorded. *)
Definition compile `{Collaborators} (caller : Caller) (schema : JsValue)
  : M World Ajv.ValidateFunction :=
  match ajv_compile schema with
  | Returned f => (emit (EvCompile caller schema true) ;;; ret f)%M
  | Thrown e => (emit (EvCompile caller schema false) ;;; throw e)%M
  end.

(** A call of a compiled validation function, recorded. *)
Definition run (caller : Caller) (f : Ajv.ValidateFunction) (data : JsValue)
  : M World (option (list Ajv.ErrorObject)) :=
  (emit (EvRun caller data) ;;; ret (f data))%M.

Local Open Scope m_scope.

(** ** lib/config/compile-json-schema.js *)

Module CompileJsonSchema.

Definition emptyArray : list string := [].

(** [alwaysSucceedsCompiledSchema()]: it reads no argument. *)
Definition alwaysSucceedsCompiledSchema (_ : JsValue) : list string := emptyArray.

(** [compileJsonSchema(schema)]. The [try] covers the compilation and the
    creation of the returned function, not the later calls of that function. *)
Definition compileJsonSchema `{Collaborators} (schema : JsValue)
  : M World (JsValue -> list string) :=
  try_catch
    (compiledSchema <- compile ByCompileJsonSchema schema ;;
     ret (fun object =>
            match compiledSchema object with
            | None => emptyArray
            | Some errors =>
                map (fun error => Ajv.dataPath error +:+ " " +:+ Ajv.message error +:+ ".")
                    errors
            end))
    (fun _ => ret alwaysSucceedsCompiledSchema).

End CompileJsonSchema.

(** ** lib/config/flat-config-helpers.js, the revision built on [resolveRuleId] *)

Module FlatConfigHelpers.

(** [getRuleFromConfig(ruleId, config)]: a function rule is wrapped in a new
    object [{ create: rule }]. *)
Definition getRuleFromConfig `{Builtins} (ruleId : string) (config : JsValue) : M World JsValue :=
  resolved <- liftO (RuleLookup.resolveRuleId ruleId config) ;;
  plugins <- liftO (get config "plugins") ;;
  plugin <- liftO (get plugins (pluginName resolved)) ;;
  rules <- liftO (get plugin "rules") ;;
  rule <- liftO (get rules (ruleName resolved)) ;;
  if String.eqb (typeof rule) "function" then
    id <- fresh ;;
    ret (JObj id [("create", rule)])
  else
    ret rule.

(** [rule.schema || rule.meta && rule.meta.schema], for a truthy [rule]. *)
Definition resolvedSchema `{Builtins} (rule : JsValue) : Outcome JsValue :=
  let! schema := get rule "schema" in
  js_or schema
    (let! meta := get rule "meta" in
     js_and meta (get meta "schema")).

(** The branch [if (Array.isArray(schema)) { ... }], the same text in both
    revisions of [getRuleOptionsSchema]: either result is a new object. *)
Definition wrapArraySchema (schema : JsValue) : M World JsValue :=
  if truthy (get_own schema "length") then
    id <- fresh ;;
    ret (JObj id [("type", JStr "array");
                  ("items", schema);
                  ("minItems", JNum 0);
                  ("maxItems", get_own schema "length")])
  else
    id <- fresh ;;
    ret (JObj id [("type", JStr "array");
                  ("minItems", JNum 0);
                  ("maxItems", JNum 0)]).

(** [getRuleOptionsSchema(rule)]. *)
Definition getRuleOptionsSchema `{Builtins} (rule : JsValue) : M World JsValue :=
  if negb (truthy rule) then ret JNull
  else
    schema <- liftO (resolvedSchema rule) ;;
    if Array_isArray schema then wrapArraySchema schema
    else ret (if truthy schema then schema else JNull).

End FlatConfigHelpers.

(** ** lib/config/flat-config-helpers.js, the revision with the top-level check *)

Module FlatConfigHelpersTopLevel.

(** [validateJsonSchemaOnlyAcceptsArraysAtTopLevel(schema)]. *)
Definition validateJsonSchemaOnlyAcceptsArraysAtTopLevel `{Collaborators} (schema : JsValue)
  : M World bool :=
  compiled <- try_catch
                (f <- compile ByTopLevelCheck schema ;; ret (Some f))
                (fun _ => ret None) ;;
  match compiled with
  | None => ret false
  | Some compiledSchema =>
      errors <- run ByTopLevelCheck compiledSchema JUndefined ;;
      match errors with
      | None => ret false
      | Some errors =>
          let topLevelTypeErrors :=
            List.filter (fun error => String.eqb (Ajv.dataPath error) ""
                                      && String.eqb (Ajv.keyword error) "type") errors in
          if existsb (fun error => negb (strict_equals (Ajv.params_type error) (JStr "array")))
                     topLevelTypeErrors
          then emit (EvRemoveSchema schema) ;;; ret false
          else ret true
      end
  end.

(** [getRuleOptionsSchema(rule)]. *)
Definition getRuleOptionsSchema `{Builtins} `{Collaborators} (rule : JsValue) : M World JsValue :=
  if negb (truthy rule) then ret JNull
  else
    schema <- liftO (FlatConfigHelpers.resolvedSchema rule) ;;
    if Array_isArray schema then FlatConfigHelpers.wrapArraySchema schema
    else if negb (String.eqb (typeof schema) "object") then ret JNull
    else
      onlyArrays <- validateJsonSchemaOnlyAcceptsArraysAtTopLevel schema ;;
      if onlyArrays then ret JNull else ret schema.

End FlatConfigHelpersTopLevel.

(** ** lib/config/rule-validator.js

    The validator imports [getRuleFromConfig] and [getRuleOptionsSchema] from
    [flat-config-helpers.js] and handles the [RuleLookupError] they throw: it
    goes with the revision of the helpers that is built on [resolveRuleId]. *)

Definition tab : string := String (ascii_of_nat 9) EmptyString.
Definition newline : string := String (ascii_of_nat 10) EmptyString.

(** [ruleOptions.slice(1)]: a new array for an array, a string for a string;
    any other value has no callable [slice] here. *)
Definition slice1 (ruleOptions : JsValue) : M World JsValue :=
  match ruleOptions with
  | JArr _ elems => id <- fresh ;; ret (JArr id (skipn 1 elems))
  | JStr s => ret (JStr (slice s 1 None))
  | JUndefined | JNull => throw (TypeError "Cannot read properties of undefined or null (reading 'slice')")
  | _ => throw (TypeError "ruleOptions.slice is not a function")
  end.

Module RuleValidator.

(** [resolveRule(ruleId, config)]. Only a [RuleLookupError] is handled; any
    other exception is thrown again. *)
Definition resolveRule `{Builtins} `{Collaborators} (ruleId : string) (config : JsValue) : M World JsValue :=
  try_catch
    (FlatConfigHelpers.getRuleFromConfig ruleId config)
    (fun lookupError =>
       match lookupError with
       | RuleLookupErrorThrown lookupError =>
           let code := code lookupError in
           let message := message lookupError in
           let errorMessageHeader :=
             "Key " +:+ dquote +:+ "rules" +:+ dquote +:+ ": Key " +:+ dquote +:+ ruleId +:+ dquote in
           match assoc ruleId ruleReplacements_rules with
           | Some replacements =>
               liftO (RuleLookup.throw_new RuleLookupError.noBuiltIn
                 (errorMessageHeader +:+ ": Rule " +:+ dquote +:+ ruleId +:+ dquote
                    +:+ " was removed and replaced by " +:+ dquote
                    +:+ String.concat ", " replacements +:+ dquote +:+ "."))
           | None =>
               potentialAlternatives <-
                 liftO (RuleLookup.searchForPartialRuleNameMatches ruleId config) ;;
               if negb (List.length potentialAlternatives =? 0)%nat then
                 liftO (RuleLookup.throw_new code
                   (errorMessageHeader +:+ ": " +:+ message +:+ ". Did you mean "
                      +:+ String.concat ", "
                            (map (fun id => dquote +:+ id +:+ dquote) potentialAlternatives)
                      +:+ "?"))
               else
                 liftO (RuleLookup.throw_new code (errorMessageHeader +:+ ": " +:+ message))
           end
       | _ => throw lookupError
       end).

(** An instance: its [validators] WeakMap, keyed by the identity of a rule. *)
Record Instance : Type := {
  validators : gmap ObjId Ajv.ValidateFunction
}.

(** [new RuleValidator()]. *)
Definition new : Instance := {| validators := ∅ |}.

(** What can be the key of a WeakMap, by its identity. *)
Definition identity (v : JsValue) : option ObjId :=
  match v with
  | JObj id _ | JFun id _ | JArr id _ => Some id
  | _ => None
  end.

Definition State : Type := (Instance * World)%type.

(** A computation on the environment alone, inside [validate]. *)
Definition inWorld {A : Type} (m : M World A) : M State A :=
  fun '(this, w) => let '(r, w') := m w in (r, (this, w')).

(** [this.validators.has(rule)]. *)
Definition validators_has (rule : JsValue) : M State bool :=
  fun '(this, w) =>
    (Returned match identity rule with
              | Some id => bool_decide (is_Some (validators this !! id))
              | None => false
              end, (this, w)).

(** [this.validators.get(rule)]. *)
Definition validators_get (rule : JsValue) : M State (option Ajv.ValidateFunction) :=
  fun '(this, w) =>
    (Returned match identity rule with
              | Some id => validators this !! id
              | None => None
              end, (this, w)).

(** [this.validators.set(rule, f)]. *)
Definition validators_set (rule : JsValue) (f : Ajv.ValidateFunction) : M State unit :=
  fun '(this, w) =>
    match identity rule with
    | Some id => (Returned tt, ({| validators := <[id := f]> (validators this) |}, w))
    | None => (Thrown (TypeError "Invalid value used as weak map key"), (this, w))
    end.

(** The block under "Precompile and cache validator the first time":
    [if (!this.validators.has(rule)) { ... }]. *)
Definition precompile `{Builtins} `{Collaborators} (rule : JsValue) : M State unit :=
  cached <- validators_has rule ;;
  if negb cached then
    schema <- inWorld (emit (EvSchemaLookup rule) ;;;
                       FlatConfigHelpers.getRuleOptionsSchema rule) ;;
    if truthy schema then
      f <- inWorld (compile (ByValidate rule) schema) ;;
      validators_set rule f
    else ret tt
  else ret tt.

(** The rest of the loop body: [const validateRule =
    this.validators.get(rule); if (validateRule) { ... }]. *)
Definition applyValidator `{Collaborators} (ruleId : string) (ruleOptions rule : JsValue)
  : M State unit :=
  validateRule <- validators_get rule ;;
  match validateRule with
  | Some validateRule =>
      options <- inWorld (slice1 ruleOptions) ;;
      errors <- inWorld (run (ByValidate rule) validateRule options) ;;
      match errors with
      | Some errors =>
          throw (Error ("Key " +:+ dquote +:+ "rules" +:+ dquote +:+ ": Key "
                 +:+ dquote +:+ ruleId +:+ dquote +:+ ": "
                 +:+ String.concat ""
                       (map (fun error =>
                               tab +:+ "Value " +:+ JSON_stringify (Ajv.data error)
                                   +:+ " " +:+ Ajv.message error +:+ "." +:+ newline)
                            errors)))
      | None => ret tt
      end
  | None => ret tt
  end.

(** The body of the [for] loop of [validate], for one entry of
    [Object.entries(config.rules)]. *)
Definition validateEntry `{Builtins} `{Collaborators} (config : JsValue) (entry : string * JsValue)
  : M State unit :=
  let '(ruleId, ruleOptions) := entry in
  if String.eqb ruleId "__proto__" then ret tt
  else
    severity <- liftO (get ruleOptions "0") ;;
    if strict_equals severity (JNum 0) then ret tt
    else
      rule <- inWorld (emit (EvResolve ruleId) ;;; resolveRule ruleId config) ;;
      precompile rule ;;;
      applyValidator ruleId ruleOptions rule.

(** The [for] loop: the entries in order, until one throws. *)
Fixpoint validateEntries `{Builtins} `{Collaborators} (config : JsValue) (entries : list (string * JsValue))
  : M State unit :=
  match entries with
  | [] => ret tt
  | entry :: entries' =>
      validateEntry config entry ;;; validateEntries config entries'
  end.

(** [validate(config)]. *)
Definition validate `{Builtins} `{Collaborators} (config : JsValue) : M State unit :=
  rules <- liftO (get config "rules") ;;
  if negb (truthy rules) then ret tt
  else
    entries <- liftO (Object_entries rules) ;;
    validateEntries config entries.

End RuleValidator.

(** ** A schema engine *)

Module JsonSchema.

(** Modelled from the spec: the engine is the external JSON-Schema validator
    behind [lib/shared/ajv.js]; this module gives the keywords the normaliser
    writes and the examples use their JSON-Schema meaning.

    Deep equality of JSON values, as [enum] compares: identities play no
    part, and the order of the properties of an object does not matter. *)
Fixpoint deep_equal (a b : JsValue) {struct a} : bool :=
  match a, b with
  | JUndefined, JUndefined => true
  | JNull, JNull => true
  | JBool x, JBool y => Bool.eqb x y
  | JNum x, JNum y => x =? y
  | JStr x, JStr y => String.eqb x y
  | JSym x, JSym y => Nat.eqb x y
  | JFun x _, JFun y _ => Nat.eqb x y
  | JArr _ xs, JArr _ ys =>
      (fix all2 (xs ys : list JsValue) {struct xs} : bool :=
         match xs, ys with
         | [], [] => true
         | x :: xs', y :: ys' => deep_equal x y && all2 xs' ys'
         | _, _ => false
         end) xs ys
  | JObj _ ps, JObj _ qs =>
      (List.length ps =? List.length qs)%nat
      && (fix all_in (ps : list (string * JsValue)) {struct ps} : bool :=
            match ps with
            | [] => true
            | (k, v) :: ps' =>
                match assoc k qs with
                | Some w => deep_equal v w && all_in ps'
                | None => false
                end
            end) ps
  | _, _ => false
  end.

(** Modelled from the spec: the JSON type names of the [type] keyword of the
    external engine. An unknown name matches no value. *)
Definition has_type (name : string) (data : JsValue) : bool :=
  if String.eqb name "array" then Array_isArray data
  else if String.eqb name "object" then match data with JObj _ _ => true | _ => false end
  else if String.eqb name "string" then match data with JStr _ => true | _ => false end
  else if String.eqb name "number" then match data with JNum _ => true | _ => false end
  else if String.eqb name "integer" then match data with JNum _ => true | _ => false end
  else if String.eqb name "boolean" then match data with JBool _ => true | _ => false end
  else if String.eqb name "null" then match data with JNull => true | _ => false end
  else false.

(** Modelled from the spec: the names listed by a [type] keyword of the
    external engine, one string or an array of them. *)
Definition type_names (t : JsValue) : list string :=
  match t with
  | JStr name => [name]
  | JArr _ names => omap (fun v => match v with JStr name => Some name | _ => None end) names
  | _ => []
  end.

(** Modelled from the spec: an entry of the error list of the external
    engine. *)
Definition mkError (keyword path : string) (params_type : JsValue) (message : string)
    (data : JsValue) : Ajv.ErrorObject :=
  {| Ajv.keyword := keyword; Ajv.dataPath := path; Ajv.params_type := params_type;
     Ajv.message := message; Ajv.data := data |}.

(** Modelled from the spec: the external engine stops at the first failing
    keyword, so the first non-empty list of errors is the result. *)
Definition orElse (a b : list Ajv.ErrorObject) : list Ajv.ErrorObject :=
  match a with [] => b | _ => a end.

(** Modelled from the spec: the [type] keyword of the external engine. *)
Definition checkType (t : JsValue) (path : string) (data : JsValue) : list Ajv.ErrorObject :=
  match t with
  | JUndefined => []
  | _ =>
      if existsb (fun name => has_type name data) (type_names t) then []
      else
        let names := String.concat "," (type_names t) in
        [mkError "type" path (JStr names) ("should be " +:+ names) data]
  end.

(** Modelled from the spec: the [maxItems] keyword of the external engine. *)
Definition checkMaxItems (limit : JsValue) (path : string) (data : JsValue)
  : list Ajv.ErrorObject :=
  match limit, data with
  | JNum n, JArr _ elems =>
      if n <? Z.of_nat (List.length elems) then
        [mkError "maxItems" path JUndefined
           ("should NOT have more than " +:+ pretty n +:+ " items") data]
      else []
  | _, _ => []
  end.

(** Modelled from the spec: the [minItems] keyword of the external engine. *)
Definition checkMinItems (limit : JsValue) (path : string) (data : JsValue)
  : list Ajv.ErrorObject :=
  match limit, data with
  | JNum n, JArr _ elems =>
      if Z.of_nat (List.length elems) <? n then
        [mkError "minItems" path JUndefined
           ("should NOT have fewer than " +:+ pretty n +:+ " items") data]
      else []
  | _, _ => []
  end.

(** Modelled from the spec: the [enum] keyword of the external engine. *)
Definition checkEnum (allowed : JsValue) (path : string) (data : JsValue)
  : list Ajv.ErrorObject :=
  match allowed with
  | JArr _ values =>
      if existsb (deep_equal data) values then []
      else [mkError "enum" path JUndefined "should be equal to one of the allowed values" data]
  | _ => []
  end.

(** Modelled from the spec: the [dataPath] of an item, as the external
    engine writes it. *)
Definition itemPath (path : string) (i : nat) : string :=
  path +:+ "[" +:+ pretty i +:+ "]".

(** Modelled from the spec: the validation a compiled schema performs, which
    is the work of the external engine behind [lib/shared/ajv.js]. The
    keywords are those the normaliser writes and the specification's examples
    use: [type], [maxItems], [minItems], [items] (the positional list and
    the single schema), [enum], and the boolean schemas. A value that is no
    object and no boolean, and any other keyword, constrains nothing.
    The result is the error of the first failing keyword, [[]] when the
    value is valid. *)
Fixpoint check (schema : JsValue) (path : string) (data : JsValue) {struct schema}
  : list Ajv.ErrorObject :=
  match schema with
  | JBool false => [mkError "false schema" path JUndefined "boolean schema is false" data]
  | JObj _ props =>
      let checkItems :=
        (fix find (ps : list (string * JsValue)) {struct ps} : list Ajv.ErrorObject :=
           match ps with
           | [] => []
           | (k, sub) :: ps' =>
               if String.eqb k "items" then
                 match sub, data with
                 | JArr _ schemas, JArr _ elems =>
                     (fix positional (ss : list JsValue) (es : list JsValue) (i : nat)
                        {struct ss} : list Ajv.ErrorObject :=
                        match ss, es with
                        | s :: ss', e :: es' =>
                            orElse (check s (itemPath path i) e) (positional ss' es' (S i))
                        | _, _ => []
                        end) schemas elems 0%nat
                 | JArr _ _, _ => []
                 | _, JArr _ elems =>
                     (fix each (es : list JsValue) (i : nat) {struct es}
                        : list Ajv.ErrorObject :=
                        match es with
                        | [] => []
                        | e :: es' => orElse (check sub (itemPath path i) e) (each es' (S i))
                        end) elems 0%nat
                 | _, _ => []
                 end
               else find ps'
           end) props in
      orElse (checkType (own_property "type" props) path data)
        (orElse (checkMaxItems (own_property "maxItems" props) path data)
           (orElse (checkMinItems (own_property "minItems" props) path data)
              (orElse checkItems
                 (checkEnum (own_property "enum" props) path data))))
  | _ => []
  end.

(** Modelled from the spec: [compile(schema)] of the external engine. A
    schema that is neither an object nor a boolean is rejected with a throw;
    the validation function reports [check]'s errors. *)
Definition compile (schema : JsValue) : Outcome Ajv.ValidateFunction :=
  match schema with
  | JObj _ _ | JArr _ _ | JBool _ =>
      Returned (fun data => match check schema "" data with
                            | [] => None
                            | errors => Some errors
                            end)
  | _ => Thrown (Error "schema should be object or boolean")
  end.

(** Modelled from the spec: [ajv.validate(schema, data)] of the external
    engine, as the tests of [getRuleOptionsSchema] call it. *)
Definition validate (schema data : JsValue) : Outcome bool :=
  let! f := compile schema in
  Returned (match f data with None => true | Some _ => false end).

End JsonSchema.

(** The collaborators used to run the code on examples: the engine above, an
    empty replacements table, and a [JSON.stringify] that only tells the
    kinds of values apart. *)
#[export] Instance exampleCollaborators : Collaborators := {
  ajv_compile := JsonSchema.compile;
  ruleReplacements_rules := [];
  JSON_stringify := fun v => match v with
                             | JNum n => pretty n
                             | JStr s => dquote +:+ s +:+ dquote
                             | JBool true => "true"
                             | JBool false => "false"
                             | JNull => "null"
                             | JArr _ _ => "[...]"
                             | JObj _ _ => "{...}"
                             | _ => "undefined"
                             end
}.

(** ** The built-ins of the examples *)

Module StandardBuiltins.

(** The methods of the built-in prototypes of ECMAScript 2023, by name. *)
Definition Object_prototype : list string :=
  ["__defineGetter__"; "__defineSetter__"; "hasOwnProperty"; "__lookupGetter__";
   "__lookupSetter__"; "isPrototypeOf"; "propertyIsEnumerable"; "toString"; "valueOf";
   "toLocaleString"].

Definition Function_prototype : list string :=
  ["apply"; "bind"; "call"; "toString"].

Definition Array_prototype : list string :=
  ["at"; "concat"; "copyWithin"; "fill"; "find"; "findIndex"; "findLast"; "findLastIndex";
   "lastIndexOf"; "pop"; "push"; "reverse"; "shift"; "unshift"; "slice"; "sort"; "splice";
   "includes"; "indexOf"; "join"; "keys"; "entries"; "values"; "forEach"; "filter"; "flat";
   "flatMap"; "map"; "every"; "some"; "reduce"; "reduceRight"; "toLocaleString"; "toString";
   "toReversed"; "toSorted"; "toSpliced"; "with"].

Definition String_prototype : list string :=
  ["anchor"; "at"; "big"; "blink"; "bold"; "charAt"; "charCodeAt"; "codePointAt"; "concat";
   "endsWith"; "fontcolor"; "fontsize"; "fixed"; "includes"; "indexOf"; "isWellFormed";
   "italics"; "lastIndexOf"; "link"; "localeCompare"; "match"; "matchAll"; "normalize";
   "padEnd"; "padStart"; "repeat"; "replace"; "replaceAll"; "search"; "slice"; "small";
   "split"; "strike"; "sub"; "substr"; "substring"; "sup"; "startsWith"; "toString";
   "toWellFormed"; "trim"; "trimStart"; "trimLeft"; "trimEnd"; "trimRight";
   "toLocaleLowerCase"; "toLocaleUpperCase"; "toLowerCase"; "toUpperCase"; "valueOf"].

Definition Number_prototype : list string :=
  ["toExponential"; "toFixed"; "toPrecision"; "toString"; "valueOf"; "toLocaleString"].

Definition Boolean_prototype : list string := ["toString"; "valueOf"].

Definition Symbol_prototype : list string := ["toString"; "valueOf"].

(** The place of a name in a list. *)
Fixpoint position (k : string) (names : list string) (i : nat) : option nat :=
  match names with
  | [] => None
  | name :: names' => if String.eqb k name then Some i else position k names' (S i)
  end.

(** A built-in function is told from the others by its identity: the method
    [k] of the prototype whose identities begin at [base]. *)
Definition method (base : ObjId) (names : list string) (k : string) : option JsValue :=
  match position k names 0 with
  | Some i => Some (JFun (base + i) [])
  | None => None
  end.

(** [Object.getPrototypeOf(v)]: [Array.prototype] is an array and
    [Function.prototype] a function. *)
Definition prototype (v : JsValue) : JsValue :=
  match v with
  | JFun _ _ => JFun 101 []
  | JArr _ _ => JArr 102 []
  | JStr _ => JObj 103 []
  | JNum _ => JObj 104 []
  | JBool _ => JObj 105 []
  | JSym _ => JObj 106 []
  | _ => JObj 100 []
  end.

(** [v.constructor]: [Object], [Function], [Array] and so on. *)
Definition constructor (v : JsValue) : JsValue :=
  match v with
  | JFun _ _ => JFun 111 []
  | JArr _ _ => JFun 112 []
  | JStr _ => JFun 113 []
  | JNum _ => JFun 114 []
  | JBool _ => JFun 115 []
  | JSym _ => JFun 116 []
  | _ => JFun 110 []
  end.

(** The methods of the prototype of [v], and the identity of the first. *)
Definition methods (v : JsValue) : ObjId * list string :=
  match v with
  | JFun _ _ => (300%nat, Function_prototype)
  | JArr _ _ => (400%nat, Array_prototype)
  | JStr _ => (500%nat, String_prototype)
  | JNum _ => (600%nat, Number_prototype)
  | JBool _ => (700%nat, Boolean_prototype)
  | JSym _ => (800%nat, Symbol_prototype)
  | _ => (200%nat, Object_prototype)
  end.

(** What a function has of its own without listing it. The functions of the
    examples are strict, declare no parameter and have no name: reading
    [caller] or [arguments] from them throws. *)
Definition ofFunction (k : string) : option (Outcome JsValue) :=
  if String.eqb k "length" then Some (Returned (JNum 0))
  else if String.eqb k "name" then Some (Returned (JStr ""))
  else if String.eqb k "caller" || String.eqb k "arguments" then
    Some (Thrown (TypeError "'caller', 'callee', and 'arguments' properties may not be accessed on strict mode functions or the arguments objects for calls to them"))
  else None.

(** The lookup: a function's own, then [__proto__] and [constructor], then
    the methods of the prototype of the value, then those of
    [Object.prototype]; [undefined] for any other name. *)
Definition property (v : JsValue) (k : string) : Outcome JsValue :=
  match (match v with JFun _ _ => ofFunction k | _ => None end) with
  | Some outcome => outcome
  | None =>
      if String.eqb k "__proto__" then Returned (prototype v)
      else if String.eqb k "constructor" then Returned (constructor v)
      else
        match method (fst (methods v)) (snd (methods v)) k with
        | Some f => Returned f
        | None =>
            match method 200 Object_prototype k with
            | Some f => Returned f
            | None => Returned JUndefined
            end
        end
  end.

End StandardBuiltins.

(** The built-ins used to run the code on examples. *)
#[export] Instance standardBuiltins : Builtins.
Proof.
  refine {| builtin_property := StandardBuiltins.property |}.
  - intros v k e. unfold StandardBuiltins.property, StandardBuiltins.ofFunction.
    destruct v;
      repeat match goal with
             | |- context [if ?c then _ else _] => destruct c
             | |- context [match StandardBuiltins.method ?b ?l ?x with _ => _ end] =>
                 destruct (StandardBuiltins.method b l x)
             end;
      intros E; try discriminate E; injection E as <-; eauto.
  - intros v. destruct v; reflexivity.
  - intros v. destruct v; reflexivity.
Defined.

(** ** Notions the properties are stated with *)

(** The number of occurrences of a character in a string. *)
Fixpoint count_char (c : ascii) (s : string) : nat :=
  match s with
  | EmptyString => 0%nat
  | String a s' => ((if Ascii.eqb a c then 1 else 0) + count_char c s')%nat
  end.

(** [config.plugins[pluginName].rules[ruleName]] exists: every step of the
    path reads a truthy value. A step reads what the value before it has of
    its own or inherits, so a name that every object inherits, [toString]
    say, exists in rules that list nothing. *)
Definition ruleExists `{Builtins} (config : JsValue) (pluginName ruleName : string) : Prop :=
  exists plugins plugin rules rule,
    get config "plugins" = Returned plugins /\ truthy plugins = true
    /\ get plugins pluginName = Returned plugin /\ truthy plugin = true
    /\ get plugin "rules" = Returned rules /\ truthy rules = true
    /\ get rules ruleName = Returned rule /\ truthy rule = true.

(** A non-null mapping, as the guard of [resolveRuleId] tests it. *)
Definition isMapping (v : JsValue) : Prop :=
  truthy v = true /\ typeof v = "object".

(** The calls [ajv.compile(schema)] that [validate] made for the rule of
    identity [id], in a trace: all of them, and those that returned a
    validation function. *)
Definition isCompileFor (id : ObjId) (returned_only : bool) (e : Event) : bool :=
  match e with
  | EvCompile (ByValidate rule) _ compiled =>
      bool_decide (RuleValidator.identity rule = Some id) && (compiled || negb returned_only)
  | _ => false
  end.

Definition callsFor (id : ObjId) (tr : list Event) : nat :=
  List.length (List.filter (isCompileFor id false) tr).

Definition compiledFor (id : ObjId) (tr : list Event) : nat :=
  List.length (List.filter (isCompileFor id true) tr).

(** The calls of [getRuleOptionsSchema] and of [ajv.compile] in a trace. *)
Definition isSchemaLookup (e : Event) : bool :=
  match e with EvSchemaLookup _ => true | _ => false end.

Definition isCompile (e : Event) : bool :=
  match e with EvCompile _ _ _ => true | _ => false end.

(** [validate] called on each configuration in turn, on one instance; a
    call that throws leaves the instance as it is at the throw. *)
Fixpoint validateAll `{Builtins} `{Collaborators} (configs : list JsValue) (st : RuleValidator.State)
  : RuleValidator.State :=
  match configs with
  | [] => st
  | config :: configs' => validateAll configs' (snd (RuleValidator.validate config st))
  end.

(** A new instance, in an environment that has recorded nothing yet. *)
Definition freshInstance (n : ObjId) : RuleValidator.State :=
  (RuleValidator.new, {| next_id := n; trace := [] |}).

(** [rule] is the value of [config.plugins[pluginName].rules[ruleName]]. *)
Definition registeredRule `{Builtins} (config : JsValue) (pluginName ruleName : string) (rule : JsValue)
  : Prop :=
  exists plugins plugin rules,
    get config "plugins" = Returned plugins
    /\ get plugins pluginName = Returned plugin
    /\ get plugin "rules" = Returned rules
    /\ get rules ruleName = Returned rule.


(** The conditions under which the loop body reaches the precompile block
    for a rule id: the entry is enabled, and the id resolves to an object. *)
Definition enabledEntry `{Builtins} (config : JsValue) (ruleId : string) (ruleOptions rule : JsValue)
  : Prop :=
  ruleId <> "__proto__"
  /\ (exists severity,
        get ruleOptions "0" = Returned severity /\ strict_equals severity (JNum 0) = false)
  /\ (forall w, FlatConfigHelpers.getRuleFromConfig ruleId config w = (Returned rule, w)).

(** ** Notions the proofs about the cache are built from *)

(** A computation on the environment that adds to the trace without calling
    [ajv.compile]. *)
Definition quiet {A : Type} (m : M World A) : Prop :=
  forall w, exists added,
    trace (snd (m w)) = (added ++ trace w)%list
    /\ List.filter isCompile added = [].

(** The instance keeps what it has cached. *)
Definition keeps (s s' : RuleValidator.State) : Prop :=
  forall id f,
    RuleValidator.validators (fst s) !! id = Some f ->
    RuleValidator.validators (fst s') !! id = Some f.

(** What the cache holds was compiled for the rule: a validation function
    cached under an identity is what a call [ajv.compile(schema)] returned,
    a call the trace records for a rule of that identity and the schema
    [getRuleOptionsSchema] gave for that rule; and [ajv.compile] was not
    called for the rule since. *)
Definition CachedAsCompiled `{Builtins} `{Collaborators} (s : RuleValidator.State) : Prop :=
  forall id f,
    RuleValidator.validators (fst s) !! id = Some f ->
    exists rule schema newer older,
      trace (snd s) = (newer ++ EvCompile (ByValidate rule) schema true :: older)%list
      /\ RuleValidator.identity rule = Some id
      /\ (exists w w', FlatConfigHelpers.getRuleOptionsSchema rule w = (Returned schema, w'))
      /\ ajv_compile schema = Returned f
      /\ callsFor id newer = 0%nat.

(** A rule whose schema was compiled is in the cache, and no schema was
    compiled twice. *)
Definition CompiledOnce (s : RuleValidator.State) : Prop :=
  forall id,
    (compiledFor id (trace (snd s)) <= 1)%nat
    /\ (RuleValidator.validators (fst s) !! id = None ->
        compiledFor id (trace (snd s)) = 0%nat).

Record step `{Builtins} `{Collaborators} (s s' : RuleValidator.State) : Prop := {
  step_keeps : keeps s s';
  step_hit : forall id,
    is_Some (RuleValidator.validators (fst s) !! id) ->
    callsFor id (trace (snd s')) = callsFor id (trace (snd s));
  step_grows : forall id,
    (compiledFor id (trace (snd s)) <= compiledFor id (trace (snd s')))%nat;
  step_once : CompiledOnce s -> CompiledOnce s';
  step_cached : CachedAsCompiled s -> CachedAsCompiled s'
}.

(** A computation on an instance whose every run is a [step]. *)
Definition preserves `{Builtins} `{Collaborators} {A : Type} (m : M RuleValidator.State A)
  : Prop :=
  forall s, step s (snd (m s)).

(** ** Inputs of the examples *)

Definition world0 : World := {| next_id := 1000; trace := [] |}.

(** The configuration of the specification's tie-break example. *)
Definition tieBreakConfig : JsValue :=
  JObj 10 [("plugins",
     JObj 11 [("a", JObj 12 [("rules", JObj 13 [("3/4", JObj 14 [])])]);
              ("a/3", JObj 15 [("rules", JObj 16 [("4", JObj 17 [])])])])].

Definition builtInConfig : JsValue :=
  JObj 1 [("plugins", JObj 2 [("@", JObj 3 [("rules", JObj 4 [("semi", JObj 5 [])])])])].

Definition pluginConfig : JsValue :=
  JObj 1 [("plugins", JObj 2 [("test", JObj 3 [("rules", JObj 4 [("foo", JObj 5 [])])])])].

Definition enumZeroRule : JsValue :=
  JObj 1 [("schema", JArr 2 [JObj 3 [("enum", JArr 4 [JNum 0])]])].

Definition disabledConfig : JsValue :=
  JObj 1 [("rules", JObj 2 [("some-rule", JArr 3 [JNum 0; JStr "anything"])]);
          ("plugins", JObj 4 [])].

Definition functionRule : JsValue := JFun 5 [("schema", JArr 6 [])].

Definition functionRuleConfig : JsValue :=
  JObj 1 [("rules", JObj 2 [("legacy", JArr 20 [JNum 2; JStr "always"]);
                            ("x/legacy", JArr 21 [JNum 2; JStr "always"])]);
          ("plugins",
           JObj 3 [("@", JObj 4 [("rules", JObj 9 [("legacy", functionRule)])]);
                   ("x", JObj 10 [("rules", JObj 11 [("legacy", functionRule)])])])].

Definition semiRule : JsValue :=
  JObj 5 [("schema", JArr 6 [JObj 7 [("enum", JArr 8 [JStr "always"; JStr "never"])]])].

(** One rule object registered in two plugins, configured under both ids. *)
Definition aliasConfig : JsValue :=
  JObj 1 [("rules", JObj 2 [("semi", JArr 20 [JNum 2; JStr "always"]);
                            ("x/semi", JArr 21 [JNum 1; JStr "never"])]);
          ("plugins",
           JObj 3 [("@", JObj 4 [("rules", JObj 9 [("semi", semiRule)])]);
                   ("x", JObj 10 [("rules", JObj 11 [("semi", semiRule)])])])].

(** ** Identities in use *)

(** The identity [id] belongs to the value or to something inside it. *)
Inductive occurs (id : ObjId) : JsValue -> Prop :=
| occurs_fun (props : list (string * JsValue)) : occurs id (JFun id props)
| occurs_obj (props : list (string * JsValue)) : occurs id (JObj id props)
| occurs_arr (elems : list JsValue) : occurs id (JArr id elems)
| occurs_in_fun (i : ObjId) (props : list (string * JsValue)) (k : string) (v : JsValue) :
    In (k, v) props -> occurs id v -> occurs id (JFun i props)
| occurs_in_obj (i : ObjId) (props : list (string * JsValue)) (k : string) (v : JsValue) :
    In (k, v) props -> occurs id v -> occurs id (JObj i props)
| occurs_in_arr (i : ObjId) (elems : list JsValue) (v : JsValue) :
    In v elems -> occurs id v -> occurs id (JArr i elems).

(** Every identity of the value was handed out before the counter reached
    [n]. *)
Definition below (n : ObjId) (v : JsValue) : Prop :=
  forall id, occurs id v -> (id < n)%nat.

(** The built-ins were all there before the counter reached [n]. *)
Definition builtinsBelow `{Builtins} (n : ObjId) : Prop :=
  forall v k x, builtin_property v k = Returned x -> below n x.

(** [below], decided. *)
Fixpoint belowb (n : ObjId) (v : JsValue) {struct v} : bool :=
  match v with
  | JFun id props | JObj id props =>
      (id <? n)%nat
      && (fix all (ps : list (string * JsValue)) {struct ps} : bool :=
            match ps with
            | [] => true
            | (_, x) :: ps' => belowb n x && all ps'
            end) props
  | JArr id elems =>
      (id <? n)%nat
      && (fix all (es : list JsValue) {struct es} : bool :=
            match es with
            | [] => true
            | x :: es' => belowb n x && all es'
            end) elems
  | _ => true
  end.

(** Every key of the cache was handed out before: the next new object is not
    among them. *)
Definition cacheBelow (s : RuleValidator.State) : Prop :=
  forall id, is_Some (RuleValidator.validators (fst s) !! id) -> (id < next_id (snd s))%nat.

From Stdlib Require Import Sorted.

(** ** lib/config/flat-config-helpers.js, the revisions that parse the rule id

    The two later revisions of the helpers do not resolve a rule id against
    the configuration: they cut it at a slash, whatever the plugins are. *)

(** [str.includes(search)]. *)
Definition String_includes (str search : string) : bool :=
  negb (indexOf str search 0 =? -1).

(** [str.startsWith(search)]. *)
Definition startsWith (str search : string) : bool :=
  String.prefix search str.

Module FlatConfigHelpersParse.

(** [parseRuleId(ruleId)], the same text in both revisions. [ruleId] is a
    string here. *)
Definition parseRuleId (ruleId : string) : ResolvedRule :=
  if String_includes ruleId "/" then
    let pluginName :=
      if startsWith ruleId "@" then slice ruleId 0 (Some (lastIndexOf ruleId "/"))
      else slice ruleId 0 (Some (indexOf ruleId "/" 0)) in
    {| pluginName := pluginName;
       ruleName := slice ruleId (Z.of_nat (String.length pluginName) + 1) None |}
  else
    {| pluginName := "@"; ruleName := ruleId |}.

(** [getRuleFromConfig(ruleId, config)], the same text in both revisions:
    every step of the path is guarded, and a function rule is wrapped in a
    new object [{ create: rule }]. *)
Definition getRuleFromConfig `{Builtins} (ruleId : string) (config : JsValue) : M World JsValue :=
  let parsed := parseRuleId ruleId in
  plugins <- liftO (get config "plugins") ;;
  plugin <- liftO (js_and plugins (get plugins (pluginName parsed))) ;;
  rule <- liftO (js_and plugin
                   (let! rules := get plugin "rules" in
                    js_and rules (get rules (ruleName parsed)))) ;;
  if truthy rule && String.eqb (typeof rule) "function" then
    id <- fresh ;;
    ret (JObj id [("create", rule)])
  else
    ret rule.

(** [getRuleOptionsSchema(rule)] of the last revision: the schema as the rule
    gives it, an array schema included. *)
Definition getRuleOptionsSchema `{Builtins} (rule : JsValue) : Outcome JsValue :=
  if negb (truthy rule) then Returned JNull
  else
    let! schema := get rule "schema" in
    if truthy schema then get rule "schema"
    else
      let! meta := get rule "meta" in
      let! metaSchema := js_and meta (get meta "schema") in
      if truthy metaSchema then
        let! meta := get rule "meta" in get meta "schema"
      else Returned JNull.

End FlatConfigHelpersParse.

(** ** lib/shared/ecma-versions.js *)

Module EcmaVersions.

(** The numbers this module handles: the integers (those a number holds
    exactly), and [NaN]. *)
Inductive Num : Type :=
| Int (n : Z)
| NaN.

(** What is passed as a version: a number, a string, or [null], which
    [canonicalizeEcmaVersion] passes on for a version that is not valid. *)
Inductive Version : Type :=
| VNumber (n : Num)
| VString (s : string)
| VNull.

(** A value of type [number | null] is an [option Num]. Its ToBoolean,
    negated. *)
Definition falsy (v : option Num) : bool :=
  match v with
  | Some (Int n) => n =? 0
  | Some NaN | None => true
  end.

(** [v >= k] for an integer literal [k]: [null] counts as zero, and no
    comparison with [NaN] holds. *)
Definition ge (v : option Num) (k : Z) : bool :=
  match v with
  | Some (Int n) => k <=? n
  | Some NaN => false
  | None => k <=? 0
  end.

(** [v === k] for an integer literal [k]. *)
Definition identical (v : option Num) (k : Z) : bool :=
  match v with
  | Some (Int n) => n =? k
  | _ => false
  end.

Definition asVersion (v : option Num) : Version :=
  match v with
  | Some n => VNumber n
  | None => VNull
  end.

(** ToString, as [RegExp.prototype.exec] and a template literal apply it. *)
Definition toString (version : Version) : string :=
  match version with
  | VNumber (Int n) => pretty n
  | VNumber NaN => "NaN"
  | VString s => s
  | VNull => "null"
  end.

(** [c] is a character of the class [[lo-hi]]. *)
Definition charIn (lo hi c : ascii) : bool :=
  (nat_of_ascii lo <=? nat_of_ascii c)%nat && (nat_of_ascii c <=? nat_of_ascii hi)%nat.

(** The group [version] of [ecmaVersionRegex],
    [3|5|[6-9]|[1-9][0-9]|201[5-9]|20[2-9][0-9]], matched against the whole
    of a text. *)
Definition versionGroup (text : string) : bool :=
  match text with
  | String c EmptyString => Ascii.eqb c "3" || Ascii.eqb c "5" || charIn "6" "9" c
  | String c1 (String c2 EmptyString) => charIn "1" "9" c1 && charIn "0" "9" c2
  | String c1 (String c2 (String c3 (String c4 EmptyString))) =>
      Ascii.eqb c1 "2" && Ascii.eqb c2 "0"
      && ((Ascii.eqb c3 "1" && charIn "5" "9" c4)
          || (charIn "2" "9" c3 && charIn "0" "9" c4))
  | _ => false
  end.

(** The letter U+017F, the long s. A string holds a character outside ASCII
    as its bytes in UTF-8: for this one, C5 BF. *)
Definition longS : string :=
  String (ascii_of_nat 197) (String (ascii_of_nat 191) EmptyString).

(** One character that matches [s] under the flags [ui], and the text after
    it. With [u], the flag [i] compares characters by their simple case
    folding: [s], [S] and the long s fold to [s]. *)
Definition matchS (text : string) : option string :=
  match text with
  | String c rest =>
      if Ascii.eqb c "s" || Ascii.eqb c "S" then Some rest
      else
        match rest with
        | String c' rest' =>
            if (nat_of_ascii c =? 197)%nat && (nat_of_ascii c' =? 191)%nat then Some rest'
            else None
        | EmptyString => None
        end
  | EmptyString => None
  end.

(** [ecmaVersionRegex.exec(text)]: on a match, the text of the group
    [version]. Only [e] and [E] fold to [e], and a digit matches nothing but
    itself. *)
Definition ecmaVersionRegex_exec (text : string) : option string :=
  match text with
  | String e rest =>
      if Ascii.eqb e "e" || Ascii.eqb e "E" then
        match matchS rest with
        | Some version => if versionGroup version then Some version else None
        | None => None
        end
      else None
  | EmptyString => None
  end.

(** The decimal digits a text begins with, as a number, and how many they
    are. *)
Fixpoint leadingDigits (text : string) (acc : Z) (count : nat) : Z * nat :=
  match text with
  | EmptyString => (acc, count)
  | String c text' =>
      match digit_of c with
      | Some d => leadingDigits text' (10 * acc + Z.of_nat d) (S count)
      | None => (acc, count)
      end
  end.

(** [Number.parseInt(text, 10)], for a text without leading white space or
    sign. *)
Definition Number_parseInt (text : string) : Num :=
  match leadingDigits text 0 0 with
  | (_, O) => NaN
  | (n, S _) => Int n
  end.

(** [version - 2009]. A string gets here only after it has matched
    [ecmaVersionRegex]: it begins with [es], so it converts to [NaN]. *)
Definition minus2009 (version : Version) : Num :=
  match version with
  | VNumber (Int n) => Int (n - 2009)
  | VNumber NaN => NaN
  | VString _ => NaN
  | VNull => Int (0 - 2009)
  end.

(** [2009 + n]. *)
Definition plus2009 (n : Num) : Num :=
  match n with
  | Int n => Int (2009 + n)
  | NaN => NaN
  end.

Section ForwardReference.

(** The helpers call [isSupportedEcmaVersion], which the module defines
    after them, and only under [limitToSupportedVersions]. *)
Variable isSupportedEcmaVersion : Version -> bool.

(** [getEcmaVersionNumberFromStringOrNumber(version,
    { limitToSupportedVersions })]. A call without the options is the call
    with [true]. *)
Definition getEcmaVersionNumberFromStringOrNumber
    (version : Version) (limitToSupportedVersions : bool) : option Num :=
  match version with
  | VNumber n =>
      if limitToSupportedVersions && negb (isSupportedEcmaVersion version) then None
      else
        match n with
        | Int v =>
            if (v =? 3) || (v =? 5) || ((6 <=? v) && (v <? 100))
               || ((2015 <=? v) && (v <? 2100))
            then Some n
            else None
        | NaN => None
        end
  | _ =>
      match ecmaVersionRegex_exec (toString version) with
      | None => None
      | Some group =>
          if limitToSupportedVersions && negb (isSupportedEcmaVersion version) then None
          else Some (Number_parseInt group)
      end
  end.

(** [ecmaVersionToYear(version, { limitToSupportedVersions })]. *)
Definition ecmaVersionToYear (version : Version) (limitToSupportedVersions : bool)
  : option Num :=
  let versionNum :=
    getEcmaVersionNumberFromStringOrNumber version limitToSupportedVersions in
  if falsy versionNum then None
  else if ge versionNum 2015 then versionNum
  else if ge versionNum 6 then option_map plus2009 versionNum
  else None.

(** [ecmaVersionToSpecRevision(version, { limitToSupportedVersions })]. The
    first branch subtracts from [version], not from [versionNum]. *)
Definition ecmaVersionToSpecRevision (version : Version) (limitToSupportedVersions : bool)
  : option Num :=
  let versionNum :=
    getEcmaVersionNumberFromStringOrNumber version limitToSupportedVersions in
  if ge versionNum 2015 then Some (minus2009 version)
  else if ge versionNum 5 || identical versionNum 3 then versionNum
  else None.

(** [canonicalizeEcmaVersion(version, { limitToSupportedVersions })]. *)
Definition canonicalizeEcmaVersion (version : Version) (limitToSupportedVersions : bool)
  : option Num :=
  let versionNum :=
    getEcmaVersionNumberFromStringOrNumber version limitToSupportedVersions in
  let year := ecmaVersionToYear (asVersion versionNum) limitToSupportedVersions in
  if negb (falsy year) then year
  else
    let revision := ecmaVersionToSpecRevision (asVersion versionNum) limitToSupportedVersions in
    if negb (falsy revision) then revision
    else None.

(** [isEcmaVersion(version)]. *)
Definition isEcmaVersion (version : Version) : bool :=
  match getEcmaVersionNumberFromStringOrNumber version false with
  | Some _ => true
  | None => false
  end.

(** [compareEcmaVersions(versionA, versionB)]. *)
Definition compareEcmaVersions (versionA versionB : Version) : Outcome Z :=
  let revisionA := ecmaVersionToSpecRevision versionA false in
  let revisionB := ecmaVersionToSpecRevision versionB false in
  if falsy revisionA then
    Thrown (Error ("Invalid ECMAScript version: " +:+ toString versionA))
  else if falsy revisionB then
    Thrown (Error ("Invalid ECMAScript version: " +:+ toString versionB))
  else
    match revisionA, revisionB with
    | Some (Int a), Some (Int b) =>
        if a =? b then Returned 0
        else if a <? b then Returned (-1) else Returned 1
    | _, _ => Returned 1
    end.

End ForwardReference.

(** [isSupportedEcmaVersion(version)], given the set
    [supportedEcmaVersionsSet] that the module builds from [conf/globals]
    when it loads. The call it makes runs without
    [limitToSupportedVersions], so it does not come back here. *)
Definition isSupportedEcmaVersion (supportedEcmaVersionsSet : list Z) (version : Version)
  : bool :=
  match canonicalizeEcmaVersion (fun _ => false) version false with
  | Some (Int n) => existsb (Z.eqb n) supportedEcmaVersionsSet
  | _ => false
  end.

End EcmaVersions.

(** ** More notions the properties are stated with *)

(** The cuts of [before ++ after] at the slashes of [after], from left to
    right: the text before the slash and the text after it. *)
Fixpoint slashSplits (before after : string) : list (string * string) :=
  match after with
  | EmptyString => []
  | String c rest =>
      ((if Ascii.eqb c "/" then [(before, rest)] else [])
       ++ slashSplits (before +:+ String c EmptyString) rest)%list
  end.

(** [undefined] or [null]: the values no property can be read from. *)
Definition nullish (v : JsValue) : bool :=
  match v with JUndefined | JNull => true | _ => false end.


(** An entry of [config.rules] that the loop of [validate] passes over. *)
Definition skippedEntry `{Builtins} (entry : string * JsValue) : Prop :=
  fst entry = "__proto__" \/ get (snd entry) "0" = Returned (JNum 0).

(** More inputs of the examples. *)
Definition scopedConfig : JsValue :=
  JObj 1 [("plugins",
     JObj 2 [("@scope/plugin", JObj 3 [("rules", JObj 4 [("rule", JObj 5 [])])]);
             ("broken", JNull)])].

(** Rules configured under ["__proto__"] and with severity [0]; the plugins
    register none of them. *)
Definition skippedConfig : JsValue :=
  JObj 1 [("rules", JObj 2 [("__proto__", JArr 3 [JNum 2]);
                            ("off-rule", JArr 4 [JNum 0; JStr "anything"])]);
          ("plugins", JObj 5 [])].

(** The first entry has an option its rule's schema rejects. *)
Definition failingConfig : JsValue :=
  JObj 1 [("rules", JObj 2 [("semi", JArr 20 [JNum 2; JStr "sometimes"]);
                            ("x/semi", JArr 21 [JNum 1; JStr "never"])]);
          ("plugins",
           JObj 3 [("@", JObj 4 [("rules", JObj 9 [("semi", semiRule)])]);
                   ("x", JObj 10 [("rules", JObj 11 [("semi", semiRule)])])])].

(** An instance that has cached a validator, one that accepts everything,
    under the identity of [semiRule]. *)
Definition staleInstance : RuleValidator.State :=
  ({| RuleValidator.validators := <[5%nat := fun _ => None]> ∅ |}, world0).

(** What [validate] throws on [failingConfig], with the engine of the
    examples. *)
Definition failingError : Exception :=
  Error ("Key " +:+ dquote +:+ "rules" +:+ dquote +:+ ": Key "
         +:+ dquote +:+ "semi" +:+ dquote +:+ ": " +:+ tab +:+ "Value "
         +:+ dquote +:+ "sometimes" +:+ dquote
         +:+ " should be equal to one of the allowed values." +:+ newline).

(** A valid ECMAScript version number: 3, 5, 6 to 99, or 2015 to 2099. *)
Definition validVersion (n : Z) : Prop :=
  n = 3 \/ n = 5 \/ 6 <= n < 100 \/ 2015 <= n < 2100.

(** The revision of the specification a valid version number stands for:
    the year 2015 is revision 6. *)
Definition revisionOf (n : Z) : Z :=
  if 2015 <=? n then n - 2009 else n.

(** The sign of a comparison, as [compareEcmaVersions] returns it. *)
Definition signOf (c : comparison) : Z :=
  match c with
  | Eq => 0
  | Lt => -1
  | Gt => 1
  end.

(** The canonical form of a valid version number: the year from ES6 on,
    the revision for ES3 and ES5. *)
Definition canonicalOf (n : Z) : Z :=
  if (6 <=? n) && (n <? 100) then 2009 + n else n.

(** The valid version numbers, listed. *)
Definition validVersions : list Z :=
  3 :: 5 :: (map Z.of_nat (seq 6 94) ++ map Z.of_nat (seq 2015 85))%list.

(** The schema that [getRuleOptionsSchema] makes for [semiRule] when the
    next new object is number 1000, and what the engine of the examples
    compiles it to. *)
Definition semiSchema : JsValue :=
  JObj 1000 [("type", JStr "array");
             ("items", JArr 6 [JObj 7 [("enum", JArr 8 [JStr "always"; JStr "never"])]]);
             ("minItems", JNum 0);
             ("maxItems", JNum 1)].

Definition semiValidator : Ajv.ValidateFunction :=
  fun data => match JsonSchema.check semiSchema "" data with
              | [] => None
              | errors => Some errors
              end.

(** A rule whose schema the engine of the examples refuses to compile. *)
Definition rejectedRule : JsValue := JObj 7 [("schema", JNum 1)].

Definition rejectedConfig : JsValue :=
  JObj 1 [("rules", JObj 2 [("r", JArr 3 [JNum 2])]);
          ("plugins", JObj 4 [("@", JObj 5 [("rules", JObj 6 [("r", rejectedRule)])])])].

(** * Properties *)

(** ** The model on examples *)

Example slice_prefix : slice "a/3/4" 0 (Some 1) = "a".
Proof. reflexivity. Qed.

Example slice_suffix : slice "a/3/4" 2 None = "3/4".
Proof. reflexivity. Qed.

Example indexOf_slash : indexOf "a/3/4" "/" 0 = 1 /\ lastIndexOf "a/3/4" "/" = 3.
Proof. split; reflexivity. Qed.

Example entries_of_array :
  Object_entries (JArr 0 [JNum 7; JNum 8]) = Returned [("0", JNum 7); ("1", JNum 8)].
Proof. reflexivity. Qed.

Example splits_a34 :
  StringUtils.enumerateSplitPoints "a/3/4" "/" false false
  = Returned [("a", "3/4"); ("a/3", "4")].
Proof. reflexivity. Qed.

Example matches_a34 :
  RuleLookup.enumerateObjectIdMatches (get_own tieBreakConfig "plugins") "rules" "a/3/4"
  = Returned [("a", "3/4"); ("a/3", "4")].
Proof. reflexivity. Qed.

Example resolve_single_slash :
  RuleLookup.resolveRuleId "a/3" (JObj 1 [("plugins", JObj 2 [("a", JObj 3 [("rules", JObj 4 [("3", JObj 5 [])])])])])
  = Returned {| pluginName := "a"; ruleName := "3" |}.
Proof. reflexivity. Qed.

Example validate_enum_ok :
  JsonSchema.validate
    (JObj 1 [("type", JStr "array"); ("items", JArr 2 [JObj 3 [("enum", JArr 4 [JNum 0])]]);
             ("minItems", JNum 0); ("maxItems", JNum 1)])
    (JArr 5 [JNum 0]) = Returned true.
Proof. reflexivity. Qed.

Example validate_enum_bad :
  JsonSchema.validate
    (JObj 1 [("type", JStr "array"); ("items", JArr 2 [JObj 3 [("enum", JArr 4 [JNum 0])]]);
             ("minItems", JNum 0); ("maxItems", JNum 1)])
    (JArr 5 [JNum 1]) = Returned false.
Proof. reflexivity. Qed.

Example validate_too_long :
  JsonSchema.validate
    (JObj 1 [("type", JStr "array"); ("items", JArr 2 [JObj 3 [("enum", JArr 4 [JNum 0])]]);
             ("minItems", JNum 0); ("maxItems", JNum 1)])
    (JArr 5 [JNum 0; JNum 1]) = Returned false.
Proof. reflexivity. Qed.

(** ** Strings: searching and slicing around a slash *)

Section SlashFacts.

Local Open Scope nat_scope.

Lemma prefix_empty (s : string) : String.prefix "" s = true.
Proof. destruct s; reflexivity. Qed.

Lemma prefix_slash_cons (a : ascii) (s : string) :
  String.prefix "/" (String a s) = Ascii.eqb a "/".
Proof.
  cbn [String.prefix]. destruct (ascii_dec "/" a) as [<-|Hne].
  - apply prefix_empty.
  - symmetry. apply Ascii.eqb_neq. congruence.
Qed.

Lemma index_slash_cons (a : ascii) (s : string) :
  String.index 0 "/" (String a s)
  = if Ascii.eqb a "/" then Some 0
    else match String.index 0 "/" s with Some n => Some (S n) | None => None end.
Proof. cbn [String.index]. now rewrite prefix_slash_cons. Qed.

Lemma lastIndexOf_from_cons (a : ascii) (s : string) (pos : nat) (found : Z) :
  lastIndexOf_from "/" (String a s) pos found
  = lastIndexOf_from "/" s (S pos) (if Ascii.eqb a "/" then Z.of_nat pos else found).
Proof. cbn [lastIndexOf_from]. now rewrite prefix_slash_cons. Qed.

Lemma count_char_cons (c a : ascii) (s : string) :
  count_char c (String a s) = (if Ascii.eqb a c then 1 else 0) + count_char c s.
Proof. reflexivity. Qed.

Lemma index_slash_none (s : string) :
  count_char "/" s = 0 -> String.index 0 "/" s = None.
Proof.
  induction s as [|a s IH]; [reflexivity|].
  rewrite count_char_cons, index_slash_cons.
  destruct (Ascii.eqb a "/"); [discriminate|].
  intros Hc. now rewrite (IH Hc).
Qed.

Lemma index_slash_some (s : string) :
  0 < count_char "/" s -> exists i, String.index 0 "/" s = Some i.
Proof.
  induction s as [|a s IH]; [cbn; lia|].
  rewrite count_char_cons, index_slash_cons.
  destruct (Ascii.eqb a "/"); [eauto|].
  intros Hc. destruct (IH Hc) as [i ->]. eauto.
Qed.

Lemma index_slash_app (p r : string) :
  count_char "/" p = 0 -> String.index 0 "/" (p +:+ "/" +:+ r) = Some (String.length p).
Proof.
  induction p as [|a p IH].
  - intros _. change ("" +:+ "/" +:+ r) with (String "/" r).
    now rewrite index_slash_cons.
  - change (String a p +:+ "/" +:+ r) with (String a (p +:+ "/" +:+ r)).
    rewrite count_char_cons, index_slash_cons.
    destruct (Ascii.eqb a "/"); [discriminate|].
    intros Hc. now rewrite (IH Hc).
Qed.

Lemma lastIndexOf_from_none (s : string) (pos : nat) (found : Z) :
  count_char "/" s = 0 -> lastIndexOf_from "/" s pos found = found.
Proof.
  revert pos found. induction s as [|a s IH]; intros pos found; [reflexivity|].
  rewrite count_char_cons, lastIndexOf_from_cons.
  destruct (Ascii.eqb a "/"); [discriminate|].
  intros Hc. now rewrite (IH _ _ Hc).
Qed.

Lemma lastIndexOf_from_app (p r : string) (pos : nat) (found : Z) :
  count_char "/" r = 0 ->
  lastIndexOf_from "/" (p +:+ "/" +:+ r) pos found = Z.of_nat (pos + String.length p).
Proof.
  intros Hr. revert pos found. induction p as [|a p IH]; intros pos found.
  - change ("" +:+ "/" +:+ r) with (String "/" r).
    rewrite lastIndexOf_from_cons, (lastIndexOf_from_none _ _ _ Hr).
    cbn. f_equal. lia.
  - change (String a p +:+ "/" +:+ r) with (String a (p +:+ "/" +:+ r)).
    rewrite lastIndexOf_from_cons, IH. f_equal. cbn [String.length]. lia.
Qed.

(** With a slash in the string, the last one is at or after the position the
    scan starts from. *)
Lemma lastIndexOf_from_ge (s : string) (pos : nat) (found : Z) :
  0 < count_char "/" s -> (Z.of_nat pos <= lastIndexOf_from "/" s pos found)%Z.
Proof.
  revert pos found. induction s as [|a s IH]; intros pos found; [cbn; lia|].
  rewrite count_char_cons, lastIndexOf_from_cons.
  destruct (Ascii.eqb a "/").
  - intros _. destruct (Nat.eq_dec (count_char "/" s) 0) as [Hz|Hnz].
    + rewrite (lastIndexOf_from_none _ _ _ Hz). lia.
    + specialize (IH (S pos) (Z.of_nat pos) ltac:(lia)). lia.
  - intros Hc. specialize (IH (S pos) found ltac:(lia)). lia.
Qed.

Lemma index_slash_split (s : string) (i : nat) :
  String.index 0 "/" s = Some i ->
  exists p r, s = p +:+ "/" +:+ r /\ String.length p = i /\ count_char "/" p = 0.
Proof.
  revert i. induction s as [|a s IH]; intros i; [discriminate|].
  rewrite index_slash_cons.
  destruct (Ascii.eqb_spec a "/"%char) as [->|Hne].
  - intros [= <-]. exists "", s. auto.
  - destruct (String.index 0 "/" s) as [j|] eqn:Hj; [|discriminate].
    intros [= <-]. destruct (IH j eq_refl) as (p & r & -> & Hlen & Hcnt).
    exists (String a p), r. rewrite count_char_cons, Hcnt. cbn [String.length].
    rewrite Hlen. destruct (Ascii.eqb_spec a "/"%char) as [->|_]; [congruence|auto].
Qed.

Lemma count_char_app (c : ascii) (p r : string) :
  count_char c (p +:+ r) = count_char c p + count_char c r.
Proof. induction p as [|a p IH]; simpl; [reflexivity|]. rewrite IH. lia. Qed.

Lemma substring_prefix (p r : string) :
  substring 0 (String.length p) (p +:+ r) = p.
Proof.
  induction p as [|a p IH]; simpl.
  - destruct r; reflexivity.
  - now rewrite IH.
Qed.

Lemma substring_all (r : string) : substring 0 (String.length r) r = r.
Proof. induction r as [|b r IH]; simpl; [reflexivity|]. now rewrite IH. Qed.

Lemma substring_suffix (p r : string) :
  substring (String.length p) (String.length r) (p +:+ r) = r.
Proof. induction p as [|a p IH]; simpl; [apply substring_all|exact IH]. Qed.

Lemma length_app (p r : string) :
  String.length (p +:+ r) = String.length p + String.length r.
Proof. induction p as [|a p IH]; simpl; [reflexivity|]. now rewrite IH. Qed.

End SlashFacts.

Lemma indexOf_no_slash (s : string) :
  count_char "/" s = 0%nat -> indexOf s "/" 0 = -1.
Proof. intros H. unfold indexOf. now rewrite index_slash_none. Qed.

Lemma indexOf_app (p r : string) :
  count_char "/" p = 0%nat -> indexOf (p +:+ "/" +:+ r) "/" 0 = Z.of_nat (String.length p).
Proof. intros H. unfold indexOf. now rewrite index_slash_app. Qed.

Lemma lastIndexOf_app (p r : string) :
  count_char "/" r = 0%nat -> lastIndexOf (p +:+ "/" +:+ r) "/" = Z.of_nat (String.length p).
Proof. intros H. unfold lastIndexOf. now rewrite lastIndexOf_from_app. Qed.

Lemma slice_before_slash (p r : string) :
  slice (p +:+ "/" +:+ r) 0 (Some (Z.of_nat (String.length p))) = p.
Proof.
  unfold slice, clamp_index. rewrite length_app. simpl String.length.
  replace (0 <? 0) with false by reflexivity.
  destruct (Z.ltb_spec (Z.of_nat (String.length p)) 0) as [Hlt|_]; [lia|].
  rewrite Z.min_l by lia. rewrite Z.min_l by lia.
  rewrite Z.sub_0_r, Nat2Z.id. apply substring_prefix.
Qed.

Lemma app_slash_assoc (p r : string) : p +:+ "/" +:+ r = (p +:+ "/") +:+ r.
Proof.
  induction p as [|a p IH]; [reflexivity|].
  change (String a (p +:+ "/" +:+ r) = String a ((p +:+ "/") +:+ r)).
  now rewrite IH.
Qed.

Lemma slice_after_slash (p r : string) :
  slice (p +:+ "/" +:+ r) (Z.of_nat (String.length p) + 1) None = r.
Proof.
  unfold slice, clamp_index.
  rewrite app_slash_assoc, length_app.
  assert (Hl : Z.of_nat (String.length p) + 1 = Z.of_nat (String.length (p +:+ "/"))).
  { rewrite length_app. simpl. lia. }
  rewrite Hl.
  destruct (Z.ltb_spec (Z.of_nat (String.length (p +:+ "/"))) 0) as [Hlt|_]; [lia|].
  rewrite Z.min_l by lia.
  rewrite Nat2Z.id.
  replace (Z.to_nat _) with (String.length r) by lia.
  apply substring_suffix.
Qed.

(** Two or more slashes: the first and the last one are at different places. *)
Lemma two_slashes_indices (s : string) :
  (2 <= count_char "/" s)%nat ->
  indexOf s "/" 0 <> -1 /\ indexOf s "/" 0 <> lastIndexOf s "/".
Proof.
  intros Hc. unfold indexOf, lastIndexOf.
  destruct (index_slash_some s ltac:(lia)) as [i Hi]. rewrite Hi.
  split; [lia|].
  destruct (index_slash_split s i Hi) as (p & r & -> & Hlen & Hp).
  rewrite !count_char_app in Hc. simpl in Hc.
  assert (Hr : (0 < count_char "/" r)%nat) by lia.
  clear Hi Hc. subst i.
  assert (Hgen : forall pos found,
            (Z.of_nat (pos + String.length p) < lastIndexOf_from "/" (p +:+ "/" +:+ r) pos found)).
  { clear -Hr. induction p as [|a p IH]; intros pos found.
    - change ("" +:+ "/" +:+ r) with (String "/" r). rewrite lastIndexOf_from_cons.
      pose proof (lastIndexOf_from_ge r (S pos)
        (if Ascii.eqb "/" "/" then Z.of_nat pos else found) Hr).
      cbn [String.length]. lia.
    - change (String a p +:+ "/" +:+ r) with (String a (p +:+ "/" +:+ r)).
      rewrite lastIndexOf_from_cons.
      specialize (IH (S pos) (if Ascii.eqb a "/" then Z.of_nat pos else found)).
      cbn [String.length]. lia. }
  specialize (Hgen 0%nat (-1)). simpl in Hgen. lia.
Qed.

(** ** [enumerateSplitPoints]: the loop ends before its fuel does *)

Lemma prefix_length (s1 s2 : string) :
  String.prefix s1 s2 = true -> (String.length s1 <= String.length s2)%nat.
Proof.
  revert s2. induction s1 as [|a s1 IH]; intros s2; cbn [String.length]; [lia|].
  destruct s2 as [|b s2]; cbn [String.prefix String.length]; [discriminate|].
  destruct (ascii_dec a b); [|discriminate].
  intros Hp. specialize (IH _ Hp). lia.
Qed.

(** An occurrence found from position [n] starts at or after [n] and lies
    within the string. *)
Lemma index_bounds (s1 s2 : string) (n m : nat) :
  String.index n s1 s2 = Some m ->
  (n <= m /\ m + String.length s1 <= String.length s2)%nat.
Proof.
  revert n m. induction s2 as [|b s2 IH]; intros n m.
  - destruct n; cbn [String.index]; [|discriminate].
    destruct s1; [|discriminate]. intros [= <-]. cbn. lia.
  - destruct n as [|n]; cbn [String.index].
    + destruct (String.prefix s1 (String b s2)) eqn:Hp.
      * intros [= <-]. apply prefix_length in Hp. lia.
      * destruct (String.index 0 s1 s2) as [k|] eqn:Hk; [|discriminate].
        intros [= <-]. destruct (IH _ _ Hk). cbn [String.length]. lia.
    + destruct (String.index n s1 s2) as [k|] eqn:Hk; [|discriminate].
      intros [= <-]. destruct (IH _ _ Hk). cbn [String.length]. lia.
Qed.

Lemma indexOf_bounds (str sep : string) (from : nat) :
  indexOf str sep from = -1
  \/ (Z.of_nat from <= indexOf str sep from
      /\ indexOf str sep from + Z.of_nat (String.length sep) <= Z.of_nat (String.length str)).
Proof.
  unfold indexOf. destruct (String.index from sep str) as [m|] eqn:Hm; [right|now left].
  apply index_bounds in Hm. lia.
Qed.

(** Any two amounts of fuel above the distance from [splitPoint] to the end
    of the string give the same pairs. *)
Lemma splitLoop_fuel (str sep : string) (fuel1 fuel2 : nat) (splitPoint : Z) :
  sep <> "" ->
  splitPoint <= Z.of_nat (String.length str) ->
  Z.of_nat (String.length str) < Z.of_nat fuel1 + splitPoint ->
  Z.of_nat (String.length str) < Z.of_nat fuel2 + splitPoint ->
  StringUtils.splitLoop fuel1 str sep splitPoint
  = StringUtils.splitLoop fuel2 str sep splitPoint.
Proof.
  intros Hsep. assert (Hlen : (0 < String.length sep)%nat).
  { destruct sep; [contradiction|cbn; lia]. }
  revert fuel2 splitPoint.
  induction fuel1 as [|fuel1 IH]; intros fuel2 splitPoint Hle H1 H2.
  - lia.
  - destruct fuel2 as [|fuel2]; [lia|]. cbn [StringUtils.splitLoop].
    destruct (Z.ltb_spec 0 splitPoint) as [Hpos|_]; [|reflexivity].
    f_equal.
    destruct (indexOf_bounds str sep
                (Z.to_nat (splitPoint + Z.of_nat (String.length sep)))) as [->|[Hge Hin]].
    + destruct fuel1, fuel2; reflexivity.
    + apply IH; lia.
Qed.

(** More fuel than [enumerateSplitPoints] gives its loop changes nothing. *)
Lemma enumerateSplitPoints_fuel (str sep : string) (extra : nat) :
  sep <> "" ->
  StringUtils.splitLoop (S (String.length str) + extra) str sep (indexOf str sep 0)
  = StringUtils.splitLoop (S (String.length str)) str sep (indexOf str sep 0).
Proof.
  intros Hsep.
  destruct (indexOf_bounds str sep 0) as [E|[Hge Hin]].
  - rewrite E. reflexivity.
  - destruct (Z.eq_dec (indexOf str sep 0) 0) as [E|Hne].
    + rewrite E. reflexivity.
    + apply splitLoop_fuel; [exact Hsep|lia|lia|lia].
Qed.

(** ** Reading properties *)

Section ReadingFacts.

Context `{Builtins}.

(** A property the value has of its own is what is read. *)
Lemma get_own_read (v : JsValue) (k : string) :
  nullish v = false -> has_own v k = true -> get v k = Returned (get_own v k).
Proof. destruct v; cbn; intros Hn Ho; try discriminate; now rewrite Ho. Qed.

Lemma get_nullish (v : JsValue) (k : string) :
  nullish v = true -> exists msg, get v k = Thrown (TypeError msg).
Proof. destruct v; cbn; intros Hn; try discriminate; eauto. Qed.

(** A read throws nothing but a [TypeError]. *)
Lemma get_thrown (v : JsValue) (k : string) (e : Exception) :
  get v k = Thrown e -> exists msg, e = TypeError msg.
Proof.
  destruct v; cbn [get]; try (intros [= <-]; eauto; fail);
    destruct (has_own _ _); try discriminate; apply builtin_throws_TypeError.
Qed.

(** The decimal numeral of an index reads back as that index. *)
Lemma digit_of_pretty_N_char (d : N) :
  (d < 10)%N -> digit_of (pretty_N_char d) = Some (N.to_nat d).
Proof.
  intros Hd.
  assert (Hcases : In d [0; 1; 2; 3; 4; 5; 6; 7; 8; 9]%N).
  { cbn [In]. lia. }
  cbn [In] in Hcases.
  repeat (destruct Hcases as [<-|Hcases]; [reflexivity|]). destruct Hcases.
Qed.

Lemma parse_digits_pretty_N_go (x : N) (s : string) (acc : nat) :
  exists k : nat,
    parse_digits (pretty_N_go x s) acc = parse_digits s (acc * 10 ^ k + N.to_nat x)%nat.
Proof.
  revert s acc. induction (N.lt_wf_0 x) as [x _ IH]. intros s acc.
  destruct (N.eq_dec x 0%N) as [->|Hx].
  - exists 0%nat. rewrite pretty_N_go_0. f_equal. cbn. lia.
  - rewrite pretty_N_go_step by lia.
    destruct (IH (x `div` 10)%N ltac:(apply N.div_lt; lia)
                (String (pretty_N_char (x `mod` 10)) s) acc) as [k ->].
    exists (S k). cbn [parse_digits].
    rewrite digit_of_pretty_N_char by (apply N.mod_lt; lia).
    f_equal. rewrite Nat.pow_succ_r'.
    pose proof (N.div_mod x 10%N ltac:(lia)) as Hdm.
    assert (Hnat : N.to_nat x
                   = (10 * N.to_nat (x `div` 10) + N.to_nat (x `mod` 10))%nat) by lia.
    rewrite Hnat. lia.
Qed.

Lemma pretty_N_go_leading (x : N) (s : string) :
  (0 < x)%N -> exists c rest, pretty_N_go x s = String c rest /\ c <> "0"%char.
Proof.
  revert s. induction (N.lt_wf_0 x) as [x _ IH]. intros s Hx.
  rewrite pretty_N_go_step by exact Hx.
  destruct (N.lt_ge_cases x 10%N) as [Hlt|Hge].
  - rewrite N.div_small by exact Hlt. rewrite pretty_N_go_0, N.mod_small by exact Hlt.
    eexists _, _. split; [reflexivity|].
    assert (Hcases : In x [1; 2; 3; 4; 5; 6; 7; 8; 9]%N) by (cbn [In]; lia).
    cbn [In] in Hcases.
    repeat (destruct Hcases as [<-|Hcases]; [discriminate|]). destruct Hcases.
  - apply IH; [apply N.div_lt; lia|]. apply N.div_str_pos. lia.
Qed.

Lemma parse_index_digits (c : ascii) (rest : string) :
  c <> "0"%char -> parse_index (String c rest) = parse_digits (String c rest) 0.
Proof.
  intros Hc. destruct c as [[] [] [] [] [] [] [] []]; try reflexivity. contradiction.
Qed.

Lemma parse_index_pretty (i : nat) : parse_index (pretty i) = Some i.
Proof.
  unfold pretty, pretty_nat, pretty, pretty_N.
  destruct (decide (N.of_nat i = 0%N)) as [Hz|Hnz].
  - replace i with 0%nat by lia. reflexivity.
  - destruct (pretty_N_go_leading (N.of_nat i) "" ltac:(lia)) as (c & rest & Heq & Hc).
    destruct (parse_digits_pretty_N_go (N.of_nat i) "" 0) as [k Hk].
    rewrite Heq in *. rewrite (parse_index_digits _ _ Hc), Hk. cbn [parse_digits].
    f_equal. lia.
Qed.

(** An own key of a value, as [Object.keys] lists it, is a property the
    value has of its own. *)
Lemma assoc_key {A : Type} (k : string) (l : list (string * A)) :
  In k (map fst l) -> exists v, assoc k l = Some v.
Proof.
  induction l as [|[k' v'] l IH]; cbn [map fst In assoc]; [intros []|].
  intros Hin. destruct (String.eqb_spec k k') as [->|Hne]; [eauto|].
  destruct Hin as [->|Hin]; [contradiction|auto].
Qed.

Lemma imap_keys {A B : Type} (f : A -> B) (l : list A) (start : nat) (k : string) :
  In k (map fst (imap (fun i a => (pretty (start + i)%nat, f a)) l)) ->
  exists i, k = pretty i /\ (start <= i < start + List.length l)%nat.
Proof.
  revert start. induction l as [|a l IH]; intros start; cbn [imap map fst In]; [intros []|].
  intros [<-|Hin].
  - exists start. rewrite Nat.add_0_r. cbn [List.length]. split; [reflexivity|lia].
  - assert (Hshift : imap ((fun i a => (pretty (start + i)%nat, f a)) ∘ S) l
                     = imap (fun i a => (pretty (S start + i)%nat, f a)) l).
    { apply imap_ext. intros i x _. cbn. do 2 f_equal. lia. }
    rewrite Hshift in Hin. destruct (IH _ Hin) as (i & -> & Hi).
    exists i. cbn [List.length]. split; [reflexivity|lia].
Qed.

Lemma Object_keys_own (v : JsValue) (names : list string) (k : string) :
  Object_keys v = Returned names -> In k names -> has_own v k = true.
Proof.
  unfold Object_keys.
  destruct v as [| |b|n|s|i|i props|i props|i elems]; cbn [Object_entries bindO has_own];
    try discriminate; intros [= <-]; try (intros []; fail).
  - intros Hin.
    destruct (imap_keys (fun c => JStr (String c EmptyString)) (list_ascii_of_string s) 0 k Hin)
      as (j & -> & Hj).
    rewrite parse_index_pretty. apply orb_true_iff. right. apply Nat.ltb_lt.
    assert (Hlen : List.length (list_ascii_of_string s) = String.length s).
    { clear. induction s as [|a s IH]; cbn; [reflexivity|now rewrite IH]. }
    lia.
  - intros Hin. destruct (assoc_key _ _ Hin) as [x ->]. reflexivity.
  - intros Hin. destruct (assoc_key _ _ Hin) as [x ->]. reflexivity.
  - intros Hin. destruct (imap_keys (fun e => e) elems 0 k Hin) as (j & -> & Hj).
    rewrite parse_index_pretty. apply orb_true_iff. right. apply Nat.ltb_lt. lia.
Qed.

(** The guarded chain of [resolveRuleId] finds something truthy exactly when
    the rule exists; when it throws, a read threw, and the rule does not
    exist. *)
Lemma lookupObject_rules (config plugins : JsValue) (pluginName ruleName : string) :
  get config "plugins" = Returned plugins ->
  truthy plugins = true ->
  match RuleLookup.lookupObject plugins pluginName "rules" ruleName with
  | Returned found => truthy found = true <-> ruleExists config pluginName ruleName
  | Thrown e => (exists msg, e = TypeError msg) /\ ~ ruleExists config pluginName ruleName
  end.
Proof.
  intros Hcfg Hp. unfold RuleLookup.lookupObject, js_and, ruleExists.
  destruct (get plugins pluginName) as [plugin|e1] eqn:H1; cbn [bindO].
  2:{ split; [now apply get_thrown in H1|].
      intros (ps & pl & rs & rl & E1 & _ & E2 & _). congruence. }
  destruct (truthy plugin) eqn:Hplugin.
  2:{ rewrite Hplugin. split; [discriminate|].
      intros (ps & pl & rs & rl & E1 & _ & E2 & T2 & _). congruence. }
  destruct (get plugin "rules") as [rules|e2] eqn:H2; cbn [bindO].
  2:{ split; [now apply get_thrown in H2|].
      intros (ps & pl & rs & rl & E1 & _ & E2 & _ & E3 & _). congruence. }
  destruct (truthy rules) eqn:Hrules.
  2:{ rewrite Hrules. split; [discriminate|].
      intros (ps & pl & rs & rl & E1 & _ & E2 & _ & E3 & T3 & _). congruence. }
  destruct (get rules ruleName) as [found|e3] eqn:H3.
  - split.
    + intros Ht. exists plugins, plugin, rules, found. repeat split; assumption.
    + intros (ps & pl & rs & rl & E1 & _ & E2 & _ & E3 & _ & E4 & T4). congruence.
  - split; [now apply get_thrown in H3|].
    intros (ps & pl & rs & rl & E1 & _ & E2 & _ & E3 & _ & E4 & _). congruence.
Qed.


Lemma lookupObject_thrown (plugins : JsValue) (pn ot on : string) (e : Exception) :
  RuleLookup.lookupObject plugins pn ot on = Thrown e -> exists msg, e = TypeError msg.
Proof.
  unfold RuleLookup.lookupObject, js_and.
  destruct (get plugins pn) as [plugin|e1] eqn:H1; cbn [bindO];
    [|intros [= <-]; now apply get_thrown in H1].
  destruct (truthy plugin); [|discriminate].
  destruct (get plugin ot) as [objects|e2] eqn:H2; cbn [bindO];
    [|intros [= <-]; now apply get_thrown in H2].
  destruct (truthy objects); [|discriminate].
  intros H3. now apply get_thrown in H3.
Qed.

End ReadingFacts.

(** ** [RuleLookupError] *)

Lemma codes_are_the_three_symbols :
  RuleLookupError.codes
  = [RuleLookupError.noBuiltIn; RuleLookupError.notInSpecifiedPlugin;
     RuleLookupError.notInAnyPlugin].
Proof. reflexivity. Qed.

Lemma includes_codes (code : JsValue) :
  String.eqb (typeof code) "symbol" && includes RuleLookupError.codes code = true
  <-> In code RuleLookupError.codes.
Proof.
  rewrite codes_are_the_three_symbols. split.
  - destruct code as [| | | | |id| | |]; try discriminate.
    destruct id as [|[|[|id]]]; simpl; intuition discriminate.
  - simpl. intros [<-|[<-|[<-|[]]]]; reflexivity.
Qed.

(** C5, on the code: the constructor throws for each of the three recognised
    codes and for nothing else; with any other code it returns an instance
    carrying that code. This is the reverse of what the claim and the tests of
    [RuleLookupError] state. *)
Theorem RuleLookupError_new_throws_on_recognized_codes (code : JsValue) (msg : string) :
  (In code RuleLookupError.codes ->
     RuleLookupError.new code msg
     = Thrown (TypeError "Cannot convert a Symbol value to a string"))
  /\ (~ In code RuleLookupError.codes ->
        RuleLookupError.new code msg = Returned {| code := code; message := msg |}).
Proof.
  unfold RuleLookupError.new. split; intros H.
  - apply includes_codes in H. now rewrite H.
  - destruct (String.eqb (typeof code) "symbol" && includes RuleLookupError.codes code) eqn:E;
      [|reflexivity].
    apply includes_codes in E. contradiction.
Qed.

Example RuleLookupError_new_noBuiltIn :
  RuleLookupError.new RuleLookupError.noBuiltIn ""
  = Thrown (TypeError "Cannot convert a Symbol value to a string").
Proof. reflexivity. Qed.

Example RuleLookupError_new_number :
  RuleLookupError.new (JNum 5) "" = Returned {| code := JNum 5; message := "" |}.
Proof. reflexivity. Qed.

(** [throw new RuleLookupError(...)] never returns. *)
Lemma throw_new_not_returned {A : Type} (code : JsValue) (msg : string) (a : A) :
  RuleLookup.throw_new code msg <> Returned a.
Proof.
  unfold RuleLookup.throw_new. destruct (RuleLookupError.new code msg); discriminate.
Qed.

(** Every [throw new RuleLookupError(...)] of the module passes one of the
    three recognised codes: what is thrown is the [TypeError] of the
    constructor. *)
Lemma throw_new_recognized {A : Type} (code : JsValue) (msg : string) :
  In code RuleLookupError.codes ->
  @RuleLookup.throw_new A code msg
  = Thrown (TypeError "Cannot convert a Symbol value to a string").
Proof.
  intros Hin. unfold RuleLookup.throw_new, RuleLookupError.new.
  apply includes_codes in Hin. now rewrite Hin.
Qed.

(** ** [resolveRuleId] *)

Lemma isMapping_truthy (v : JsValue) : isMapping v -> truthy v = true.
Proof. now intros [H _]. Qed.

Lemma nonempty_truthy (s : string) : s <> "" -> truthy (JStr s) = true.
Proof. intros H. simpl. now destruct (String.eqb_spec s ""). Qed.

Lemma resolveRuleId_guard_passes (ruleId : string) (plugins : JsValue) :
  ruleId <> "" -> isMapping plugins ->
  negb (truthy (JStr ruleId)) || negb (String.eqb (typeof (JStr ruleId)) "string")
  || negb (truthy plugins) || negb (String.eqb (typeof plugins) "object") = false.
Proof.
  intros Hr [Ht Ho]. rewrite (nonempty_truthy _ Hr), Ht, Ho. reflexivity.
Qed.

Lemma slashed_nonempty (p r : string) : p +:+ "/" +:+ r <> "".
Proof. destruct p; discriminate. Qed.

Section ResolutionFacts.

Context `{Builtins}.

(** The guard at the top of [resolveRuleId]: with an empty identifier, or a
    [plugins] that is no non-null mapping, the statement
    [throw new RuleLookupError(notInAnyPlugin, ...)] is reached. *)
Lemma resolveRuleId_guard_fails (ruleId : string) (config plugins : JsValue) :
  get config "plugins" = Returned plugins ->
  ruleId = "" \/ ~ isMapping plugins ->
  RuleLookup.resolveRuleId ruleId config
  = RuleLookup.throw_new RuleLookupError.notInAnyPlugin
      ("Could not find " +:+ dquote +:+ ruleId +:+ dquote +:+ " in any plugin.").
Proof.
  intros Hcfg Hbad. unfold RuleLookup.resolveRuleId. rewrite Hcfg. cbn [bindO].
  destruct Hbad as [->|Hno]; [reflexivity|].
  destruct (truthy (JStr ruleId)); [|reflexivity]. cbn [negb orb String.eqb typeof].
  replace (String.eqb "string" "string") with true by reflexivity. cbn [negb orb].
  destruct (truthy plugins) eqn:Ht; [|reflexivity]. cbn [negb orb].
  destruct (String.eqb_spec (typeof plugins) "object") as [Ho|_]; [|reflexivity].
  exfalso. apply Hno. now split.
Qed.

(** Past the guard, an identifier without a slash is looked up in the
    built-in plugin, and the statement
    [throw new RuleLookupError(noBuiltIn, ...)] is reached when nothing
    truthy is found. *)
Lemma resolveRuleId_bare_lookup (r : string) (config plugins : JsValue) :
  count_char "/" r = 0%nat ->
  get config "plugins" = Returned plugins ->
  r <> "" ->
  isMapping plugins ->
  RuleLookup.resolveRuleId r config
  = match RuleLookup.lookupObject plugins "@" "rules" r with
    | Returned found =>
        if truthy found then Returned {| pluginName := "@"; ruleName := r |}
        else RuleLookup.throw_new RuleLookupError.noBuiltIn
               ("There is no built-in rule with the name " +:+ dquote +:+ r +:+ dquote +:+ ".")
    | Thrown e => Thrown e
    end.
Proof.
  intros Hslash Hcfg Hne Hmap.
  unfold RuleLookup.resolveRuleId. rewrite Hcfg. cbn [bindO].
  rewrite (resolveRuleId_guard_passes _ _ Hne Hmap).
  rewrite (indexOf_no_slash _ Hslash). cbn [Z.eqb Pos.eqb].
  now destruct (RuleLookup.lookupObject plugins "@" "rules" r).
Qed.

(** Past the guard, an identifier with one slash is looked up in the plugin
    named before the slash, and the statement
    [throw new RuleLookupError(notInSpecifiedPlugin, ...)] is reached when
    nothing truthy is found. *)
Lemma resolveRuleId_single_slash_lookup (pn rn : string) (config plugins : JsValue) :
  count_char "/" pn = 0%nat ->
  count_char "/" rn = 0%nat ->
  get config "plugins" = Returned plugins ->
  isMapping plugins ->
  RuleLookup.resolveRuleId (pn +:+ "/" +:+ rn) config
  = match RuleLookup.lookupObject plugins pn "rules" rn with
    | Returned found =>
        if truthy found then Returned {| pluginName := pn; ruleName := rn |}
        else RuleLookup.throw_new RuleLookupError.notInSpecifiedPlugin
               ("Could not find " +:+ dquote +:+ rn +:+ dquote +:+ " in plugin "
                  +:+ dquote +:+ pn +:+ dquote +:+ ".")
    | Thrown e => Thrown e
    end.
Proof.
  intros Hpn Hrn Hcfg Hmap.
  unfold RuleLookup.resolveRuleId. rewrite Hcfg. cbn [bindO].
  rewrite (resolveRuleId_guard_passes _ _ (slashed_nonempty pn rn) Hmap).
  rewrite (indexOf_app _ _ Hpn), (lastIndexOf_app _ _ Hrn).
  destruct (Z.eqb_spec (Z.of_nat (String.length pn)) (-1)) as [Hneg|_]; [lia|].
  rewrite Z.eqb_refl, slice_before_slash, slice_after_slash.
  now destruct (RuleLookup.lookupObject plugins pn "rules" rn).
Qed.

End ResolutionFacts.

(** C7, on the code: for an identifier without a slash and a configuration
    with [plugins],
    - when the identifier is not empty and [plugins] is a non-null mapping,
      the resolution returns the built-in plugin and the identifier exactly
      when the rule exists there (a name the rules inherit exists too). When
      it does not exist, the function reaches
      [throw new RuleLookupError(noBuiltIn, ...)], and what comes out is not
      a [RuleLookupError] of that code but the [TypeError] of the
      constructor, which refuses the three recognised codes;
    - when the identifier is empty or [plugins] is no such mapping, the
      function takes the [notInAnyPlugin] throw, with the same [TypeError],
      even when the rule exists;
    - so no [RuleLookupError] ever comes out. *)
Theorem resolveRuleId_bare_fails_with_TypeError `{Builtins}
    (r : string) (config plugins : JsValue) :
  count_char "/" r = 0%nat ->
  get config "plugins" = Returned plugins ->
  (r <> "" /\ isMapping plugins ->
   (RuleLookup.resolveRuleId r config = Returned {| pluginName := "@"; ruleName := r |}
    <-> ruleExists config "@" r)
   /\ (~ ruleExists config "@" r ->
       exists msg, RuleLookup.resolveRuleId r config = Thrown (TypeError msg))
   /\ (forall found,
         RuleLookup.lookupObject plugins "@" "rules" r = Returned found ->
         truthy found = false ->
         RuleLookup.resolveRuleId r config
         = Thrown (TypeError "Cannot convert a Symbol value to a string")))
  /\ (r = "" \/ ~ isMapping plugins ->
      RuleLookup.resolveRuleId r config
      = Thrown (TypeError "Cannot convert a Symbol value to a string"))
  /\ (forall lookupError,
        RuleLookup.resolveRuleId r config <> Thrown (RuleLookupErrorThrown lookupError)).
Proof.
  intros Hslash Hcfg.
  assert (Hguard : r = "" \/ ~ isMapping plugins ->
                   RuleLookup.resolveRuleId r config
                   = Thrown (TypeError "Cannot convert a Symbol value to a string")).
  { intros Hbad. rewrite (resolveRuleId_guard_fails r config plugins Hcfg Hbad).
    apply throw_new_recognized. cbn. auto. }
  assert (Hpast : r <> "" /\ isMapping plugins ->
            (RuleLookup.resolveRuleId r config = Returned {| pluginName := "@"; ruleName := r |}
             <-> ruleExists config "@" r)
            /\ (~ ruleExists config "@" r ->
                exists msg, RuleLookup.resolveRuleId r config = Thrown (TypeError msg))
            /\ (forall found,
                  RuleLookup.lookupObject plugins "@" "rules" r = Returned found ->
                  truthy found = false ->
                  RuleLookup.resolveRuleId r config
                  = Thrown (TypeError "Cannot convert a Symbol value to a string"))).
  { intros [Hne Hmap].
    rewrite (resolveRuleId_bare_lookup r config plugins Hslash Hcfg Hne Hmap).
    pose proof (lookupObject_rules config plugins "@" r Hcfg (isMapping_truthy _ Hmap)) as Hiff.
    destruct (RuleLookup.lookupObject plugins "@" "rules" r) as [found|e].
    - destruct (truthy found) eqn:Ht.
      + split; [split; [intros _; now apply Hiff|reflexivity]|].
        split; [intros Hn; exfalso; apply Hn, Hiff; reflexivity|].
        intros found' [= <-] Hf. congruence.
      + rewrite throw_new_recognized by (cbn; auto).
        split; [split; [discriminate|intros Hex; apply Hiff in Hex; discriminate]|].
        split; [eauto|reflexivity].
    - destruct Hiff as [[msg ->] Hno].
      split; [split; [discriminate|intros Hex; contradiction]|].
      split; [eauto|discriminate]. }
  split; [exact Hpast|]. split; [exact Hguard|].
  intros lookupError Hthrown.
  destruct (String.eqb_spec r "") as [Hr|Hr].
  - rewrite Hguard in Hthrown by now left. discriminate.
  - destruct (truthy plugins) eqn:Ht.
    + destruct (String.eqb_spec (typeof plugins) "object") as [Ho|Ho].
      * destruct (Hpast (conj Hr (conj Ht Ho))) as (Hiff & Hno & _).
        assert (Hn : ~ ruleExists config "@" r).
        { intros Hex. apply Hiff in Hex. congruence. }
        destruct (Hno Hn) as [msg Hmsg]. congruence.
      * rewrite Hguard in Hthrown by (right; intros [_ Ho']; contradiction). discriminate.
    + rewrite Hguard in Hthrown by (right; intros [Ht' _]; congruence). discriminate.
Qed.

Lemma resolveRuleId_bare_fails_with_TypeError_witness :
  (count_char "/" "no-such-rule" = 0%nat
   /\ get builtInConfig "plugins" = Returned (get_own builtInConfig "plugins")
   /\ "no-such-rule" <> "" /\ isMapping (get_own builtInConfig "plugins")
   /\ RuleLookup.lookupObject (get_own builtInConfig "plugins") "@" "rules" "no-such-rule"
      = Returned JUndefined)
  /\ RuleLookup.resolveRuleId "no-such-rule" builtInConfig
     = Thrown (TypeError "Cannot convert a Symbol value to a string").
Proof.
  assert (Hmap : isMapping (get_own builtInConfig "plugins")) by (split; reflexivity).
  assert (Hne : "no-such-rule" <> "") by discriminate.
  split; [repeat split; exact Hne|].
  apply (proj2 (proj2 (proj1 (resolveRuleId_bare_fails_with_TypeError "no-such-rule" builtInConfig
                                (get_own builtInConfig "plugins") eq_refl eq_refl)
                             (conj Hne Hmap)))
           JUndefined);
    reflexivity.
Defined.

(** The same on examples: a rule that is there resolves; the empty
    identifier does not, although a rule is registered under it; and a name
    that every object inherits resolves against rules that list nothing. *)
Example resolveRuleId_bare_examples :
  RuleLookup.resolveRuleId "semi" builtInConfig
  = Returned {| pluginName := "@"; ruleName := "semi" |}
  /\ RuleLookup.resolveRuleId ""
       (JObj 1 [("plugins", JObj 2 [("@", JObj 3 [("rules", JObj 4 [("", JObj 5 [])])])])])
     = Thrown (TypeError "Cannot convert a Symbol value to a string")
  /\ RuleLookup.resolveRuleId "foo" (JObj 1 [])
     = Thrown (TypeError "Cannot convert a Symbol value to a string")
  /\ RuleLookup.resolveRuleId "toString"
       (JObj 1 [("plugins", JObj 2 [("@", JObj 3 [("rules", JObj 4 [])])])])
     = Returned {| pluginName := "@"; ruleName := "toString" |}.
Proof. repeat split. Qed.

(** C8, on the code: for a plugin name and a rule name without a slash and a
    configuration with [plugins],
    - when [plugins] is a non-null mapping, [pluginName/ruleName] resolves to
      that pair exactly when the rule exists in that plugin (a name the rules
      inherit exists too). When it does not exist, the function reaches
      [throw new RuleLookupError(notInSpecifiedPlugin, ...)], and what comes
      out is not a [RuleLookupError] of that code but the [TypeError] of the
      constructor, which refuses the three recognised codes;
    - when [plugins] is no such mapping, the function takes the
      [notInAnyPlugin] throw, with the same [TypeError];
    - so no [RuleLookupError] ever comes out. *)
Theorem resolveRuleId_single_slash_fails_with_TypeError `{Builtins}
    (pn rn : string) (config plugins : JsValue) :
  count_char "/" pn = 0%nat ->
  count_char "/" rn = 0%nat ->
  get config "plugins" = Returned plugins ->
  (isMapping plugins ->
   (RuleLookup.resolveRuleId (pn +:+ "/" +:+ rn) config
    = Returned {| pluginName := pn; ruleName := rn |}
    <-> ruleExists config pn rn)
   /\ (~ ruleExists config pn rn ->
       exists msg, RuleLookup.resolveRuleId (pn +:+ "/" +:+ rn) config = Thrown (TypeError msg))
   /\ (forall found,
         RuleLookup.lookupObject plugins pn "rules" rn = Returned found ->
         truthy found = false ->
         RuleLookup.resolveRuleId (pn +:+ "/" +:+ rn) config
         = Thrown (TypeError "Cannot convert a Symbol value to a string")))
  /\ (~ isMapping plugins ->
      RuleLookup.resolveRuleId (pn +:+ "/" +:+ rn) config
      = Thrown (TypeError "Cannot convert a Symbol value to a string"))
  /\ (forall lookupError,
        RuleLookup.resolveRuleId (pn +:+ "/" +:+ rn) config
        <> Thrown (RuleLookupErrorThrown lookupError)).
Proof.
  intros Hpn Hrn Hcfg.
  assert (Hguard : ~ isMapping plugins ->
                   RuleLookup.resolveRuleId (pn +:+ "/" +:+ rn) config
                   = Thrown (TypeError "Cannot convert a Symbol value to a string")).
  { intros Hbad.
    rewrite (resolveRuleId_guard_fails _ config plugins Hcfg (or_intror Hbad)).
    apply throw_new_recognized. cbn. auto. }
  assert (Hpast : isMapping plugins ->
            (RuleLookup.resolveRuleId (pn +:+ "/" +:+ rn) config
             = Returned {| pluginName := pn; ruleName := rn |}
             <-> ruleExists config pn rn)
            /\ (~ ruleExists config pn rn ->
                exists msg,
                  RuleLookup.resolveRuleId (pn +:+ "/" +:+ rn) config = Thrown (TypeError msg))
            /\ (forall found,
                  RuleLookup.lookupObject plugins pn "rules" rn = Returned found ->
                  truthy found = false ->
                  RuleLookup.resolveRuleId (pn +:+ "/" +:+ rn) config
                  = Thrown (TypeError "Cannot convert a Symbol value to a string"))).
  { intros Hmap.
    rewrite (resolveRuleId_single_slash_lookup pn rn config plugins Hpn Hrn Hcfg Hmap).
    pose proof (lookupObject_rules config plugins pn rn Hcfg (isMapping_truthy _ Hmap)) as Hiff.
    destruct (RuleLookup.lookupObject plugins pn "rules" rn) as [found|e].
    - destruct (truthy found) eqn:Ht.
      + split; [split; [intros _; now apply Hiff|reflexivity]|].
        split; [intros Hn; exfalso; apply Hn, Hiff; reflexivity|].
        intros found' [= <-] Hf. congruence.
      + rewrite throw_new_recognized by (cbn; auto).
        split; [split; [discriminate|intros Hex; apply Hiff in Hex; discriminate]|].
        split; [eauto|reflexivity].
    - destruct Hiff as [[msg ->] Hno].
      split; [split; [discriminate|intros Hex; contradiction]|].
      split; [eauto|discriminate]. }
  split; [exact Hpast|]. split; [exact Hguard|].
  intros lookupError Hthrown.
  destruct (truthy plugins) eqn:Ht.
  - destruct (String.eqb_spec (typeof plugins) "object") as [Ho|Ho].
    + destruct (Hpast (conj Ht Ho)) as (Hiff & Hno & _).
      assert (Hn : ~ ruleExists config pn rn).
      { intros Hex. apply Hiff in Hex. congruence. }
      destruct (Hno Hn) as [msg Hmsg]. congruence.
    + rewrite Hguard in Hthrown by (intros [_ Ho']; contradiction). discriminate.
  - rewrite Hguard in Hthrown by (intros [Ht' _]; congruence). discriminate.
Qed.

Lemma resolveRuleId_single_slash_fails_with_TypeError_witness :
  (count_char "/" "test" = 0%nat /\ count_char "/" "no-such-rule" = 0%nat
   /\ get pluginConfig "plugins" = Returned (get_own pluginConfig "plugins")
   /\ isMapping (get_own pluginConfig "plugins")
   /\ RuleLookup.lookupObject (get_own pluginConfig "plugins") "test" "rules" "no-such-rule"
      = Returned JUndefined)
  /\ RuleLookup.resolveRuleId ("test" +:+ "/" +:+ "no-such-rule") pluginConfig
     = Thrown (TypeError "Cannot convert a Symbol value to a string").
Proof.
  assert (Hmap : isMapping (get_own pluginConfig "plugins")) by (split; reflexivity).
  split; [repeat split|].
  apply (proj2 (proj2 (proj1 (resolveRuleId_single_slash_fails_with_TypeError "test"
                                "no-such-rule" pluginConfig (get_own pluginConfig "plugins")
                                eq_refl eq_refl eq_refl)
                             Hmap))
           JUndefined);
    reflexivity.
Defined.

(** The same on examples: a rule that is there resolves; without [plugins]
    nothing does; and a name that every object inherits resolves against
    rules that list nothing. *)
Example resolveRuleId_single_slash_examples :
  RuleLookup.resolveRuleId "test/foo" pluginConfig
  = Returned {| pluginName := "test"; ruleName := "foo" |}
  /\ RuleLookup.resolveRuleId "test/foo" (JObj 1 [])
     = Thrown (TypeError "Cannot convert a Symbol value to a string")
  /\ RuleLookup.resolveRuleId "a/hasOwnProperty"
       (JObj 1 [("plugins", JObj 2 [("a", JObj 3 [("rules", JObj 4 [])])])])
     = Returned {| pluginName := "a"; ruleName := "hasOwnProperty" |}.
Proof. repeat split. Qed.

(** C1, on the code: for every identifier with two or more slashes and every
    configuration whose [plugins] is a non-null mapping, [resolveRuleId]
    throws the [ReferenceError] of its call to the undeclared
    [enumerateRuleIdMatches]; no split is looked up. *)
Theorem resolveRuleId_multi_slash_throws `{Builtins}
    (ruleId : string) (config plugins : JsValue) :
  (2 <= count_char "/" ruleId)%nat ->
  get config "plugins" = Returned plugins ->
  isMapping plugins ->
  RuleLookup.resolveRuleId ruleId config
  = Thrown (ReferenceError "enumerateRuleIdMatches is not defined").
Proof.
  intros Hc Hcfg Hmap.
  assert (Hne : ruleId <> "") by (intros ->; cbn in Hc; lia).
  destruct (two_slashes_indices ruleId Hc) as [H1 H2].
  unfold RuleLookup.resolveRuleId. rewrite Hcfg. cbn [bindO].
  rewrite (resolveRuleId_guard_passes _ _ Hne Hmap).
  destruct (Z.eqb_spec (indexOf ruleId "/" 0) (-1)) as [E|_]; [contradiction|].
  destruct (Z.eqb_spec (indexOf ruleId "/" 0) (lastIndexOf ruleId "/")) as [E|_];
    [contradiction|reflexivity].
Qed.

(** The tie-break example of the specification: both splits of ["a/3/4"]
    match a registered rule, and the resolution throws. *)
Lemma resolveRuleId_multi_slash_witness :
  ((2 <= count_char "/" "a/3/4")%nat
   /\ ruleExists tieBreakConfig "a" "3/4"
   /\ ruleExists tieBreakConfig "a/3" "4")
  /\ RuleLookup.resolveRuleId "a/3/4" tieBreakConfig
     = Thrown (ReferenceError "enumerateRuleIdMatches is not defined").
Proof.
  split.
  - split; [cbn; lia|]. split; do 4 eexists; repeat split; reflexivity.
  - apply (resolveRuleId_multi_slash_throws "a/3/4" tieBreakConfig
             (get_own tieBreakConfig "plugins"));
      [cbn; lia | reflexivity | split; reflexivity].
Defined.

(** ** [compileJsonSchema] *)

(** C4: when the engine throws on a schema, [compileJsonSchema] returns a
    function that reports no error for any value. *)
Theorem compileJsonSchema_malformed_accepts_all `{Collaborators}
    (schema : JsValue) (e : Exception) (w : World) :
  ajv_compile schema = Thrown e ->
  exists validator w',
    CompileJsonSchema.compileJsonSchema schema w = (Returned validator, w')
    /\ forall object, validator object = [].
Proof.
  intros Hthrow.
  unfold CompileJsonSchema.compileJsonSchema, try_catch, bind, compile.
  rewrite Hthrow. cbn.
  eexists _, _. split; [reflexivity|]. intros object. reflexivity.
Qed.

Lemma compileJsonSchema_malformed_accepts_all_witness :
  ajv_compile JNull = Thrown (Error "schema should be object or boolean")
  /\ exists validator w',
       CompileJsonSchema.compileJsonSchema JNull world0 = (Returned validator, w')
       /\ forall object, validator object = [].
Proof.
  split; [reflexivity|].
  apply (compileJsonSchema_malformed_accepts_all JNull
           (Error "schema should be object or boolean") world0).
  reflexivity.
Defined.

Example compileJsonSchema_malformed_on_values :
  let validator := CompileJsonSchema.alwaysSucceedsCompiledSchema in
  fst (CompileJsonSchema.compileJsonSchema (JNum 7) world0) = Returned validator
  /\ validator JUndefined = [] /\ validator JNull = [] /\ validator (JObj 1 [("a", JNum 1)]) = [].
Proof. repeat split. Qed.

Example compileJsonSchema_reports_errors :
  match fst (CompileJsonSchema.compileJsonSchema (JObj 1 [("type", JStr "array")]) world0) with
  | Returned validator =>
      validator (JArr 2 []) = [] /\ validator (JNum 3) = [" should be array."]
  | Thrown _ => False
  end.
Proof. split; reflexivity. Qed.

(** ** [getRuleOptionsSchema] on an array of schemas *)

(** A falsy value has neither a schema nor a meta: it lists no property,
    and no prototype has one of these names. *)
Lemma get_schema_falsy `{Builtins} (v r : JsValue) :
  truthy v = false -> get v "schema" = Returned r -> r = JUndefined.
Proof.
  destruct v as [| |b|n|s| | | |]; cbn [truthy get]; try discriminate; intros Hf.
  - cbn [has_own]. rewrite builtin_schema. congruence.
  - cbn [has_own]. rewrite builtin_schema. congruence.
  - destruct (String.eqb_spec s "") as [->|]; [|discriminate].
    replace (has_own (JStr "") "schema") with false by reflexivity.
    rewrite builtin_schema. congruence.
Qed.

Lemma get_meta_falsy `{Builtins} (v r : JsValue) :
  truthy v = false -> get v "meta" = Returned r -> r = JUndefined.
Proof.
  destruct v as [| |b|n|s| | | |]; cbn [truthy get]; try discriminate; intros Hf.
  - cbn [has_own]. rewrite builtin_meta. congruence.
  - cbn [has_own]. rewrite builtin_meta. congruence.
  - destruct (String.eqb_spec s "") as [->|]; [|discriminate].
    replace (has_own (JStr "") "meta") with false by reflexivity.
    rewrite builtin_meta. congruence.
Qed.

Lemma resolvedSchema_truthy_rule `{Builtins} (rule schema : JsValue) :
  FlatConfigHelpers.resolvedSchema rule = Returned schema ->
  truthy schema = true -> truthy rule = true.
Proof.
  intros Hres Ht. destruct (truthy rule) eqn:Hr; [reflexivity|].
  unfold FlatConfigHelpers.resolvedSchema in Hres.
  destruct (get rule "schema") as [s|] eqn:Hs; [|discriminate]. cbn [bindO] in Hres.
  rewrite (get_schema_falsy _ _ Hr Hs) in Hres. unfold js_or in Hres. cbn [truthy] in Hres.
  destruct (get rule "meta") as [m|] eqn:Hm; [|discriminate]. cbn [bindO] in Hres.
  rewrite (get_meta_falsy _ _ Hr Hm) in Hres. unfold js_and in Hres. cbn [truthy] in Hres.
  injection Hres as <-. discriminate.
Qed.

(** C6: for a rule whose resolved schema is an array of [n] schemas,
    [getRuleOptionsSchema] returns a new object: with [n > 0] it is
    [{ type: "array", items: <the array>, minItems: 0, maxItems: n }]; with
    [n = 0] it accepts the empty array and nothing else; in both cases an
    options array longer than [n] fails validation. *)
Theorem getRuleOptionsSchema_array `{Builtins} `{Collaborators}
    (rule : JsValue) (id : ObjId) (schemas : list JsValue) (w : World) :
  FlatConfigHelpers.resolvedSchema rule = Returned (JArr id schemas) ->
  exists wrapped,
    FlatConfigHelpersTopLevel.getRuleOptionsSchema rule w
    = (Returned wrapped, {| next_id := S (next_id w); trace := trace w |})
    /\ (schemas <> [] ->
        wrapped = JObj (next_id w)
                    [("type", JStr "array");
                     ("items", JArr id schemas);
                     ("minItems", JNum 0);
                     ("maxItems", JNum (Z.of_nat (List.length schemas)))])
    /\ (schemas = [] ->
        forall data,
          JsonSchema.validate wrapped data = Returned true <-> exists i, data = JArr i [])
    /\ (forall i options,
          (List.length schemas < List.length options)%nat ->
          JsonSchema.validate wrapped (JArr i options) = Returned false).
Proof.
  intros Hres.
  pose proof (resolvedSchema_truthy_rule _ _ Hres eq_refl) as Hrule.
  unfold FlatConfigHelpersTopLevel.getRuleOptionsSchema.
  rewrite Hrule. cbn [negb]. unfold bind at 1. unfold liftO. rewrite Hres.
  cbn [Array_isArray]. unfold FlatConfigHelpers.wrapArraySchema.
  destruct schemas as [|s schemas].
  - eexists. split; [reflexivity|]. split; [congruence|]. split.
    + intros _ data. unfold JsonSchema.validate, JsonSchema.compile. cbn [bindO].
      destruct data as [| | | | | | | |i elems];
        try (split; [discriminate | intros [i [=]]]).
      destruct elems as [|x elems].
      * split; [eauto | reflexivity].
      * split; [|intros [j [=]]].
        cbn [JsonSchema.check assoc String.eqb Ascii.eqb Bool.eqb own_property
             JsonSchema.checkType JsonSchema.type_names existsb JsonSchema.has_type
             Array_isArray orb JsonSchema.orElse JsonSchema.checkMaxItems List.length].
        destruct (Z.ltb_spec 0 (Z.of_nat (S (List.length elems)))) as [_|Hge]; [|lia].
        discriminate.
    + intros i options Hlen. unfold JsonSchema.validate, JsonSchema.compile. cbn [bindO].
      cbn [JsonSchema.check assoc String.eqb Ascii.eqb Bool.eqb own_property
           JsonSchema.checkType JsonSchema.type_names existsb JsonSchema.has_type
           Array_isArray orb JsonSchema.orElse JsonSchema.checkMaxItems].
      destruct (Z.ltb_spec 0 (Z.of_nat (List.length options))) as [_|Hge];
        [reflexivity|cbn [List.length] in Hlen; lia].
  - eexists. split; [reflexivity|]. split; [reflexivity|]. split; [discriminate|].
    intros i options Hlen. unfold JsonSchema.validate, JsonSchema.compile. cbn [bindO].
    cbn [JsonSchema.check assoc String.eqb Ascii.eqb Bool.eqb own_property get_own
         JsonSchema.checkType JsonSchema.type_names existsb JsonSchema.has_type
         Array_isArray orb JsonSchema.orElse JsonSchema.checkMaxItems].
    destruct (Z.ltb_spec (Z.of_nat (List.length (s :: schemas)))
                (Z.of_nat (List.length options))) as [_|Hge]; [reflexivity|lia].
Qed.

Lemma getRuleOptionsSchema_array_witness :
  FlatConfigHelpers.resolvedSchema enumZeroRule
  = Returned (JArr 2 [JObj 3 [("enum", JArr 4 [JNum 0])]])
  /\ exists wrapped,
       FlatConfigHelpersTopLevel.getRuleOptionsSchema enumZeroRule world0
       = (Returned wrapped, {| next_id := S (next_id world0); trace := trace world0 |})
       /\ ([JObj 3 [("enum", JArr 4 [JNum 0])]] <> [] ->
           wrapped = JObj (next_id world0)
                       [("type", JStr "array");
                        ("items", JArr 2 [JObj 3 [("enum", JArr 4 [JNum 0])]]);
                        ("minItems", JNum 0);
                        ("maxItems", JNum (Z.of_nat (List.length [JObj 3 [("enum", JArr 4 [JNum 0])]])))])
       /\ ([JObj 3 [("enum", JArr 4 [JNum 0])]] = [] ->
           forall data,
             JsonSchema.validate wrapped data = Returned true <-> exists i, data = JArr i [])
       /\ (forall i options,
             (List.length [JObj 3 [("enum", JArr 4 [JNum 0])]] < List.length options)%nat ->
             JsonSchema.validate wrapped (JArr i options) = Returned false).
Proof.
  split; [reflexivity|].
  apply (getRuleOptionsSchema_array enumZeroRule 2 [JObj 3 [("enum", JArr 4 [JNum 0])]] world0).
  reflexivity.
Defined.

(** The examples of the specification: [[0]] passes, [[1]] and [[0, 1]] fail;
    for an empty array of schemas only [[]] passes. *)
Example getRuleOptionsSchema_enum_example :
  match fst (FlatConfigHelpersTopLevel.getRuleOptionsSchema enumZeroRule world0) with
  | Returned wrapped =>
      get_own wrapped "maxItems" = JNum 1
      /\ JsonSchema.validate wrapped (JArr 5 [JNum 0]) = Returned true
      /\ JsonSchema.validate wrapped (JArr 5 [JNum 1]) = Returned false
      /\ JsonSchema.validate wrapped (JArr 5 [JNum 0; JNum 1]) = Returned false
  | Thrown _ => False
  end.
Proof. repeat split. Qed.

Example getRuleOptionsSchema_empty_example :
  match fst (FlatConfigHelpersTopLevel.getRuleOptionsSchema
               (JObj 1 [("schema", JArr 2 [])]) world0) with
  | Returned wrapped =>
      JsonSchema.validate wrapped (JArr 5 []) = Returned true
      /\ JsonSchema.validate wrapped (JArr 5 [JStr "always"]) = Returned false
  | Thrown _ => False
  end.
Proof. repeat split. Qed.

Example getRuleOptionsSchema_meta_fallback :
  fst (FlatConfigHelpersTopLevel.getRuleOptionsSchema
         (JObj 1 [("schema", JNull); ("meta", JObj 2 [("schema", JArr 3 [])])]) world0)
  = Returned (JObj 1000 [("type", JStr "array"); ("minItems", JNum 0); ("maxItems", JNum 0)]).
Proof. reflexivity. Qed.

(** Both revisions of [getRuleOptionsSchema] treat an array of schemas alike. *)
Lemma getRuleOptionsSchema_array_same `{Builtins} `{Collaborators}
    (rule : JsValue) (id : ObjId) (schemas : list JsValue) (w : World) :
  FlatConfigHelpers.resolvedSchema rule = Returned (JArr id schemas) ->
  FlatConfigHelpers.getRuleOptionsSchema rule w
  = FlatConfigHelpersTopLevel.getRuleOptionsSchema rule w.
Proof.
  intros Hres.
  unfold FlatConfigHelpers.getRuleOptionsSchema, FlatConfigHelpersTopLevel.getRuleOptionsSchema.
  destruct (truthy rule); [|reflexivity]. cbn [negb].
  unfold bind, liftO. now rewrite Hres.
Qed.

(** ** [getRuleOptionsSchema] on a single schema *)

(** What the function does with a single schema object: the result of the
    top-level check decides, and [true] gives [null]. *)
Lemma getRuleOptionsSchema_single `{Builtins} `{Collaborators} (rule schema : JsValue) (w : World) :
  FlatConfigHelpers.resolvedSchema rule = Returned schema ->
  truthy rule = true ->
  Array_isArray schema = false ->
  typeof schema = "object" ->
  FlatConfigHelpersTopLevel.getRuleOptionsSchema rule w
  = (onlyArrays <- FlatConfigHelpersTopLevel.validateJsonSchemaOnlyAcceptsArraysAtTopLevel schema ;;
     if onlyArrays then ret JNull else ret schema) w.
Proof.
  intros Hres Hrule Harr Hobj.
  unfold FlatConfigHelpersTopLevel.getRuleOptionsSchema. rewrite Hrule. cbn [negb].
  unfold bind at 1. unfold liftO. rewrite Hres, Harr, Hobj. reflexivity.
Qed.

(** The top-level check answers [true] for a schema that admits arrays only,
    and [false] for one that admits objects. *)
Example topLevelCheck_array_only :
  fst (FlatConfigHelpersTopLevel.validateJsonSchemaOnlyAcceptsArraysAtTopLevel
         (JObj 2 [("type", JStr "array")]) world0) = Returned true.
Proof. reflexivity. Qed.

Example topLevelCheck_object :
  FlatConfigHelpersTopLevel.validateJsonSchemaOnlyAcceptsArraysAtTopLevel
    (JObj 2 [("type", JStr "object")]) world0
  = (Returned false,
     {| next_id := 1000;
        trace := [EvRemoveSchema (JObj 2 [("type", JStr "object")]);
                  EvRun ByTopLevelCheck JUndefined;
                  EvCompile ByTopLevelCheck (JObj 2 [("type", JStr "object")]) true] |}).
Proof. reflexivity. Qed.

(** The top-level check always answers. *)
Lemma topLevelCheck_returns `{Collaborators} (schema : JsValue) (w : World) :
  exists onlyArrays w',
    FlatConfigHelpersTopLevel.validateJsonSchemaOnlyAcceptsArraysAtTopLevel schema w
    = (Returned onlyArrays, w').
Proof.
  unfold FlatConfigHelpersTopLevel.validateJsonSchemaOnlyAcceptsArraysAtTopLevel.
  unfold bind at 1, try_catch, bind at 1, compile.
  destruct (ajv_compile schema) as [f|e]; cbn; [|eauto].
  destruct (f JUndefined) as [errors|]; [|eauto].
  destruct (existsb _ _); cbn; eauto.
Qed.

(** C3, on the code: for every engine, the single schema of a rule is
    replaced by [null] exactly when the top-level check answers [true], the
    answer its documentation gives to a schema that accepts arrays only, and
    is returned unchanged when the check answers [false]. On the engine
    above: [{ type: "array" }] becomes [null], and [{ type: "object" }],
    which accepts a non-array, is returned unchanged; this is the reverse of
    the claim. The schema [{ enum: [0] }] of the test "should return same
    schema when schema is object" becomes [null] too. *)
Theorem getRuleOptionsSchema_single_schema_reversed :
  (forall (builtins : Builtins) (engine : Collaborators) (rule schema : JsValue) (w : World),
     FlatConfigHelpers.resolvedSchema rule = Returned schema ->
     truthy rule = true ->
     Array_isArray schema = false ->
     typeof schema = "object" ->
     exists onlyArrays w',
       FlatConfigHelpersTopLevel.validateJsonSchemaOnlyAcceptsArraysAtTopLevel schema w
       = (Returned onlyArrays, w')
       /\ FlatConfigHelpersTopLevel.getRuleOptionsSchema rule w
          = (Returned (if onlyArrays then JNull else schema), w'))
  /\ (let schema := JObj 2 [("type", JStr "array")] in
      JsonSchema.validate schema (JObj 9 []) = Returned false
      /\ fst (FlatConfigHelpersTopLevel.getRuleOptionsSchema (JObj 1 [("schema", schema)]) world0)
         = Returned JNull)
  /\ (let schema := JObj 2 [("type", JStr "object")] in
      JsonSchema.validate schema (JObj 9 []) = Returned true
      /\ fst (FlatConfigHelpersTopLevel.getRuleOptionsSchema (JObj 1 [("schema", schema)]) world0)
         = Returned schema)
  /\ (let schema := JObj 2 [("enum", JArr 3 [JNum 0])] in
      fst (FlatConfigHelpersTopLevel.getRuleOptionsSchema (JObj 1 [("schema", schema)]) world0)
      = Returned JNull).
Proof.
  split; [|repeat split].
  intros builtins engine rule schema w Hres Hrule Harr Hobj.
  destruct (topLevelCheck_returns schema w) as (onlyArrays & w' & Hcheck).
  exists onlyArrays, w'. split; [exact Hcheck|].
  rewrite (getRuleOptionsSchema_single rule schema w Hres Hrule Harr Hobj).
  unfold bind. rewrite Hcheck. now destruct onlyArrays.
Qed.

(** ** [RuleValidator]: what a step of [validate] can do to an instance *)

Section ValidatorFacts.

Context `{Builtins} `{Collaborators}.

Import RuleValidator.

Local Open Scope nat_scope.

Lemma quiet_ret {A : Type} (a : A) : quiet (ret a).
Proof. intros w. now exists []. Qed.

Lemma quiet_throw {A : Type} (e : Exception) : quiet (@throw World A e).
Proof. intros w. now exists []. Qed.

Lemma quiet_liftO {A : Type} (o : Outcome A) : quiet (liftO o).
Proof. intros w. now exists []. Qed.

Lemma quiet_fresh : quiet fresh.
Proof. intros w. now exists []. Qed.

Lemma quiet_bind {A B : Type} (m : M World A) (k : A -> M World B) :
  quiet m -> (forall a, quiet (k a)) -> quiet (bind m k).
Proof.
  intros Hm Hk w. unfold bind. destruct (Hm w) as (added & Heq & Hno).
  destruct (m w) as [[a|e] w']; cbn [snd] in *; [|eauto].
  destruct (Hk a w') as (added' & Heq' & Hno').
  exists (added' ++ added)%list. rewrite Heq', Heq, app_assoc. split; [reflexivity|].
  now rewrite List.filter_app, Hno, Hno'.
Qed.

Lemma quiet_try_catch {A : Type} (m : M World A) (h : Exception -> M World A) :
  quiet m -> (forall e, quiet (h e)) -> quiet (try_catch m h).
Proof.
  intros Hm Hh w. unfold try_catch. destruct (Hm w) as (added & Heq & Hno).
  destruct (m w) as [[a|e] w']; cbn [snd] in *; [eauto|].
  destruct (Hh e w') as (added' & Heq' & Hno').
  exists (added' ++ added)%list. rewrite Heq', Heq, app_assoc. split; [reflexivity|].
  now rewrite List.filter_app, Hno, Hno'.
Qed.

Lemma quiet_emit (e : Event) : isCompile e = false -> quiet (emit e).
Proof. intros He w. exists [e]. cbn. now rewrite He. Qed.

Lemma quiet_if {A : Type} (c : bool) (m1 m2 : M World A) :
  quiet m1 -> quiet m2 -> quiet (if c then m1 else m2).
Proof. now destruct c. Qed.

Lemma isCompileFor_isCompile (id : ObjId) (b : bool) (e : Event) :
  isCompileFor id b e = true -> isCompile e = true.
Proof. destruct e; try discriminate. reflexivity. Qed.

Lemma filter_none_weaken (P Q : Event -> bool) (l : list Event) :
  (forall e, P e = true -> Q e = true) -> List.filter Q l = [] -> List.filter P l = [].
Proof.
  intros HPQ. induction l as [|e l IH]; cbn; [reflexivity|].
  destruct (Q e) eqn:HQ; [discriminate|]. intros Hl.
  destruct (P e) eqn:HP; [|auto]. apply HPQ in HP. congruence.
Qed.



Lemma quiet_getRuleFromConfig (ruleId : string) (config : JsValue) :
  quiet (FlatConfigHelpers.getRuleFromConfig ruleId config).
Proof.
  unfold FlatConfigHelpers.getRuleFromConfig.
  repeat (apply quiet_bind; [apply quiet_liftO|intros ?]).
  apply quiet_if; [|apply quiet_ret].
  apply quiet_bind; [apply quiet_fresh|intros ?; apply quiet_ret].
Qed.

Lemma quiet_resolveRule (ruleId : string) (config : JsValue) :
  quiet (resolveRule ruleId config).
Proof.
  unfold resolveRule. apply quiet_try_catch; [apply quiet_getRuleFromConfig|].
  intros [msg|msg|e|msg]; try apply quiet_throw.
  destruct (assoc ruleId ruleReplacements_rules); [apply quiet_liftO|].
  apply quiet_bind; [apply quiet_liftO|intros alts].
  apply quiet_if; apply quiet_liftO.
Qed.

Lemma quiet_wrapArraySchema (schema : JsValue) :
  quiet (FlatConfigHelpers.wrapArraySchema schema).
Proof.
  unfold FlatConfigHelpers.wrapArraySchema.
  apply quiet_if; (apply quiet_bind; [apply quiet_fresh|intros ?; apply quiet_ret]).
Qed.

Lemma quiet_getRuleOptionsSchema (rule : JsValue) :
  quiet (FlatConfigHelpers.getRuleOptionsSchema rule).
Proof.
  unfold FlatConfigHelpers.getRuleOptionsSchema.
  apply quiet_if; [apply quiet_ret|].
  apply quiet_bind; [apply quiet_liftO|intros schema].
  apply quiet_if; [apply quiet_wrapArraySchema|apply quiet_ret].
Qed.

Lemma quiet_slice1 (ruleOptions : JsValue) : quiet (slice1 ruleOptions).
Proof.
  unfold slice1. destruct ruleOptions; try apply quiet_throw; try apply quiet_ret.
  apply quiet_bind; [apply quiet_fresh|intros ?; apply quiet_ret].
Qed.

Lemma quiet_run (caller : Caller) (f : Ajv.ValidateFunction) (data : JsValue) :
  quiet (run caller f data).
Proof.
  unfold run. apply quiet_bind; [now apply quiet_emit|intros ?; apply quiet_ret].
Qed.

Lemma callsFor_app (id : ObjId) (l1 l2 : list Event) :
  callsFor id (l1 ++ l2) = callsFor id l1 + callsFor id l2.
Proof. unfold callsFor. now rewrite List.filter_app, List.length_app. Qed.

Lemma quiet_callsFor (added : list Event) (id : ObjId) :
  List.filter isCompile added = [] -> callsFor id added = 0.
Proof.
  intros Hno. unfold callsFor.
  now rewrite (filter_none_weaken _ _ _ (isCompileFor_isCompile id false) Hno).
Qed.

Lemma isCompileFor_returned (id : ObjId) (e : Event) :
  isCompileFor id true e = true -> isCompileFor id false e = true.
Proof.
  destruct e as [| |caller schema compiled| |]; try discriminate.
  destruct caller; try discriminate. cbn. intros Hc.
  apply andb_true_iff in Hc. destruct Hc as [-> _]. now rewrite orb_true_r.
Qed.

Lemma no_calls_filter (id : ObjId) (b : bool) (added : list Event) :
  callsFor id added = 0 -> List.filter (isCompileFor id b) added = [].
Proof.
  unfold callsFor. intros Hz. apply length_zero_iff_nil in Hz.
  destruct b; [|exact Hz].
  exact (filter_none_weaken _ _ _ (isCompileFor_returned id) Hz).
Qed.

(** What is cached stays as compiled while the trace grows by events that
    are no call of [ajv.compile] for a cached rule. *)
Lemma CachedAsCompiled_extend (this : Instance) (w w' : World) (added : list Event) :
  trace w' = (added ++ trace w)%list ->
  (forall id, is_Some (validators this !! id) -> callsFor id added = 0) ->
  CachedAsCompiled (this, w) -> CachedAsCompiled (this, w').
Proof.
  intros Htrace Hnone Hc id f Hf. cbn [fst snd] in *.
  destruct (Hc id f Hf) as (rule & schema & newer & older & Ht & Hid & Hs & Hcomp & Hcalls).
  cbn [fst snd] in Ht.
  exists rule, schema, (added ++ newer)%list, older.
  split; [now rewrite Htrace, Ht, app_assoc|]. repeat split; try assumption.
  rewrite callsFor_app, Hcalls, (Hnone id) by eauto. reflexivity.
Qed.

Lemma step_refl (s : State) : step s s.
Proof. split; try easy. Qed.

Lemma step_trans (s1 s2 s3 : State) : step s1 s2 -> step s2 s3 -> step s1 s3.
Proof.
  intros [K1 H1 G1 O1 C1] [K2 H2 G2 O2 C2]. split.
  - intros id f Hf. eauto.
  - intros id [f Hf]. rewrite H2, H1; eauto.
  - intros id. specialize (G1 id). specialize (G2 id). lia.
  - auto.
  - auto.
Qed.

(** Same cache, and nothing compiled for [validate] in between. *)
Lemma step_same_cache (this : Instance) (w w' : World) (added : list Event) :
  trace w' = (added ++ trace w)%list ->
  (forall id, callsFor id added = 0) ->
  step (this, w) (this, w').
Proof.
  intros Htrace Hnone.
  assert (Hq : forall id b, List.filter (isCompileFor id b) (trace w')
                            = List.filter (isCompileFor id b) (trace w)).
  { intros id b. now rewrite Htrace, List.filter_app, (no_calls_filter id b added (Hnone id)). }
  split; cbn [fst snd].
  - now intros id f.
  - intros id _. unfold callsFor. now rewrite Hq.
  - intros id. unfold compiledFor. now rewrite Hq.
  - intros Hc id. unfold compiledFor in *. rewrite Hq. apply Hc.
  - apply (CachedAsCompiled_extend this w w' added Htrace). intros id _. apply Hnone.
Qed.

Lemma preserves_ret {A : Type} (a : A) : preserves (ret a).
Proof. intros s. apply step_refl. Qed.

Lemma preserves_throw {A : Type} (e : Exception) : preserves (@throw State A e).
Proof. intros s. apply step_refl. Qed.

Lemma preserves_liftO {A : Type} (o : Outcome A) : preserves (liftO o).
Proof. intros s. apply step_refl. Qed.

Lemma preserves_bind {A B : Type} (m : M State A) (k : A -> M State B) :
  preserves m -> (forall a, preserves (k a)) -> preserves (bind m k).
Proof.
  intros Hm Hk s. unfold bind. specialize (Hm s).
  destruct (m s) as [[a|e] s']; cbn [snd] in *; [|exact Hm].
  eapply step_trans; [exact Hm|apply Hk].
Qed.

Lemma preserves_if {A : Type} (c : bool) (m1 m2 : M State A) :
  preserves m1 -> preserves m2 -> preserves (if c then m1 else m2).
Proof. now destruct c. Qed.

Lemma preserves_inWorld {A : Type} (m : M World A) : quiet m -> preserves (inWorld m).
Proof.
  intros Hq [this w]. unfold inWorld. destruct (Hq w) as (added & Hadded & Hno).
  destruct (m w) as [r w']. cbn [snd] in *.
  apply (step_same_cache this w w' added Hadded). intros id. now apply quiet_callsFor.
Qed.

Lemma preserves_validators_has (rule : JsValue) : preserves (validators_has rule).
Proof. intros [this w]. apply step_refl. Qed.

Lemma preserves_validators_get (rule : JsValue) : preserves (validators_get rule).
Proof. intros [this w]. apply step_refl. Qed.

Lemma quiet_schema_lookup (rule : JsValue) :
  quiet (emit (EvSchemaLookup rule) ;;; FlatConfigHelpers.getRuleOptionsSchema rule).
Proof.
  apply quiet_bind; [now apply quiet_emit|intros _; apply quiet_getRuleOptionsSchema].
Qed.

Lemma isCompileFor_other (rule schema : JsValue) (compiled b : bool) (id : ObjId) :
  identity rule <> Some id ->
  isCompileFor id b (EvCompile (ByValidate rule) schema compiled) = false.
Proof. intros Hne. cbn. now rewrite bool_decide_false. Qed.

Lemma isCompileFor_failed (rule schema : JsValue) (id : ObjId) :
  isCompileFor id true (EvCompile (ByValidate rule) schema false) = false.
Proof. cbn. apply andb_false_r. Qed.

Lemma isCompileFor_self (rule schema : JsValue) (id : ObjId) :
  identity rule = Some id ->
  isCompileFor id true (EvCompile (ByValidate rule) schema true) = true.
Proof. intros Hid. cbn. now rewrite bool_decide_true. Qed.

(** The precompile block: on a hit it does nothing; on a miss it compiles at
    most one schema, for a rule that was not in the cache, and caches the
    result under the identity of that rule. *)
Lemma preserves_precompile (rule : JsValue) : preserves (precompile rule).
Proof.
  intros [this w]. unfold precompile, bind at 1, validators_has.
  assert (Hmiss_or_hit :
            (exists id0 f0, identity rule = Some id0 /\ validators this !! id0 = Some f0)
            \/ (forall id, is_Some (validators this !! id) -> identity rule <> Some id)).
  { destruct (identity rule) as [id0|] eqn:Hid; [|right; intros id _; discriminate].
    destruct (validators this !! id0) as [f0|] eqn:Hc; [left; eauto|].
    right. intros id [f Hf] [= ->]. congruence. }
  destruct Hmiss_or_hit as [(id0 & f0 & Hid & Hc)|Hmiss].
  - rewrite Hid, bool_decide_true by eauto. apply step_refl.
  - replace (match identity rule with
             | Some id => bool_decide (is_Some (validators this !! id))
             | None => false
             end) with false.
    2:{ destruct (identity rule) as [id0|] eqn:Hid; [|reflexivity].
        symmetry. apply bool_decide_false. intros Hs. now apply (Hmiss id0). }
    cbn [negb]. unfold bind at 1, inWorld at 1.
    destruct (quiet_schema_lookup rule w) as (added & Hadded & Hno).
    change ((emit (EvSchemaLookup rule) ;;; FlatConfigHelpers.getRuleOptionsSchema rule) w)
      with (FlatConfigHelpers.getRuleOptionsSchema rule
              {| next_id := next_id w; trace := EvSchemaLookup rule :: trace w |}) in *.
    destruct (FlatConfigHelpers.getRuleOptionsSchema rule
                {| next_id := next_id w; trace := EvSchemaLookup rule :: trace w |})
      as [[schema|e] w1] eqn:Hlookup; cbn [snd] in Hadded.
    2:{ apply (step_same_cache this w w1 added Hadded). intros id. now apply quiet_callsFor. }
    destruct (truthy schema).
    2:{ apply (step_same_cache this w w1 added Hadded). intros id. now apply quiet_callsFor. }
    assert (Hq1 : forall id b, List.filter (isCompileFor id b) (trace w1)
                               = List.filter (isCompileFor id b) (trace w)).
    { intros id b.
      now rewrite Hadded, List.filter_app,
        (filter_none_weaken _ _ _ (isCompileFor_isCompile id b) Hno). }
    unfold bind, inWorld, compile.
    destruct (ajv_compile schema) as [f|e] eqn:Hcompile; cbn.
    + (* the engine returned a validation function *)
      unfold validators_set. destruct (identity rule) as [id0|] eqn:Hid.
      * assert (Hnone : validators this !! id0 = None).
        { destruct (validators this !! id0) eqn:Hc; [|reflexivity].
          exfalso. now apply (Hmiss id0). }
        split; cbn [fst snd validators trace].
        -- intros id g Hg. cbn [fst validators] in *.
           rewrite lookup_insert_ne; [exact Hg|congruence].
        -- intros id Hs. unfold callsFor. cbn [List.filter].
           rewrite isCompileFor_other by (rewrite Hid; apply Hmiss, Hs).
           now rewrite Hq1.
        -- intros id. unfold compiledFor. cbn [List.filter]. rewrite Hq1.
           destruct (isCompileFor id true _); cbn [List.length]; lia.
        -- intros Hone id. specialize (Hone id). cbn [fst snd validators trace] in *.
           unfold compiledFor in *. cbn [List.filter]. rewrite Hq1.
           destruct (decide (id = id0)) as [->|Hne].
           ++ rewrite isCompileFor_self by exact Hid. cbn [List.length].
              rewrite lookup_insert_eq. split; [|discriminate].
              destruct Hone as [_ Hzero]. rewrite (Hzero Hnone). lia.
           ++ rewrite isCompileFor_other by (rewrite Hid; congruence).
              rewrite lookup_insert_ne by congruence. exact Hone.
        -- intros Hcached id g Hg. cbn [fst snd validators trace] in *.
           destruct (decide (id = id0)) as [->|Hne].
           ++ rewrite lookup_insert_eq in Hg. injection Hg as <-.
              exists rule, schema, [], (trace w1).
              split; [reflexivity|]. split; [exact Hid|]. split; [eauto|].
              split; [exact Hcompile|reflexivity].
           ++ rewrite lookup_insert_ne in Hg by congruence.
              destruct (Hcached id g Hg)
                as (rule' & schema' & newer & older & Ht & Hid' & Hs & Hcomp & Hcalls).
              cbn [fst snd] in Ht.
              exists rule', schema',
                (EvCompile (ByValidate rule) schema true :: added ++ newer)%list, older.
              split; [rewrite Hadded, Ht; cbn [app]; now rewrite app_assoc|].
              repeat split; try assumption.
              unfold callsFor. cbn [List.filter].
              rewrite isCompileFor_other by (rewrite Hid; congruence).
              fold (callsFor id (added ++ newer)).
              now rewrite callsFor_app, Hcalls, (quiet_callsFor added id Hno).
      * apply (step_same_cache this w
                 {| next_id := next_id w1;
                    trace := EvCompile (ByValidate rule) schema true :: trace w1 |}
                 (EvCompile (ByValidate rule) schema true :: added)).
        -- cbn [trace app]. now rewrite Hadded.
        -- intros id. unfold callsFor. cbn [List.filter].
           rewrite isCompileFor_other by (rewrite Hid; discriminate).
           apply (quiet_callsFor added id Hno).
    + (* the engine threw *)
      split; cbn [fst snd trace].
      * now intros id g.
      * intros id Hs. unfold callsFor. cbn [List.filter].
        rewrite isCompileFor_other by (apply Hmiss, Hs). now rewrite Hq1.
      * intros id. unfold compiledFor. cbn [List.filter].
        rewrite isCompileFor_failed. now rewrite Hq1.
      * intros Hone id. specialize (Hone id). cbn [fst snd validators trace] in *.
        unfold compiledFor in *. cbn [List.filter].
        rewrite isCompileFor_failed. now rewrite Hq1.
      * apply (CachedAsCompiled_extend this w
                 {| next_id := next_id w1;
                    trace := EvCompile (ByValidate rule) schema false :: trace w1 |}
                 (EvCompile (ByValidate rule) schema false :: added)).
        -- cbn [trace app]. now rewrite Hadded.
        -- intros id Hs. unfold callsFor. cbn [List.filter].
           rewrite isCompileFor_other by (apply Hmiss, Hs).
           apply (quiet_callsFor added id Hno).
Qed.

Lemma preserves_applyValidator (ruleId : string) (ruleOptions rule : JsValue) :
  preserves (applyValidator ruleId ruleOptions rule).
Proof.
  unfold applyValidator.
  apply preserves_bind; [apply preserves_validators_get|intros [validateRule|]].
  - apply preserves_bind; [apply preserves_inWorld, quiet_slice1|intros options].
    apply preserves_bind; [apply preserves_inWorld, quiet_run|intros [errors|]].
    + apply preserves_throw.
    + apply preserves_ret.
  - apply preserves_ret.
Qed.

Lemma quiet_resolve (ruleId : string) (config : JsValue) :
  quiet (emit (EvResolve ruleId) ;;; resolveRule ruleId config).
Proof.
  apply quiet_bind; [now apply quiet_emit|intros _; apply quiet_resolveRule].
Qed.

Lemma preserves_validateEntry (config : JsValue) (entry : string * JsValue) :
  preserves (validateEntry config entry).
Proof.
  destruct entry as [ruleId ruleOptions]. unfold validateEntry.
  apply preserves_if; [apply preserves_ret|].
  apply preserves_bind; [apply preserves_liftO|intros severity].
  apply preserves_if; [apply preserves_ret|].
  apply preserves_bind; [apply preserves_inWorld, quiet_resolve|intros rule].
  apply preserves_bind; [apply preserves_precompile|intros _].
  apply preserves_applyValidator.
Qed.

Lemma preserves_validateEntries (config : JsValue) (entries : list (string * JsValue)) :
  preserves (validateEntries config entries).
Proof.
  induction entries as [|entry entries IH]; cbn [validateEntries].
  - apply preserves_ret.
  - apply preserves_bind; [apply preserves_validateEntry|intros _; exact IH].
Qed.

Lemma preserves_validate (config : JsValue) : preserves (validate config).
Proof.
  unfold validate. apply preserves_bind; [apply preserves_liftO|intros rules].
  apply preserves_if; [apply preserves_ret|].
  apply preserves_bind; [apply preserves_liftO|intros entries].
  apply preserves_validateEntries.
Qed.




Lemma validateEntries_app (config : JsValue) (pre post : list (string * JsValue)) (s : State) :
  validateEntries config (pre ++ post)%list s
  = (validateEntries config pre ;;; validateEntries config post) s.
Proof.
  revert s. induction pre as [|entry pre IH]; intros s; cbn [validateEntries app].
  - reflexivity.
  - unfold bind. destruct (validateEntry config entry s) as [[[]|e] s1].
    + rewrite IH. reflexivity.
    + reflexivity.
Qed.

End ValidatorFacts.

(** ** A disabled entry *)

(** C9: an entry whose [options[0]] is [0] makes [validate] do nothing: the
    loop body returns at once, leaving the cache, the allocation counter and
    the trace (no resolution, no schema lookup, no compilation, no run of a
    validator) as they were, and the loop, hence [validate], behaves as if
    the entry were not in [config.rules]. This holds for every rule id,
    every configuration and every state of the instance. *)
Theorem validate_skips_disabled_entry `{Builtins} `{Collaborators}
    (config : JsValue) (ruleId : string) (ruleOptions : JsValue)
    (pre post : list (string * JsValue)) (s : RuleValidator.State) :
  get ruleOptions "0" = Returned (JNum 0) ->
  RuleValidator.validateEntry config (ruleId, ruleOptions) s = (Returned tt, s)
  /\ RuleValidator.validateEntries config (pre ++ (ruleId, ruleOptions) :: post)%list s
     = RuleValidator.validateEntries config (pre ++ post)%list s
  /\ (forall rules,
        get config "rules" = Returned rules ->
        truthy rules = true ->
        Object_entries rules = Returned (pre ++ (ruleId, ruleOptions) :: post)%list ->
        RuleValidator.validate config s
        = RuleValidator.validateEntries config (pre ++ post)%list s).
Proof.
  intros Hzero.
  assert (Hentry : forall s', RuleValidator.validateEntry config (ruleId, ruleOptions) s'
                              = (Returned tt, s')).
  { intros s'. unfold RuleValidator.validateEntry.
    destruct (String.eqb ruleId "__proto__"); [reflexivity|].
    unfold bind, liftO. rewrite Hzero. reflexivity. }
  assert (Hloop : RuleValidator.validateEntries config
                    (pre ++ (ruleId, ruleOptions) :: post)%list s
                  = RuleValidator.validateEntries config (pre ++ post)%list s).
  { rewrite !validateEntries_app. unfold bind.
    destruct (RuleValidator.validateEntries config pre s) as [[[]|e] s1]; [|reflexivity].
    cbn [RuleValidator.validateEntries]. unfold bind. now rewrite Hentry. }
  split; [apply Hentry|]. split; [exact Hloop|].
  intros rules Hrules Htruthy Hentries.
  unfold RuleValidator.validate, bind, liftO. rewrite Hrules, Htruthy, Hentries.
  exact Hloop.
Qed.

Lemma validate_skips_disabled_entry_witness :
  get (JArr 3 [JNum 0; JStr "anything"]) "0" = Returned (JNum 0)
  /\ RuleValidator.validateEntry disabledConfig ("some-rule", JArr 3 [JNum 0; JStr "anything"])
       (freshInstance 1000)
     = (Returned tt, freshInstance 1000)
  /\ RuleValidator.validateEntries disabledConfig
       ([] ++ ("some-rule", JArr 3 [JNum 0; JStr "anything"]) :: [])%list (freshInstance 1000)
     = RuleValidator.validateEntries disabledConfig ([] ++ [])%list (freshInstance 1000)
  /\ (forall rules,
        get disabledConfig "rules" = Returned rules ->
        truthy rules = true ->
        Object_entries rules
        = Returned ([] ++ ("some-rule", JArr 3 [JNum 0; JStr "anything"]) :: [])%list ->
        RuleValidator.validate disabledConfig (freshInstance 1000)
        = RuleValidator.validateEntries disabledConfig ([] ++ [])%list (freshInstance 1000)).
Proof.
  split; [reflexivity|].
  apply (validate_skips_disabled_entry disabledConfig "some-rule"
           (JArr 3 [JNum 0; JStr "anything"]) [] [] (freshInstance 1000)).
  reflexivity.
Defined.

Example validate_disabled_unknown_rule :
  RuleValidator.validate disabledConfig (freshInstance 1000)
  = (Returned tt, freshInstance 1000).
Proof. reflexivity. Qed.

(** The same rule id, enabled, makes [validate] throw. *)
Example validate_enabled_unknown_rule :
  fst (RuleValidator.validate
         (JObj 1 [("rules", JObj 2 [("some-rule", JArr 3 [JNum 2; JStr "anything"])]);
                  ("plugins", JObj 4 [])])
         (freshInstance 1000))
  = Thrown (TypeError "Cannot convert a Symbol value to a string").
Proof. reflexivity. Qed.

(** ** Rules given as a bare function *)

Lemma getRuleFromConfig_function `{Builtins} (ruleId : string) (config : JsValue) (resolved : ResolvedRule)
    (fid : ObjId) (props : list (string * JsValue)) (w : World) :
  RuleLookup.resolveRuleId ruleId config = Returned resolved ->
  registeredRule config (pluginName resolved) (ruleName resolved) (JFun fid props) ->
  FlatConfigHelpers.getRuleFromConfig ruleId config w
  = (Returned (JObj (next_id w) [("create", JFun fid props)]),
     {| next_id := S (next_id w); trace := trace w |}).
Proof.
  intros Hres (plugins & plugin & rules & H1 & H2 & H3 & H4).
  unfold FlatConfigHelpers.getRuleFromConfig, bind, liftO.
  rewrite Hres, H1, H2, H3, H4. reflexivity.
Qed.

(** The wrapper of a function rule has no schema to offer. *)
Lemma getRuleOptionsSchema_wrapper `{Builtins} (id : ObjId) (fn : JsValue) (w : World) :
  FlatConfigHelpers.getRuleOptionsSchema (JObj id [("create", fn)]) w = (Returned JNull, w).
Proof.
  unfold FlatConfigHelpers.getRuleOptionsSchema, FlatConfigHelpers.resolvedSchema, bind, liftO.
  cbn [truthy negb get].
  replace (has_own (JObj id [("create", fn)]) "schema") with false by reflexivity.
  replace (has_own (JObj id [("create", fn)]) "meta") with false by reflexivity.
  rewrite builtin_schema. cbn [bindO js_or truthy]. rewrite builtin_meta. reflexivity.
Qed.

(** An enabled entry whose rule is a bare function, in a state where the
    identity of the next new object is not a key of the cache. *)
Lemma validateEntry_function_rule `{Builtins} `{Collaborators}
    (config : JsValue) (ruleId : string) (ruleOptions severity : JsValue)
    (resolved : ResolvedRule) (fid : ObjId) (props : list (string * JsValue))
    (this : RuleValidator.Instance) (w : World) :
  ruleId <> "__proto__" ->
  get ruleOptions "0" = Returned severity ->
  strict_equals severity (JNum 0) = false ->
  RuleLookup.resolveRuleId ruleId config = Returned resolved ->
  registeredRule config (pluginName resolved) (ruleName resolved) (JFun fid props) ->
  RuleValidator.validators this !! next_id w = None ->
  RuleValidator.validateEntry config (ruleId, ruleOptions) (this, w)
  = (Returned tt,
     (this,
      {| next_id := S (next_id w);
         trace := EvSchemaLookup (JObj (next_id w) [("create", JFun fid props)])
                  :: EvResolve ruleId :: trace w |})).
Proof.
  intros Hproto Hsev Hon Hres Hreg Hnew.
  unfold RuleValidator.validateEntry.
  destruct (String.eqb_spec ruleId "__proto__") as [->|_]; [contradiction|].
  unfold bind at 1. unfold liftO at 1. rewrite Hsev, Hon.
  unfold bind at 1. unfold RuleValidator.inWorld at 1.
  unfold bind at 1. cbn [emit].
  unfold RuleValidator.resolveRule, try_catch.
  rewrite (getRuleFromConfig_function ruleId config resolved fid props _ Hres Hreg).
  cbn [next_id trace].
  unfold bind at 1.
  unfold RuleValidator.precompile, bind at 1, RuleValidator.validators_has.
  cbn [RuleValidator.identity]. rewrite Hnew.
  rewrite bool_decide_false by (intros [? ?]; discriminate). cbn [negb].
  unfold bind at 1, RuleValidator.inWorld at 1, bind at 1. cbn [emit].
  rewrite getRuleOptionsSchema_wrapper. cbn [truthy ret].
  unfold RuleValidator.applyValidator, bind, RuleValidator.validators_get.
  cbn [RuleValidator.identity]. rewrite Hnew. reflexivity.
Qed.

(** C10, as amended: a rule registered as a bare function is wrapped in a
    new [{ create }] object by every call of [getRuleFromConfig], so the
    cache of the validator is never hit for it; for every enabled entry the
    schema of the wrapper is looked up again, the lookup yields [null], and
    nothing is compiled, cached or run. *)
Theorem function_rule_is_looked_up_anew_never_compiled `{Builtins} `{Collaborators}
    (config : JsValue) (ruleId : string) (ruleOptions severity : JsValue)
    (resolved : ResolvedRule) (fid : ObjId) (props : list (string * JsValue))
    (this : RuleValidator.Instance) (w : World) :
  ruleId <> "__proto__" ->
  get ruleOptions "0" = Returned severity ->
  strict_equals severity (JNum 0) = false ->
  RuleLookup.resolveRuleId ruleId config = Returned resolved ->
  registeredRule config (pluginName resolved) (ruleName resolved) (JFun fid props) ->
  RuleValidator.validators this !! next_id w = None ->
  (forall w0,
     FlatConfigHelpers.getRuleFromConfig ruleId config w0
     = (Returned (JObj (next_id w0) [("create", JFun fid props)]),
        {| next_id := S (next_id w0); trace := trace w0 |}))
  /\ RuleValidator.validateEntry config (ruleId, ruleOptions) (this, w)
     = (Returned tt,
        (this,
         {| next_id := S (next_id w);
            trace := EvSchemaLookup (JObj (next_id w) [("create", JFun fid props)])
                     :: EvResolve ruleId :: trace w |})).
Proof.
  intros Hproto Hsev Hon Hres Hreg Hnew. split.
  - intros w0. now apply getRuleFromConfig_function with (resolved := resolved).
  - now apply validateEntry_function_rule with (severity := severity) (resolved := resolved).
Qed.

Lemma function_rule_is_looked_up_anew_never_compiled_witness :
  ("legacy" <> "__proto__"
   /\ get (JArr 20 [JNum 2; JStr "always"]) "0" = Returned (JNum 2)
   /\ strict_equals (JNum 2) (JNum 0) = false
   /\ RuleLookup.resolveRuleId "legacy" functionRuleConfig
      = Returned {| pluginName := "@"; ruleName := "legacy" |}
   /\ registeredRule functionRuleConfig "@" "legacy" functionRule
   /\ RuleValidator.validators RuleValidator.new !! next_id world0 = None)
  /\ RuleValidator.validateEntry functionRuleConfig ("legacy", JArr 20 [JNum 2; JStr "always"])
       (RuleValidator.new, world0)
     = (Returned tt,
        (RuleValidator.new,
         {| next_id := 1001;
            trace := [EvSchemaLookup (JObj 1000 [("create", functionRule)]);
                      EvResolve "legacy"] |})).
Proof.
  assert (Hreg : registeredRule functionRuleConfig "@" "legacy" functionRule).
  { do 3 eexists. repeat split; reflexivity. }
  split.
  - repeat split; try reflexivity; [discriminate|exact Hreg].
  - apply (function_rule_is_looked_up_anew_never_compiled functionRuleConfig "legacy"
             (JArr 20 [JNum 2; JStr "always"]) (JNum 2)
             {| pluginName := "@"; ruleName := "legacy" |} 5 [("schema", JArr 6 [])]
             RuleValidator.new world0);
      [discriminate | reflexivity | reflexivity | reflexivity | exact Hreg | reflexivity].
Defined.

(** C10 as stated fails: a function rule that even carries a [schema]
    property is configured under two rule ids, both enabled; [validate]
    looks a schema up for each entry and has the engine compile none. *)
Lemma function_rule_compiled_anew_counterexample :
  let result := RuleValidator.validate functionRuleConfig (freshInstance 1000) in
  fst result = Returned tt
  /\ List.length (List.filter isSchemaLookup (trace (snd (snd result)))) = 2%nat
  /\ List.length (List.filter isCompile (trace (snd (snd result)))) = 0%nat
  /\ RuleValidator.validators (fst (snd result)) = ∅.
Proof. cbn zeta. repeat split. Qed.

(** ** The cache of compiled validators *)

Section CacheFacts.

Context `{Builtins} `{Collaborators}.

Import RuleValidator.

Local Open Scope nat_scope.

(** Resolution of a rule id whose rule is an object: the rule itself comes
    back and nothing is created. *)
Lemma resolve_object_rule (ruleId : string) (config rule : JsValue) (this : Instance) (w : World) :
  (forall w0, FlatConfigHelpers.getRuleFromConfig ruleId config w0 = (Returned rule, w0)) ->
  inWorld (emit (EvResolve ruleId) ;;; resolveRule ruleId config) (this, w)
  = (Returned rule, (this, {| next_id := next_id w; trace := EvResolve ruleId :: trace w |})).
Proof.
  intros Hget. unfold inWorld, bind, emit, resolveRule, try_catch. now rewrite Hget.
Qed.


Lemma precompile_hit (rule : JsValue) (id : ObjId) (this : Instance) (w : World) :
  identity rule = Some id ->
  is_Some (validators this !! id) ->
  precompile rule (this, w) = (Returned tt, (this, w)).
Proof.
  intros Hid Hc. unfold precompile, bind, validators_has.
  rewrite Hid, bool_decide_true by exact Hc. reflexivity.
Qed.


Lemma validateEntry_enabled (config : JsValue) (ruleId : string) (ruleOptions rule : JsValue)
    (this : Instance) (w : World) :
  enabledEntry config ruleId ruleOptions rule ->
  validateEntry config (ruleId, ruleOptions) (this, w)
  = (precompile rule ;;; applyValidator ruleId ruleOptions rule)
      (this, {| next_id := next_id w; trace := EvResolve ruleId :: trace w |}).
Proof.
  intros (Hproto & (severity & Hsev & Hon) & Hget). unfold validateEntry.
  destruct (String.eqb_spec ruleId "__proto__") as [->|_]; [contradiction|].
  unfold bind at 1. unfold liftO at 1. rewrite Hsev, Hon.
  unfold bind at 1. now rewrite (resolve_object_rule _ _ _ _ _ Hget).
Qed.








End CacheFacts.




(** The same on the trace itself: three calls of [validate], six enabled
    entries, one compilation, of the schema made for the rule, and its
    result in the cache. *)
Example aliasConfig_trace :
  let s := validateAll [aliasConfig; aliasConfig; aliasConfig] (freshInstance 1000) in
  List.filter isCompile (trace (snd s)) = [EvCompile (ByValidate semiRule) semiSchema true]
  /\ RuleValidator.validators (fst s) !! 5%nat = Some semiValidator
  /\ List.length (List.filter isSchemaLookup (trace (snd s))) = 1%nat
  /\ List.length (trace (snd s)) = 14%nat.
Proof. cbn zeta. repeat split. Qed.


(** ** A new object is never a key of the cache *)

Section FreshFacts.

Context `{Builtins} `{Collaborators}.

Import RuleValidator.

Local Open Scope nat_scope.

Lemma assoc_In {A : Type} (k : string) (l : list (string * A)) (v : A) :
  assoc k l = Some v -> In (k, v) l.
Proof.
  induction l as [|[k' v'] l IH]; cbn; [discriminate|].
  destruct (String.eqb_spec k k') as [->|_]; [intros [= ->]; now left|auto].
Qed.

Lemma occurs_get_own (id : ObjId) (v : JsValue) (k : string) :
  occurs id (get_own v k) -> occurs id v.
Proof.
  destruct v as [| | | |s| |i props|i props|i elems]; cbn [get_own];
    try (intros Ho; inversion Ho; fail).
  - destruct (String.eqb k "length"); [intros Ho; inversion Ho|].
    destruct (parse_index k) as [n|]; [|intros Ho; inversion Ho].
    destruct (String.get n s); intros Ho; inversion Ho.
  - unfold own_property. destruct (assoc k props) as [x|] eqn:Hx; [|intros Ho; inversion Ho].
    intros Ho. eapply occurs_in_fun; [apply (assoc_In _ _ _ Hx)|exact Ho].
  - unfold own_property. destruct (assoc k props) as [x|] eqn:Hx; [|intros Ho; inversion Ho].
    intros Ho. eapply occurs_in_obj; [apply (assoc_In _ _ _ Hx)|exact Ho].
  - destruct (String.eqb k "length"); [intros Ho; inversion Ho|].
    destruct (parse_index k) as [n|]; [|intros Ho; inversion Ho].
    destruct (nth_in_or_default n elems JUndefined) as [Hin| ->]; [|intros Ho; inversion Ho].
    intros Ho. eapply occurs_in_arr; eauto.
Qed.

(** What is read from a value is a part of it or a built-in. *)
Lemma below_get (n : ObjId) (v x : JsValue) (k : string) :
  builtinsBelow n -> below n v -> get v k = Returned x -> below n x.
Proof.
  intros Hbuiltins Hv Hg id Ho.
  assert (Hcases : x = get_own v k \/ builtin_property v k = Returned x).
  { destruct v; cbn [get] in Hg; try discriminate;
      (destruct (has_own _ _); [left; congruence|right; exact Hg]). }
  destruct Hcases as [->|Hb].
  - apply Hv. now apply occurs_get_own in Ho.
  - now apply (Hbuiltins v k x Hb).
Qed.

Lemma builtinsBelow_le (n m : ObjId) : n <= m -> builtinsBelow n -> builtinsBelow m.
Proof. intros Hle Hb v k x Hx id Ho. specialize (Hb v k x Hx id Ho). lia. Qed.

Lemma identity_occurs (v : JsValue) (id : ObjId) : identity v = Some id -> occurs id v.
Proof. destruct v; cbn; try discriminate; intros [= ->]; constructor. Qed.

(** The rule [getRuleFromConfig] returns is part of the configuration or an
    object created by the call. *)
Lemma getRuleFromConfig_identity (ruleId : string) (config rule : JsValue) (w w' : World) :
  FlatConfigHelpers.getRuleFromConfig ruleId config w = (Returned rule, w') ->
  builtinsBelow (next_id w) ->
  below (next_id w) config ->
  next_id w <= next_id w' /\ forall id, identity rule = Some id -> id < next_id w'.
Proof.
  unfold FlatConfigHelpers.getRuleFromConfig, bind, liftO. intros Hrun Hbuiltins Hbelow.
  destruct (RuleLookup.resolveRuleId ruleId config) as [resolved|]; [|discriminate].
  destruct (get config "plugins") as [plugins|] eqn:H1; [|discriminate].
  destruct (get plugins (pluginName resolved)) as [plugin|] eqn:H2; [|discriminate].
  destruct (get plugin "rules") as [rules|] eqn:H3; [|discriminate].
  destruct (get rules (ruleName resolved)) as [rule0|] eqn:H4; [|discriminate].
  destruct (String.eqb (typeof rule0) "function").
  - cbn in Hrun. injection Hrun as <- <-. cbn. split; [lia|]. intros id [= <-]. lia.
  - cbn in Hrun. injection Hrun as <- <-. split; [lia|]. intros id Hid.
    pose proof (below_get _ _ _ _ Hbuiltins Hbelow H1) as B1.
    pose proof (below_get _ _ _ _ Hbuiltins B1 H2) as B2.
    pose proof (below_get _ _ _ _ Hbuiltins B2 H3) as B3.
    pose proof (below_get _ _ _ _ Hbuiltins B3 H4) as B4.
    apply B4. now apply identity_occurs.
Qed.

Lemma resolveRule_identity (ruleId : string) (config rule : JsValue) (w w' : World) :
  resolveRule ruleId config w = (Returned rule, w') ->
  builtinsBelow (next_id w) ->
  below (next_id w) config ->
  next_id w <= next_id w' /\ forall id, identity rule = Some id -> id < next_id w'.
Proof.
  unfold resolveRule, try_catch. intros Hrun Hbuiltins Hbelow.
  destruct (FlatConfigHelpers.getRuleFromConfig ruleId config w) as [[rule0|e] w1] eqn:E.
  - injection Hrun as <- <-. now apply (getRuleFromConfig_identity ruleId config rule0 w w1).
  - exfalso. destruct e as [msg|msg|e|msg]; try discriminate.
    cbn zeta in Hrun. destruct (assoc ruleId ruleReplacements_rules).
    + unfold liftO, RuleLookup.throw_new in Hrun.
      destruct (RuleLookupError.new _ _); discriminate.
    + unfold bind, liftO in Hrun.
      destruct (RuleLookup.searchForPartialRuleNameMatches ruleId config); [|discriminate].
      destruct (negb _); unfold RuleLookup.throw_new in Hrun;
        destruct (RuleLookupError.new _ _); discriminate.
Qed.

Lemma getRuleFromConfig_next_id (ruleId : string) (config : JsValue) (w : World) :
  next_id w <= next_id (snd (FlatConfigHelpers.getRuleFromConfig ruleId config w)).
Proof.
  unfold FlatConfigHelpers.getRuleFromConfig, bind, liftO.
  destruct (RuleLookup.resolveRuleId ruleId config) as [resolved|]; [|cbn; lia].
  destruct (get config "plugins") as [plugins|]; [|cbn; lia].
  destruct (get plugins (pluginName resolved)) as [plugin|]; [|cbn; lia].
  destruct (get plugin "rules") as [rules|]; [|cbn; lia].
  destruct (get rules (ruleName resolved)) as [rule0|]; [|cbn; lia].
  destruct (String.eqb (typeof rule0) "function"); cbn; lia.
Qed.

Lemma resolveRule_next_id (ruleId : string) (config : JsValue) (w : World) :
  next_id w <= next_id (snd (resolveRule ruleId config w)).
Proof.
  unfold resolveRule, try_catch.
  pose proof (getRuleFromConfig_next_id ruleId config w) as Hle.
  destruct (FlatConfigHelpers.getRuleFromConfig ruleId config w) as [[rule|e] w1];
    cbn [snd] in *; [exact Hle|].
  destruct e as [msg|msg|e|msg]; cbn [snd throw]; try exact Hle.
  cbn zeta. destruct (assoc ruleId ruleReplacements_rules); [exact Hle|].
  unfold bind, liftO.
  destruct (RuleLookup.searchForPartialRuleNameMatches ruleId config); [|exact Hle].
  destruct (negb _); exact Hle.
Qed.

Lemma getRuleOptionsSchema_next_id (rule : JsValue) (w : World) :
  next_id w <= next_id (snd (FlatConfigHelpers.getRuleOptionsSchema rule w)).
Proof.
  unfold FlatConfigHelpers.getRuleOptionsSchema.
  destruct (negb (truthy rule)); [cbn; lia|].
  unfold bind, liftO. destruct (FlatConfigHelpers.resolvedSchema rule) as [schema|]; [|cbn; lia].
  destruct (Array_isArray schema); [|cbn; lia].
  unfold FlatConfigHelpers.wrapArraySchema.
  destruct (truthy _); cbn; lia.
Qed.

Lemma slice1_next_id (ruleOptions : JsValue) (w : World) :
  next_id w <= next_id (snd (slice1 ruleOptions w)).
Proof. destruct ruleOptions; cbn; lia. Qed.

Lemma cacheBelow_same_cache (this : Instance) (w w' : World) :
  next_id w <= next_id w' -> cacheBelow (this, w) -> cacheBelow (this, w').
Proof. intros Hle Hc id Hid. specialize (Hc id Hid). cbn [fst snd] in *. lia. Qed.

Lemma precompile_cacheBelow (rule : JsValue) (this : Instance) (w : World) :
  (forall id, identity rule = Some id -> id < next_id w) ->
  cacheBelow (this, w) ->
  let s' := snd (precompile rule (this, w)) in
  cacheBelow s' /\ next_id w <= next_id (snd s').
Proof.
  intros Hrule Hc. cbn zeta.
  destruct (precompile rule (this, w)) as [r [this' w']] eqn:E. cbn [fst snd]. revert E.
  unfold precompile, bind at 1, validators_has.
  destruct (negb _); [|intros [= _ <- <-]; split; [exact Hc|lia]].
  unfold bind at 1, inWorld at 1, bind at 1. cbn [emit].
  pose proof (getRuleOptionsSchema_next_id rule
                {| next_id := next_id w; trace := EvSchemaLookup rule :: trace w |}) as Hn.
  destruct (FlatConfigHelpers.getRuleOptionsSchema rule _) as [[schema|e] w1];
    cbn [snd next_id] in Hn;
    [|intros [= _ <- <-]; split; [now apply (cacheBelow_same_cache this w)|lia]].
  destruct (truthy schema);
    [|intros [= _ <- <-]; split; [now apply (cacheBelow_same_cache this w)|lia]].
  unfold bind, inWorld, compile.
  destruct (ajv_compile schema) as [f|e]; cbn.
  - unfold validators_set. destruct (identity rule) as [id0|] eqn:Hid.
    + intros [= _ <- <-]. split; [|cbn; lia]. intros id Hs. cbn [fst snd validators next_id] in *.
      destruct (decide (id = id0)) as [->|Hne].
      * specialize (Hrule id0 eq_refl). lia.
      * rewrite lookup_insert_ne in Hs by congruence. specialize (Hc id Hs). cbn in Hc. lia.
    + intros [= _ <- <-]. split; [|cbn; lia].
      intros id Hs. specialize (Hc id Hs). cbn [fst snd next_id] in *. lia.
  - intros [= _ <- <-]. split; [|cbn; lia].
    intros id Hs. specialize (Hc id Hs). cbn [fst snd next_id] in *. lia.
Qed.

Lemma applyValidator_next_id (ruleId : string) (ruleOptions rule : JsValue)
    (this : Instance) (w : World) :
  let s' := snd (applyValidator ruleId ruleOptions rule (this, w)) in
  fst s' = this /\ next_id w <= next_id (snd s').
Proof.
  cbn zeta.
  destruct (applyValidator ruleId ruleOptions rule (this, w)) as [r [this' w']] eqn:E.
  cbn [fst snd]. revert E.
  unfold applyValidator, bind at 1, validators_get.
  destruct (match identity rule with
            | Some id => validators this !! id
            | None => None
            end) as [validateRule|]; [|intros [= _ <- <-]; split; [reflexivity|lia]].
  unfold bind at 1, inWorld at 1.
  pose proof (slice1_next_id ruleOptions w) as Hs.
  destruct (slice1 ruleOptions w) as [[options|e] w1]; cbn [snd] in Hs;
    [|intros [= _ <- <-]; split; [reflexivity|lia]].
  unfold bind, inWorld, run, emit. cbn.
  destruct (validateRule options); intros [= _ <- <-]; split; (reflexivity || (cbn; lia)).
Qed.

Lemma validateEntry_cacheBelow (config : JsValue) (entry : string * JsValue)
    (this : Instance) (w : World) :
  builtinsBelow (next_id w) ->
  below (next_id w) config ->
  cacheBelow (this, w) ->
  let s' := snd (validateEntry config entry (this, w)) in
  cacheBelow s' /\ next_id w <= next_id (snd s').
Proof.
  intros Hbuiltins Hbelow Hc. cbn zeta. destruct entry as [ruleId ruleOptions].
  destruct (validateEntry config (ruleId, ruleOptions) (this, w)) as [r [this' w']] eqn:E.
  cbn [fst snd]. revert E. unfold validateEntry.
  destruct (String.eqb ruleId "__proto__"); [intros [= _ <- <-]; split; [exact Hc|lia]|].
  unfold bind at 1, liftO at 1.
  destruct (get ruleOptions "0") as [severity|e]; [|intros [= _ <- <-]; split; [exact Hc|lia]].
  destruct (strict_equals severity (JNum 0)); [intros [= _ <- <-]; split; [exact Hc|lia]|].
  unfold bind at 1, inWorld at 1, bind at 1. cbn [emit].
  destruct (resolveRule ruleId config {| next_id := next_id w; trace := EvResolve ruleId :: trace w |})
    as [[rule|e] w1] eqn:Hres.
  - destruct (resolveRule_identity _ _ _ _ _ Hres Hbuiltins Hbelow) as [Hle Hrule].
    cbn [next_id] in Hle.
    unfold bind at 1.
    destruct (precompile_cacheBelow rule this w1 Hrule (cacheBelow_same_cache this w w1 Hle Hc))
      as [Hc2 Hle2]. cbn zeta in Hc2, Hle2.
    destruct (precompile rule (this, w1)) as [[[]|e] [this2 w2]]; cbn [fst snd] in *.
    + destruct (applyValidator_next_id ruleId ruleOptions rule this2 w2) as [Hthis Hle3].
      cbn zeta in Hthis, Hle3.
      destruct (applyValidator ruleId ruleOptions rule (this2, w2)) as [r3 [this3 w3]].
      cbn [fst snd] in *. intros [= _ <- <-]. subst this3.
      split; [now apply (cacheBelow_same_cache this2 w2)|lia].
    + intros [= _ <- <-]. split; [exact Hc2|lia].
  - pose proof (resolveRule_next_id ruleId config
                  {| next_id := next_id w; trace := EvResolve ruleId :: trace w |}) as Hle.
    rewrite Hres in Hle. cbn [snd next_id] in Hle.
    intros [= _ <- <-]. split; [now apply (cacheBelow_same_cache this w)|lia].
Qed.

Lemma below_le (n m : ObjId) (v : JsValue) : n <= m -> below n v -> below m v.
Proof. intros Hle Hb id Ho. specialize (Hb id Ho). lia. Qed.

Lemma validateEntries_cacheBelow (config : JsValue) (entries : list (string * JsValue))
    (this : Instance) (w : World) :
  builtinsBelow (next_id w) ->
  below (next_id w) config ->
  cacheBelow (this, w) ->
  let s' := snd (validateEntries config entries (this, w)) in
  cacheBelow s' /\ next_id w <= next_id (snd s').
Proof.
  revert this w.
  induction entries as [|entry entries IH]; intros this w Hbuiltins Hbelow Hc; cbn zeta.
  - cbn. split; [exact Hc|lia].
  - cbn [validateEntries]. unfold bind.
    destruct (validateEntry_cacheBelow config entry this w Hbuiltins Hbelow Hc) as [Hc1 Hle1].
    cbn zeta in Hc1, Hle1.
    destruct (validateEntry config entry (this, w)) as [[[]|e] [this1 w1]]; cbn [fst snd] in *.
    + destruct (IH this1 w1 (builtinsBelow_le _ _ Hle1 Hbuiltins)
                  (below_le _ _ _ Hle1 Hbelow) Hc1) as [Hc2 Hle2].
      cbn zeta in Hc2, Hle2. split; [exact Hc2|lia].
    + split; [exact Hc1|lia].
Qed.

Lemma validate_cacheBelow (config : JsValue) (this : Instance) (w : World) :
  builtinsBelow (next_id w) ->
  below (next_id w) config ->
  cacheBelow (this, w) ->
  let s' := snd (validate config (this, w)) in
  cacheBelow s' /\ next_id w <= next_id (snd s').
Proof.
  intros Hbuiltins Hbelow Hc. cbn zeta. unfold validate, bind, liftO.
  destruct (get config "rules") as [rules|]; [|split; [exact Hc|cbn; lia]].
  destruct (negb (truthy rules)); [split; [exact Hc|cbn; lia]|].
  destruct (Object_entries rules) as [entries|]; [|split; [exact Hc|cbn; lia]].
  now apply validateEntries_cacheBelow.
Qed.

(** Whatever configurations an instance has validated, the object created
    next is not a key of its cache. *)
Lemma validateAll_cacheBelow (configs : list JsValue) (s : State) :
  builtinsBelow (next_id (snd s)) ->
  Forall (below (next_id (snd s))) configs ->
  cacheBelow s ->
  cacheBelow (validateAll configs s).
Proof.
  revert s. induction configs as [|config configs IH]; intros [this w] Hbuiltins Hall Hc;
    cbn [validateAll]; [exact Hc|].
  apply Forall_cons in Hall as [Hconfig Hall]. cbn [snd] in *.
  destruct (validate_cacheBelow config this w Hbuiltins Hconfig Hc) as [Hc1 Hle1].
  cbn zeta in Hc1, Hle1. apply IH; [now apply (builtinsBelow_le (next_id w))| |exact Hc1].
  eapply Forall_impl; [exact Hall|]. intros v. now apply below_le.
Qed.

Lemma new_object_not_cached (configs : list JsValue) (n : ObjId) :
  builtinsBelow n ->
  Forall (below n) configs ->
  let s := validateAll configs (freshInstance n) in
  validators (fst s) !! next_id (snd s) = None.
Proof.
  intros Hbuiltins Hall. cbn zeta.
  assert (Hc : cacheBelow (validateAll configs (freshInstance n))).
  { apply validateAll_cacheBelow; [exact Hbuiltins|exact Hall|].
    intros id [f Hf]. cbn in Hf. now rewrite lookup_empty in Hf. }
  destruct (validators (fst (validateAll configs (freshInstance n)))
              !! next_id (snd (validateAll configs (freshInstance n)))) eqn:E; [|reflexivity].
  specialize (Hc _ (ex_intro _ _ E)). lia.
Qed.

Lemma belowb_sound (n : ObjId) (v : JsValue) : belowb n v = true -> below n v.
Proof.
  intros Hb id Ho. revert Hb.
  induction Ho as [props|props|elems|i props k v Hin Ho IH|i props k v Hin Ho IH
                   |i elems v Hin Ho IH]; cbn [belowb]; intros Hb;
    apply andb_prop in Hb as [Hid Hall];
    try (apply Nat.ltb_lt in Hid; exact Hid); apply IH; clear -Hin Hall.
  - induction props as [|[k' x] props IHp]; [contradiction|].
    apply andb_prop in Hall as [Hx Hall]. destruct Hin as [[= _ <-]|Hin]; auto.
  - induction props as [|[k' x] props IHp]; [contradiction|].
    apply andb_prop in Hall as [Hx Hall]. destruct Hin as [[= _ <-]|Hin]; auto.
  - induction elems as [|x elems IHe]; [contradiction|].
    apply andb_prop in Hall as [Hx Hall]. destruct Hin as [<-|Hin]; auto.
Qed.

(** After any history of calls on configurations made of objects that
    already exist, as the built-ins do, an enabled entry for a function rule
    misses the cache, has a schema looked up, and leaves the cache as it
    was. *)
Lemma function_rule_missed_after_any_history
    (history : list JsValue) (n : ObjId)
    (config : JsValue) (ruleId : string) (ruleOptions severity : JsValue)
    (resolved : ResolvedRule) (fid : ObjId) (props : list (string * JsValue)) :
  builtinsBelow n ->
  Forall (below n) history ->
  ruleId <> "__proto__" ->
  get ruleOptions "0" = Returned severity ->
  strict_equals severity (JNum 0) = false ->
  RuleLookup.resolveRuleId ruleId config = Returned resolved ->
  registeredRule config (pluginName resolved) (ruleName resolved) (JFun fid props) ->
  let s := validateAll history (freshInstance n) in
  validateEntry config (ruleId, ruleOptions) s
  = (Returned tt,
     (fst s,
      {| next_id := S (next_id (snd s));
         trace := EvSchemaLookup (JObj (next_id (snd s)) [("create", JFun fid props)])
                  :: EvResolve ruleId :: trace (snd s) |})).
Proof.
  intros Hbuiltins Hall Hproto Hsev Hon Hres Hreg. cbn zeta.
  pose proof (new_object_not_cached history n Hbuiltins Hall) as Hnew. cbn zeta in Hnew.
  destruct (validateAll history (freshInstance n)) as [this w]. cbn [fst snd] in *.
  now apply validateEntry_function_rule with (severity := severity) (resolved := resolved).
Qed.

End FreshFacts.

Example functionRuleConfig_below : below 1000 functionRuleConfig.
Proof. now apply belowb_sound. Qed.

(** The built-ins of the examples have identities below 1000. *)
Lemma position_bound (k : string) (names : list string) (i j : nat) :
  StandardBuiltins.position k names i = Some j -> (j < i + List.length names)%nat.
Proof.
  revert i. induction names as [|name names IH]; intros i; cbn [StandardBuiltins.position];
    [discriminate|].
  destruct (String.eqb k name).
  - intros [= <-]. cbn [List.length]. lia.
  - intros Hj. apply IH in Hj. cbn [List.length]. lia.
Qed.

Lemma method_below (base : ObjId) (names : list string) (k : string) (f : JsValue) :
  StandardBuiltins.method base names k = Some f ->
  below (base + List.length names) f.
Proof.
  unfold StandardBuiltins.method.
  destruct (StandardBuiltins.position k names 0) as [j|] eqn:Hj; [|discriminate].
  apply position_bound in Hj. intros [= <-] id Ho.
  inversion Ho; subst; [lia|]. match goal with Hin : In _ [] |- _ => destruct Hin end.
Qed.

Example standardBuiltins_below : builtinsBelow 1000.
Proof.
  intros v k x Hx. cbn [builtin_property standardBuiltins] in Hx.
  unfold StandardBuiltins.property in Hx.
  assert (Hsmall : forall y, belowb 1000 y = true -> below 1000 y) by apply belowb_sound.
  destruct (match v with JFun _ _ => StandardBuiltins.ofFunction k | _ => None end)
    as [outcome|] eqn:Hown.
  - destruct v; try discriminate. unfold StandardBuiltins.ofFunction in Hown.
    repeat match type of Hown with
           | (if ?c then _ else _) = _ => destruct c
           end; try discriminate Hown; injection Hown as <-; try discriminate Hx;
      injection Hx as <-; now apply Hsmall.
  - clear Hown.
    destruct (String.eqb k "__proto__");
      [injection Hx as <-; apply Hsmall; now destruct v|].
    destruct (String.eqb k "constructor");
      [injection Hx as <-; apply Hsmall; now destruct v|].
    destruct (StandardBuiltins.method _ _ k) as [f|] eqn:Hf.
    + injection Hx as <-. apply method_below in Hf.
      eapply below_le; [|exact Hf]. destruct v; cbn; lia.
    + destruct (StandardBuiltins.method 200 _ k) as [f|] eqn:Hf'.
      * injection Hx as <-. apply method_below in Hf'.
        eapply below_le; [|exact Hf']. cbn. lia.
      * injection Hx as <-. now apply Hsmall.
Qed.

Example function_rule_missed_every_time :
  let s := validateAll [functionRuleConfig; functionRuleConfig] (freshInstance 1000) in
  RuleValidator.validators (fst s) = ∅
  /\ List.length (List.filter isSchemaLookup (trace (snd s))) = 4%nat
  /\ List.length (List.filter isCompile (trace (snd s))) = 0%nat
  /\ next_id (snd s) = 1004%nat.
Proof. cbn zeta. repeat split. Qed.

(** ** [enumerateSplitPoints]: what the loop yields *)

Lemma index_offset (sep pre post : string) (n : nat) :
  String.index (String.length pre + n) sep (pre +:+ post)
  = match String.index n sep post with
    | Some i => Some (String.length pre + i)%nat
    | None => None
    end.
Proof.
  induction pre as [|a pre IH].
  - cbn [String.length Nat.add]. change ("" +:+ post) with post.
    now destruct (String.index n sep post).
  - change (String a pre +:+ post) with (String a (pre +:+ post)).
    cbn [String.length Nat.add String.index]. rewrite IH.
    now destruct (String.index n sep post).
Qed.

Lemma string_app_assoc (p q r : string) : (p +:+ q) +:+ r = p +:+ q +:+ r.
Proof.
  induction p as [|a p IH]; [reflexivity|].
  change (String a ((p +:+ q) +:+ r) = String a (p +:+ q +:+ r)). now rewrite IH.
Qed.

Lemma prefix_split (sep s : string) :
  String.prefix sep s = true -> exists r, s = sep +:+ r.
Proof.
  revert s. induction sep as [|a sep IH]; intros s.
  - intros _. now exists s.
  - destruct s as [|b s]; cbn [String.prefix]; [discriminate|].
    destruct (ascii_dec a b) as [<-|]; [|discriminate].
    intros Hp. destruct (IH _ Hp) as [r ->]. now exists r.
Qed.

Lemma index_split (sep s : string) (n i : nat) :
  String.index n sep s = Some i ->
  exists p r, s = p +:+ sep +:+ r /\ String.length p = i.
Proof.
  revert n i. induction s as [|b s IH]; intros n i.
  - destruct n; cbn [String.index]; [|discriminate].
    destruct sep; [|discriminate]. intros [= <-]. now exists "", "".
  - destruct n as [|n]; cbn [String.index].
    + destruct (String.prefix sep (String b s)) eqn:Hp.
      * intros [= <-]. destruct (prefix_split _ _ Hp) as [r ->]. now exists "", r.
      * destruct (String.index 0 sep s) as [k|] eqn:Hk; [|discriminate].
        intros [= <-]. destruct (IH _ _ Hk) as (p & r & -> & Hlen).
        exists (String b p), r. split; [reflexivity|]. cbn [String.length]. now rewrite Hlen.
    + destruct (String.index n sep s) as [k|] eqn:Hk; [|discriminate].
      intros [= <-]. destruct (IH _ _ Hk) as (p & r & -> & Hlen).
      exists (String b p), r. split; [reflexivity|]. cbn [String.length]. now rewrite Hlen.
Qed.

Lemma slice_before (p x : string) :
  slice (p +:+ x) 0 (Some (Z.of_nat (String.length p))) = p.
Proof.
  unfold slice, clamp_index. rewrite length_app.
  replace (0 <? 0) with false by reflexivity.
  destruct (Z.ltb_spec (Z.of_nat (String.length p)) 0) as [Hlt|_]; [lia|].
  rewrite Z.min_l by lia. rewrite Z.min_l by lia.
  rewrite Z.sub_0_r, Nat2Z.id. apply substring_prefix.
Qed.

Lemma slice_after (p x : string) :
  slice (p +:+ x) (Z.of_nat (String.length p)) None = x.
Proof.
  unfold slice, clamp_index. rewrite length_app.
  destruct (Z.ltb_spec (Z.of_nat (String.length p)) 0) as [Hlt|_]; [lia|].
  rewrite Z.min_l by lia. rewrite Nat2Z.id.
  replace (Z.to_nat _) with (String.length x) by lia.
  apply substring_suffix.
Qed.

(** Whatever occurrence of the separator the loop starts from, every pair it
    yields is a cut of the string at an occurrence that is not at its
    start. *)
Lemma splitLoop_recombine (fuel : nat) (str sep : string) (from : nat) :
  Forall (fun pair => fst pair +:+ sep +:+ snd pair = str /\ fst pair <> "")
         (StringUtils.splitLoop fuel str sep (indexOf str sep from)).
Proof.
  revert from. induction fuel as [|fuel IH]; intros from; [constructor|].
  cbn [StringUtils.splitLoop].
  destruct (Z.ltb_spec 0 (indexOf str sep from)) as [Hpos|_]; [|constructor].
  constructor; [|apply IH].
  unfold indexOf in *. destruct (String.index from sep str) as [i|] eqn:Hi; [|lia].
  destruct (index_split _ _ _ _ Hi) as (p & r & -> & Hlen). subst i.
  cbn [fst snd]. rewrite slice_before.
  assert (Hafter : slice (p +:+ sep +:+ r)
                     (Z.of_nat (String.length p) + Z.of_nat (String.length sep)) None = r).
  { replace (Z.of_nat (String.length p) + Z.of_nat (String.length sep))
      with (Z.of_nat (String.length (p +:+ sep))) by (rewrite length_app; lia).
    rewrite <- (string_app_assoc p sep r). apply slice_after. }
  rewrite Hafter. split; [reflexivity|].
  intros ->. cbn in Hpos. lia.
Qed.

Lemma splitLoop_not_positive (fuel : nat) (str sep : string) (splitPoint : Z) :
  splitPoint <= 0 -> StringUtils.splitLoop fuel str sep splitPoint = [].
Proof.
  intros Hle. destruct fuel; [reflexivity|]. cbn [StringUtils.splitLoop].
  now destruct (Z.ltb_spec 0 splitPoint) as [Hlt|_]; [lia|].
Qed.

Lemma length_snoc (pre : string) (c : ascii) :
  String.length (pre +:+ String c "") = S (String.length pre).
Proof. rewrite length_app. cbn [String.length]. lia. Qed.

Lemma app_snoc (pre : string) (c : ascii) (rest : string) :
  (pre +:+ String c "") +:+ rest = pre +:+ String c rest.
Proof. now rewrite string_app_assoc. Qed.

(** The loop, started at the first slash at or after the end of [pre], cuts
    at every slash of [post]. *)
Lemma splitLoop_slashSplits (post pre : string) (fuel : nat) :
  (String.length post < fuel)%nat ->
  pre <> "" \/ String.prefix "/" post = false ->
  StringUtils.splitLoop fuel (pre +:+ post) "/"
    (indexOf (pre +:+ post) "/" (String.length pre))
  = slashSplits pre post.
Proof.
  revert pre fuel. induction post as [|c rest IH]; intros pre fuel Hfuel Hstart.
  - cbn [slashSplits]. apply splitLoop_not_positive. unfold indexOf.
    pose proof (index_offset "/" pre "" 0) as Ho. rewrite Nat.add_0_r in Ho.
    rewrite Ho. cbn. lia.
  - cbn [slashSplits]. unfold indexOf.
    pose proof (index_offset "/" pre (String c rest) 0) as Ho. rewrite Nat.add_0_r in Ho.
    rewrite Ho, index_slash_cons. clear Ho.
    cbn [String.length] in Hfuel.
    destruct (Ascii.eqb_spec c "/"%char) as [->|Hne].
    + destruct fuel as [|fuel]; [lia|]. cbn [StringUtils.splitLoop].
      assert (Hpre : pre <> "").
      { destruct Hstart as [H|H]; [exact H|]. now rewrite prefix_slash_cons in H. }
      assert (Hpos : (0 < String.length pre)%nat) by (destruct pre; [congruence|cbn; lia]).
      rewrite Nat.add_0_r.
      destruct (Z.ltb_spec 0 (Z.of_nat (String.length pre))) as [_|Hle]; [|lia].
      change (String "/" rest) with ("/" +:+ rest).
      rewrite slice_before_slash.
      change (Z.of_nat (String.length "/")) with 1. rewrite slice_after_slash.
      cbn [app]. f_equal.
      replace (Z.to_nat (Z.of_nat (String.length pre) + 1))
        with (String.length (pre +:+ "/")) by (rewrite length_snoc; lia).
      rewrite (app_slash_assoc pre rest).
      apply IH; [lia|left]. destruct pre; discriminate.
    + cbn [app].
      rewrite <- (app_snoc pre c rest).
      specialize (IH (pre +:+ String c "") fuel ltac:(lia)
                     ltac:(left; destruct pre; discriminate)).
      rewrite <- IH. f_equal. unfold indexOf.
      pose proof (index_offset "/" (pre +:+ String c "") rest 0) as Ho.
      rewrite Nat.add_0_r in Ho. rewrite Ho, length_snoc.
      destruct (String.index 0 "/" rest) as [i|]; [|reflexivity].
      f_equal. lia.
Qed.

Lemma In_slashSplits (post pre a b : string) :
  In (a, b) (slashSplits pre post)
  <-> exists x, a = pre +:+ x /\ post = x +:+ "/" +:+ b.
Proof.
  revert pre. induction post as [|c rest IH]; intros pre.
  - cbn [slashSplits]. split; [intros []|].
    intros (x & _ & Hx). destruct x; discriminate.
  - cbn [slashSplits]. rewrite in_app_iff, IH. split.
    + intros [Hhd|(x & -> & ->)].
      * destruct (Ascii.eqb_spec c "/"%char) as [->|_]; [|destruct Hhd].
        destruct Hhd as [[= <- <-]|[]]. exists "". split; [|reflexivity].
        clear. induction pre as [|p pre IHp]; [reflexivity|].
        change (String p pre = String p (pre +:+ "")). now f_equal.
      * exists (String c x). split; [apply app_snoc|reflexivity].
    + intros (x & -> & Hx). destruct x as [|d x].
      * left. injection Hx as -> ->. rewrite Ascii.eqb_refl. left. f_equal.
        clear. induction pre as [|p pre IHp]; [reflexivity|].
        change (String p pre = String p (pre +:+ "")). now f_equal.
      * right. injection Hx as -> ->. exists x. split; [|reflexivity].
        symmetry. apply app_snoc.
Qed.

Lemma slashSplits_longer (post pre : string) :
  Forall (fun pair => (String.length pre <= String.length (fst pair))%nat)
         (slashSplits pre post).
Proof.
  apply Forall_forall. intros [a b] Hin. apply list_elem_of_In, In_slashSplits in Hin.
  destruct Hin as (x & -> & _). cbn [fst]. rewrite length_app. lia.
Qed.

Lemma slashSplits_sorted (post pre : string) :
  StronglySorted (fun p q => (String.length (fst p) < String.length (fst q))%nat)
                 (slashSplits pre post).
Proof.
  revert pre. induction post as [|c rest IH]; intros pre; cbn [slashSplits]; [constructor|].
  destruct (Ascii.eqb c "/"); cbn [app]; [|apply IH].
  constructor; [apply IH|].
  eapply Forall_impl; [apply slashSplits_longer|].
  intros [a b]. cbn [fst]. rewrite length_snoc. lia.
Qed.

Lemma slashSplits_length (post pre : string) :
  List.length (slashSplits pre post) = count_char "/" post.
Proof.
  revert pre. induction post as [|c rest IH]; intros pre; [reflexivity|].
  cbn [slashSplits]. rewrite List.length_app, IH, count_char_cons.
  now destruct (Ascii.eqb c "/").
Qed.

Lemma enumerateSplitPoints_slashSplits (str : string) (includeStart includeEnd : bool) :
  String.prefix "/" str = false ->
  StringUtils.enumerateSplitPoints str "/" includeStart includeEnd
  = Returned ((if includeStart then [("", str)] else [])
              ++ slashSplits "" str
              ++ (if includeEnd then [(str, "")] else []))%list.
Proof.
  intros Hstart. unfold StringUtils.enumerateSplitPoints. cbn [String.length Nat.eqb].
  do 3 f_equal.
  apply (splitLoop_slashSplits str "" (S (String.length str))); [lia|now right].
Qed.

(** X1. Every pair that [enumerateSplitPoints] yields from its loop is a
    cut of the string at an occurrence of the separator: the two parts,
    joined by the separator, give the string back, and the first part is
    never empty. This holds for every non-empty separator. *)
Theorem enumerateSplitPoints_pairs_recombine (str separator : string) :
  separator <> "" ->
  exists pairs,
    StringUtils.enumerateSplitPoints str separator false false = Returned pairs
    /\ Forall (fun pair => fst pair +:+ separator +:+ snd pair = str /\ fst pair <> "") pairs.
Proof.
  intros Hsep. unfold StringUtils.enumerateSplitPoints.
  destruct separator as [|c separator]; [congruence|]. cbn [String.length Nat.eqb].
  eexists. split; [reflexivity|]. cbn [app]. rewrite app_nil_r.
  apply splitLoop_recombine.
Qed.

Lemma enumerateSplitPoints_pairs_recombine_witness :
  "::" <> ""
  /\ exists pairs,
       StringUtils.enumerateSplitPoints "a::b::c" "::" false false = Returned pairs
       /\ Forall (fun pair => fst pair +:+ "::" +:+ snd pair = "a::b::c" /\ fst pair <> "") pairs.
Proof.
  split; [discriminate|].
  apply (enumerateSplitPoints_pairs_recombine "a::b::c" "::"). discriminate.
Defined.

(** X2. A string that begins with the separator is not split at all: the
    loop stops at once, because it runs while the split point is greater
    than zero. Only the pairs asked for by [includeStart] and [includeEnd]
    are yielded, even when the separator occurs again further on. *)
Theorem enumerateSplitPoints_leading_separator
    (str separator : string) (includeStart includeEnd : bool) :
  separator <> "" ->
  String.prefix separator str = true ->
  StringUtils.enumerateSplitPoints str separator includeStart includeEnd
  = Returned ((if includeStart then [("", str)] else [])
              ++ (if includeEnd then [(str, "")] else []))%list.
Proof.
  intros Hsep Hp. unfold StringUtils.enumerateSplitPoints.
  destruct separator as [|c separator]; [congruence|]. cbn [String.length Nat.eqb].
  do 2 f_equal. rewrite splitLoop_not_positive; [reflexivity|].
  unfold indexOf. destruct str as [|b str]; [cbn; lia|].
  cbn [String.index]. rewrite Hp. lia.
Qed.

Lemma enumerateSplitPoints_leading_separator_witness :
  ("/" <> "" /\ String.prefix "/" "/a/b" = true)
  /\ StringUtils.enumerateSplitPoints "/a/b" "/" true false
     = Returned ([("", "/a/b")] ++ [])%list.
Proof.
  split; [split; [discriminate|reflexivity]|].
  apply (enumerateSplitPoints_leading_separator "/a/b" "/" true false);
    [discriminate|reflexivity].
Defined.

(** X3. For a string that does not begin with a slash,
    [enumerateSplitPoints(str, "/")] yields exactly the cuts of the string at
    its slashes: a pair is yielded if and only if its parts joined by a slash
    give the string, there is one pair for each slash, and the pairs come in
    the order of the slashes, the shortest first part first. *)
Theorem enumerateSplitPoints_cuts_at_every_slash (str : string) :
  String.prefix "/" str = false ->
  exists pairs,
    StringUtils.enumerateSplitPoints str "/" false false = Returned pairs
    /\ (forall before after, In (before, after) pairs <-> before +:+ "/" +:+ after = str)
    /\ List.length pairs = count_char "/" str
    /\ StronglySorted (fun p q => (String.length (fst p) < String.length (fst q))%nat) pairs.
Proof.
  intros Hstart. exists (slashSplits "" str).
  rewrite (enumerateSplitPoints_slashSplits _ _ _ Hstart). cbn [app]. rewrite app_nil_r.
  split; [reflexivity|]. split; [|split].
  - intros before after. rewrite In_slashSplits. split.
    + intros (x & -> & ->). reflexivity.
    + intros <-. now exists before.
  - apply slashSplits_length.
  - apply slashSplits_sorted.
Qed.

Lemma enumerateSplitPoints_cuts_at_every_slash_witness :
  String.prefix "/" "a/3/4" = false
  /\ exists pairs,
       StringUtils.enumerateSplitPoints "a/3/4" "/" false false = Returned pairs
       /\ (forall before after,
             In (before, after) pairs <-> before +:+ "/" +:+ after = "a/3/4")
       /\ List.length pairs = count_char "/" "a/3/4"
       /\ StronglySorted
            (fun p q => (String.length (fst p) < String.length (fst q))%nat) pairs.
Proof.
  split; [reflexivity|].
  apply (enumerateSplitPoints_cuts_at_every_slash "a/3/4"). reflexivity.
Defined.

Example enumerateSplitPoints_two_slashes :
  StringUtils.enumerateSplitPoints "a/3/4" "/" false false
  = Returned [("a", "3/4"); ("a/3", "4")].
Proof. reflexivity. Qed.

(** ** Rule ids: cutting and resolving *)

Lemma indexOf_none_count (s : string) :
  indexOf s "/" 0 = -1 -> count_char "/" s = 0%nat.
Proof.
  unfold indexOf. intros Hi.
  destruct (Nat.eq_dec (count_char "/" s) 0%nat) as [Hz|Hnz]; [exact Hz|].
  destruct (index_slash_some s ltac:(lia)) as [i Hsome]. rewrite Hsome in Hi. lia.
Qed.

Lemma first_slash_split (s : string) :
  (0 < count_char "/" s)%nat ->
  exists p r, s = p +:+ "/" +:+ r /\ count_char "/" p = 0%nat.
Proof.
  intros Hc. destruct (index_slash_some s Hc) as [i Hi].
  destruct (index_slash_split s i Hi) as (p & r & -> & _ & Hp). now exists p, r.
Qed.

Lemma last_slash_split (s : string) :
  (0 < count_char "/" s)%nat ->
  exists p r, s = p +:+ "/" +:+ r /\ count_char "/" r = 0%nat.
Proof.
  induction s as [|a s IH]; [cbn; lia|].
  rewrite count_char_cons. intros Hc.
  destruct (Nat.eq_dec (count_char "/" s) 0%nat) as [Hz|Hnz].
  - destruct (Ascii.eqb_spec a "/"%char) as [->|_]; [|lia]. now exists "", s.
  - destruct (IH ltac:(lia)) as (p & r & -> & Hr). now exists (String a p), r.
Qed.

Lemma String_includes_slash (s : string) :
  String_includes s "/" = negb (count_char "/" s =? 0)%nat.
Proof.
  unfold String_includes.
  destruct (Nat.eqb_spec (count_char "/" s) 0%nat) as [Hz|Hnz].
  - now rewrite (indexOf_no_slash _ Hz).
  - destruct (Z.eqb_spec (indexOf s "/" 0) (-1)) as [Hi|_]; [|reflexivity].
    apply indexOf_none_count in Hi. contradiction.
Qed.

(** X4. [parseRuleId] on any string: an id without a slash is a rule of the
    built-in plugin ["@"]; an id with a slash is cut at one of its slashes, so
    that [pluginName + "/" + ruleName] is the id again. An id that begins with
    ["@"] is cut at its last slash (the rule name has no slash), any other id
    at its first slash (the plugin name has no slash). *)
Theorem parseRuleId_cuts_at_a_slash (ruleId : string) :
  let parsed := FlatConfigHelpersParse.parseRuleId ruleId in
  (count_char "/" ruleId = 0%nat /\ parsed = {| pluginName := "@"; ruleName := ruleId |})
  \/ ((0 < count_char "/" ruleId)%nat
      /\ pluginName parsed +:+ "/" +:+ ruleName parsed = ruleId
      /\ if startsWith ruleId "@" then count_char "/" (ruleName parsed) = 0%nat
         else count_char "/" (pluginName parsed) = 0%nat).
Proof.
  cbn zeta. unfold FlatConfigHelpersParse.parseRuleId. rewrite String_includes_slash.
  destruct (Nat.eqb_spec (count_char "/" ruleId) 0%nat) as [Hz|Hnz]; cbn [negb]; [now left|].
  right. split; [lia|]. cbn [pluginName ruleName].
  destruct (startsWith ruleId "@").
  - destruct (last_slash_split ruleId ltac:(lia)) as (p & r & -> & Hr).
    rewrite (lastIndexOf_app _ _ Hr), slice_before_slash, slice_after_slash. now split.
  - destruct (first_slash_split ruleId ltac:(lia)) as (p & r & -> & Hp).
    rewrite (indexOf_app _ _ Hp), slice_before_slash, slice_after_slash. now split.
Qed.

Example parseRuleId_scoped :
  FlatConfigHelpersParse.parseRuleId "@test/foo/bar"
  = {| pluginName := "@test/foo"; ruleName := "bar" |}.
Proof. reflexivity. Qed.

Example parseRuleId_unscoped :
  FlatConfigHelpersParse.parseRuleId "node/no-unsupported-features/es-builtins"
  = {| pluginName := "node"; ruleName := "no-unsupported-features/es-builtins" |}.
Proof. reflexivity. Qed.

(** The pieces of a returned resolution. *)
Lemma resolveRuleId_returned `{Builtins} (ruleId : string) (config : JsValue) (resolved : ResolvedRule) :
  RuleLookup.resolveRuleId ruleId config = Returned resolved ->
  ruleExists config (pluginName resolved) (ruleName resolved)
  /\ ((resolved = {| pluginName := "@"; ruleName := ruleId |}
       /\ count_char "/" ruleId = 0%nat)
      \/ (ruleId = pluginName resolved +:+ "/" +:+ ruleName resolved
          /\ count_char "/" (pluginName resolved) = 0%nat
          /\ count_char "/" (ruleName resolved) = 0%nat)).
Proof.
  unfold RuleLookup.resolveRuleId.
  destruct (get config "plugins") as [plugins|e] eqn:Hcfg; cbn [bindO]; [|discriminate].
  destruct (negb (truthy (JStr ruleId)) || negb (String.eqb (typeof (JStr ruleId)) "string")
            || negb (truthy plugins) || negb (String.eqb (typeof plugins) "object")) eqn:Hguard.
  { intros Hthrow. now apply throw_new_not_returned in Hthrow. }
  assert (Hp : truthy plugins = true).
  { destruct (truthy plugins) eqn:Ht; [reflexivity|].
    cbn [negb] in Hguard.
    rewrite orb_true_r in Hguard. discriminate. }
  destruct (Z.eqb_spec (indexOf ruleId "/" 0) (-1)) as [Hbare|Hslash].
  - pose proof (lookupObject_rules config plugins "@" ruleId Hcfg Hp) as Hiff.
    destruct (RuleLookup.lookupObject plugins "@" "rules" ruleId) as [found|e];
      cbn [bindO]; [|discriminate].
    destruct (truthy found) eqn:Ht.
    + intros [= <-]. cbn [pluginName ruleName]. split; [now apply Hiff|].
      left. split; [reflexivity|]. now apply indexOf_none_count.
    + intros Hthrow. now apply throw_new_not_returned in Hthrow.
  - destruct (Z.eqb_spec (indexOf ruleId "/" 0) (lastIndexOf ruleId "/")) as [Hone|_];
      [|discriminate].
    assert (Hc : (0 < count_char "/" ruleId)%nat).
    { destruct (Nat.eq_dec (count_char "/" ruleId) 0%nat) as [Hz|]; [|lia].
      now rewrite (indexOf_no_slash _ Hz) in Hslash. }
    assert (Hc2 : (count_char "/" ruleId < 2)%nat).
    { destruct (Nat.lt_ge_cases (count_char "/" ruleId) 2%nat) as [Hlt|Hge]; [exact Hlt|].
      destruct (two_slashes_indices _ Hge) as [_ Hdiff]. contradiction. }
    destruct (first_slash_split ruleId Hc) as (p & r & -> & Hpc).
    assert (Hrc : count_char "/" r = 0%nat).
    { rewrite !count_char_app in Hc2. cbn in Hc2. lia. }
    rewrite (indexOf_app _ _ Hpc), slice_before_slash, slice_after_slash.
    pose proof (lookupObject_rules config plugins p r Hcfg Hp) as Hiff.
    destruct (RuleLookup.lookupObject plugins p "rules" r) as [found|e];
      cbn [bindO]; [|discriminate].
    destruct (truthy found) eqn:Ht.
    + intros [= <-]. cbn [pluginName ruleName]. split; [now apply Hiff|]. right. auto.
    + intros Hthrow. now apply throw_new_not_returned in Hthrow.
Qed.

(** X5. What a returned resolution vouches for: whenever [resolveRuleId]
    returns, every step of the path
    [config.plugins[pluginName].rules[ruleName]] reads a truthy value, and
    the two names are the id itself (built-in plugin ["@"], id without a
    slash) or the two sides of the only slash of the id. A step reads what
    the value has of its own or inherits: the resolution does not vouch for
    a rule that the plugin registers itself (see
    [resolveRuleId_bare_examples], where [toString] resolves against rules
    that list nothing). *)
Theorem resolveRuleId_returns_what_the_path_reads `{Builtins}
    (ruleId : string) (config : JsValue) (resolved : ResolvedRule) :
  RuleLookup.resolveRuleId ruleId config = Returned resolved ->
  ruleExists config (pluginName resolved) (ruleName resolved)
  /\ ((resolved = {| pluginName := "@"; ruleName := ruleId |}
       /\ count_char "/" ruleId = 0%nat)
      \/ (ruleId = pluginName resolved +:+ "/" +:+ ruleName resolved
          /\ count_char "/" ruleId = 1%nat)).
Proof.
  intros Hres. destruct (resolveRuleId_returned _ _ _ Hres) as [Hex Hshape].
  split; [exact Hex|]. destruct Hshape as [Hbare|(Hid & Hp & Hr)]; [now left|right].
  split; [exact Hid|]. rewrite Hid, !count_char_app, Hp, Hr. reflexivity.
Qed.

Lemma resolveRuleId_returns_what_the_path_reads_witness :
  RuleLookup.resolveRuleId "test/foo" pluginConfig
  = Returned {| pluginName := "test"; ruleName := "foo" |}
  /\ (ruleExists pluginConfig "test" "foo"
      /\ (({| pluginName := "test"; ruleName := "foo" |}
           = {| pluginName := "@"; ruleName := "test/foo" |}
           /\ count_char "/" "test/foo" = 0%nat)
          \/ ("test/foo" = "test" +:+ "/" +:+ "foo"
              /\ count_char "/" "test/foo" = 1%nat))).
Proof.
  split; [reflexivity|].
  apply (resolveRuleId_returns_what_the_path_reads "test/foo" pluginConfig
           {| pluginName := "test"; ruleName := "foo" |}).
  reflexivity.
Defined.

(** X6. The two ways of reading a rule id agree wherever the resolution
    answers: when [resolveRuleId] returns, it returns what [parseRuleId]
    gives for the same id, also for an id that begins with ["@"]. *)
Theorem resolveRuleId_agrees_with_parseRuleId `{Builtins}
    (ruleId : string) (config : JsValue) (resolved : ResolvedRule) :
  RuleLookup.resolveRuleId ruleId config = Returned resolved ->
  FlatConfigHelpersParse.parseRuleId ruleId = resolved.
Proof.
  intros Hres. destruct (resolveRuleId_returned _ _ _ Hres) as [_ Hshape].
  unfold FlatConfigHelpersParse.parseRuleId. rewrite String_includes_slash.
  destruct Hshape as [[-> Hz]|(Hid & Hp & Hr)].
  - now rewrite Hz.
  - destruct resolved as [p r]. cbn [pluginName ruleName] in *. subst ruleId.
    rewrite !count_char_app, Hp, Hr. cbn [count_char Ascii.eqb Bool.eqb Nat.add Nat.eqb negb].
    rewrite (lastIndexOf_app _ _ Hr), (indexOf_app _ _ Hp), slice_before_slash.
    destruct (startsWith (p +:+ "/" +:+ r) "@"); now rewrite slice_after_slash.
Qed.

Lemma resolveRuleId_agrees_with_parseRuleId_witness :
  RuleLookup.resolveRuleId "test/foo" pluginConfig
  = Returned {| pluginName := "test"; ruleName := "foo" |}
  /\ FlatConfigHelpersParse.parseRuleId "test/foo"
     = {| pluginName := "test"; ruleName := "foo" |}.
Proof.
  split; [reflexivity|].
  apply (resolveRuleId_agrees_with_parseRuleId "test/foo" pluginConfig
           {| pluginName := "test"; ruleName := "foo" |}).
  reflexivity.
Defined.

(** ** Looking a rule up in the configuration *)

Lemma registeredRule_unique `{Builtins} (config : JsValue) (pluginName ruleName : string)
    (r1 r2 : JsValue) :
  registeredRule config pluginName ruleName r1 ->
  registeredRule config pluginName ruleName r2 -> r1 = r2.
Proof.
  intros (ps & pl & rs & H1 & H2 & H3 & H4) (ps' & pl' & rs' & H1' & H2' & H3' & H4').
  rewrite H1 in H1'. injection H1' as <-. rewrite H2 in H2'. injection H2' as <-.
  rewrite H3 in H3'. injection H3' as <-. rewrite H4 in H4'. now injection H4'.
Qed.

Lemma getRuleFromConfig_thrown `{Builtins} (ruleId : string) (config : JsValue) (e : Exception) (w : World) :
  RuleLookup.resolveRuleId ruleId config = Thrown e ->
  FlatConfigHelpers.getRuleFromConfig ruleId config w = (Thrown e, w).
Proof.
  intros Hres. unfold FlatConfigHelpers.getRuleFromConfig, bind, liftO. now rewrite Hres.
Qed.

Lemma getRuleFromConfig_returned `{Builtins} (ruleId : string) (config : JsValue)
    (resolved : ResolvedRule) (w : World) :
  RuleLookup.resolveRuleId ruleId config = Returned resolved ->
  exists plugins plugin rules rule,
    get config "plugins" = Returned plugins
    /\ get plugins (pluginName resolved) = Returned plugin
    /\ get plugin "rules" = Returned rules
    /\ get rules (ruleName resolved) = Returned rule
    /\ truthy rule = true
    /\ FlatConfigHelpers.getRuleFromConfig ruleId config w
       = (rule <- liftO (get rules (ruleName resolved)) ;;
          if String.eqb (typeof rule) "function" then
            id <- fresh ;; ret (JObj id [("create", rule)])
          else ret rule) w.
Proof.
  intros Hres.
  destruct (resolveRuleId_returned _ _ _ Hres)
    as [(ps & pl & rs & rl & H1 & _ & H2 & _ & H3 & _ & H4 & H5) _].
  exists ps, pl, rs, rl. repeat (split; [assumption|]).
  unfold FlatConfigHelpers.getRuleFromConfig, bind, liftO. now rewrite Hres, H1, H2, H3.
Qed.

(** X7. [getRuleFromConfig] of the revision built on [resolveRuleId] does
    what the resolution does: when the resolution throws, it throws the same
    exception and creates nothing; when the resolution returns, reading the
    registered rule cannot fail, the rule is truthy, and it is returned as it
    is (a function rule: wrapped in one new object). *)
Theorem getRuleFromConfig_follows_the_resolution `{Builtins}
    (ruleId : string) (config : JsValue) (w : World) :
  match RuleLookup.resolveRuleId ruleId config with
  | Thrown e => FlatConfigHelpers.getRuleFromConfig ruleId config w = (Thrown e, w)
  | Returned resolved =>
      exists rule,
        registeredRule config (pluginName resolved) (ruleName resolved) rule
        /\ truthy rule = true
        /\ FlatConfigHelpers.getRuleFromConfig ruleId config w
           = if String.eqb (typeof rule) "function"
             then (Returned (JObj (next_id w) [("create", rule)]),
                   {| next_id := S (next_id w); trace := trace w |})
             else (Returned rule, w)
  end.
Proof.
  destruct (RuleLookup.resolveRuleId ruleId config) as [resolved|e] eqn:Hres.
  - destruct (getRuleFromConfig_returned _ _ _ w Hres)
      as (plugins & plugin & rules & rule & H1 & H2 & H3 & H4 & Ht & Hget).
    exists rule. split; [now exists plugins, plugin, rules|]. split; [exact Ht|].
    rewrite Hget. unfold bind, liftO. rewrite H4.
    now destruct (String.eqb (typeof rule) "function").
  - now apply getRuleFromConfig_thrown.
Qed.

(** The exceptions of the lookup module. *)
Lemma resolveRuleId_thrown `{Builtins} (ruleId : string) (config : JsValue) (e : Exception) :
  RuleLookup.resolveRuleId ruleId config = Thrown e ->
  (exists msg, e = TypeError msg) \/ (exists msg, e = ReferenceError msg).
Proof.
  unfold RuleLookup.resolveRuleId.
  destruct (get config "plugins") as [plugins|e0] eqn:Hcfg; cbn [bindO];
    [|intros [= <-]; left; now apply get_thrown in Hcfg].
  destruct (negb (truthy (JStr ruleId)) || negb (String.eqb (typeof (JStr ruleId)) "string")
            || negb (truthy plugins) || negb (String.eqb (typeof plugins) "object")).
  { rewrite throw_new_recognized by (cbn; auto). intros [= <-]. eauto. }
  destruct (indexOf ruleId "/" 0 =? -1).
  - destruct (RuleLookup.lookupObject plugins "@" "rules" ruleId) as [found|e1] eqn:Hl;
      cbn [bindO]; [|intros [= <-]; left; now apply lookupObject_thrown in Hl].
    destruct (truthy found); [discriminate|].
    rewrite throw_new_recognized by (cbn; auto). intros [= <-]. eauto.
  - destruct (indexOf ruleId "/" 0 =? lastIndexOf ruleId "/"); [|intros [= <-]; eauto].
    destruct (RuleLookup.lookupObject plugins _ "rules" _) as [found|e1] eqn:Hl;
      cbn [bindO]; [|intros [= <-]; left; now apply lookupObject_thrown in Hl].
    destruct (truthy found); [discriminate|].
    rewrite throw_new_recognized by (cbn; auto). intros [= <-]. eauto.
Qed.

(** X8. No [RuleLookupError] ever leaves [resolveRuleId]: it returns, or
    it throws a plain [TypeError] or a [ReferenceError]. So the handler of
    [resolveRule], which acts on a [RuleLookupError] only, never adds
    anything: [resolveRule] returns and throws exactly what
    [getRuleFromConfig] does, and neither the table of replaced rules nor the
    search for similar names is consulted. *)
Theorem resolveRule_adds_nothing `{Builtins} `{Collaborators}
    (ruleId : string) (config : JsValue) (w : World) :
  RuleValidator.resolveRule ruleId config w
  = FlatConfigHelpers.getRuleFromConfig ruleId config w
  /\ forall lookupError,
       RuleLookup.resolveRuleId ruleId config <> Thrown (RuleLookupErrorThrown lookupError).
Proof.
  assert (Hnever : forall lookupError,
            RuleLookup.resolveRuleId ruleId config <> Thrown (RuleLookupErrorThrown lookupError)).
  { intros le Hle. apply resolveRuleId_thrown in Hle.
    destruct Hle as [[msg Hm]|[msg Hm]]; discriminate. }
  split; [|exact Hnever].
  unfold RuleValidator.resolveRule, try_catch.
  destruct (RuleLookup.resolveRuleId ruleId config) as [resolved|e] eqn:Hres.
  - destruct (getRuleFromConfig_returned _ _ _ w Hres)
      as (plugins & plugin & rules & rule & _ & _ & _ & H4 & _ & ->).
    unfold bind, liftO. rewrite H4.
    now destruct (String.eqb (typeof rule) "function").
  - rewrite (getRuleFromConfig_thrown _ _ _ w Hres).
    destruct e as [msg|msg|le|msg]; try reflexivity.
    now destruct (Hnever le).
Qed.

Example resolveRule_unknown_rule :
  fst (RuleValidator.resolveRule "no-such-rule" builtInConfig world0)
  = Thrown (TypeError "Cannot convert a Symbol value to a string").
Proof. reflexivity. Qed.

(** ** Enumerating the rules an id could name *)

Lemma concatMapO_filter {A : Type} (f : A -> Outcome (list A)) (p : A -> bool) (l : list A) :
  (forall x, In x l -> f x = Returned (if p x then [x] else [])) ->
  concatMapO f l = Returned (List.filter p l).
Proof.
  induction l as [|a l IH]; intros Hf; [reflexivity|].
  cbn [concatMapO List.filter]. rewrite (Hf a) by now left. cbn [bindO].
  rewrite IH by (intros x Hx; apply Hf; now right). cbn [bindO].
  now destruct (p a).
Qed.

Lemma StronglySorted_filter {A : Type} (R : A -> A -> Prop) (p : A -> bool) (l : list A) :
  StronglySorted R l -> StronglySorted R (List.filter p l).
Proof.
  induction 1 as [|a l Hs IH Hall]; cbn [List.filter]; [constructor|].
  destruct (p a); [|exact IH]. constructor; [exact IH|].
  rewrite List.Forall_forall in *. intros x Hx. apply filter_In in Hx. now apply Hall.
Qed.

Lemma concatMapO_In {A B : Type} (f : A -> Outcome (list B)) (l : list A) :
  (forall x, In x l -> exists ys, f x = Returned ys) ->
  exists out,
    concatMapO f l = Returned out
    /\ forall y, In y out <-> exists x ys, In x l /\ f x = Returned ys /\ In y ys.
Proof.
  induction l as [|a l IH]; intros Hf.
  - exists []. split; [reflexivity|]. intros y. split; [intros []|].
    now intros (x & ys & [] & _).
  - destruct (Hf a ltac:(now left)) as [ys Hys].
    destruct (IH ltac:(intros x Hx; apply Hf; now right)) as (out & Hout & Hin).
    exists (ys ++ out)%list. cbn [concatMapO]. rewrite Hys, Hout. split; [reflexivity|].
    intros y. rewrite in_app_iff, Hin. split.
    + intros [Hy|(x & zs & Hx & Hfx & Hy)].
      * exists a, ys. split; [now left|]. now split.
      * exists x, zs. split; [now right|]. now split.
    + intros (x & zs & [<-|Hx] & Hfx & Hy).
      * left. rewrite Hys in Hfx. now injection Hfx as <-.
      * right. now exists x, zs.
Qed.

Lemma concatMapO_throws {A B : Type} (f : A -> Outcome (list B)) (l : list A) :
  (forall x, In x l -> (exists ys, f x = Returned ys) \/ (exists msg, f x = Thrown (TypeError msg))) ->
  (exists x msg, In x l /\ f x = Thrown (TypeError msg)) ->
  exists msg, concatMapO f l = Thrown (TypeError msg).
Proof.
  induction l as [|a l IH]; intros Hf (x & msg & Hx & Hfx); [destruct Hx|].
  cbn [concatMapO].
  destruct (Hf a ltac:(now left)) as [[ys Hys]|[m Hm]];
    [rewrite Hys|rewrite Hm]; cbn [bindO]; [|eauto].
  destruct Hx as [<-|Hx]; [congruence|].
  destruct (IH ltac:(intros y Hy; apply Hf; now right)
               ltac:(now exists x, msg)) as [m ->].
  cbn [bindO]. eauto.
Qed.

(** What a sequence of rounds gives: when it returns, every round returned,
    and it holds what the rounds yielded; when it throws, a round threw
    that. *)
Lemma concatMapO_spec {A B : Type} (f : A -> Outcome (list B)) (l : list A) :
  match concatMapO f l with
  | Returned out =>
      (forall x, In x l -> exists ys, f x = Returned ys)
      /\ forall y, In y out <-> exists x ys, In x l /\ f x = Returned ys /\ In y ys
  | Thrown e => exists x, In x l /\ f x = Thrown e
  end.
Proof.
  induction l as [|a l IH]; cbn [concatMapO].
  - split; [intros x []|]. intros y. split; [intros []|]. now intros (x & ys & [] & _).
  - destruct (f a) as [ys|e] eqn:Hfa; cbn [bindO]; [|exists a; split; [now left|exact Hfa]].
    destruct (concatMapO f l) as [out|e]; cbn [bindO].
    + destruct IH as [Hall Hin]. split.
      * intros x [<-|Hx]; [eauto|auto].
      * intros y. rewrite in_app_iff, Hin. split.
        -- intros [Hy|(x & zs & Hx & Hfx & Hy)].
           ++ exists a, ys. split; [now left|]. now split.
           ++ exists x, zs. split; [now right|]. now split.
        -- intros (x & zs & [<-|Hx] & Hfx & Hy).
           ++ left. rewrite Hfa in Hfx. now injection Hfx as <-.
           ++ right. now exists x, zs.
    + destruct IH as (x & Hx & Hfx). exists x. split; [now right|exact Hfx].
Qed.

(** X9. [enumerateObjectIdMatches] on the rules of a configuration, for an
    id that does not begin with a slash. When it returns, what it yields are
    exactly the ways of cutting the id at a slash into a plugin name and the
    name of a rule that exists in that plugin, the shortest plugin name
    first; a rule exists when every step of its path reads a truthy value, a
    name the rules inherit included. It throws only when the lookup of one of
    the cuts throws, which a read of an inherited accessor can do, and then
    throws that [TypeError]. *)
Theorem enumerateObjectIdMatches_yields_every_cut_that_exists `{Builtins}
    (config plugins : JsValue) (objectId : string) :
  get config "plugins" = Returned plugins ->
  truthy plugins = true ->
  String.prefix "/" objectId = false ->
  match RuleLookup.enumerateObjectIdMatches plugins "rules" objectId with
  | Returned matches =>
      (forall pn on,
         In (pn, on) matches
         <-> pn +:+ "/" +:+ on = objectId /\ ruleExists config pn on)
      /\ StronglySorted (fun p q => (String.length (fst p) < String.length (fst q))%nat) matches
  | Thrown e =>
      exists pn on msg,
        pn +:+ "/" +:+ on = objectId
        /\ RuleLookup.lookupObject plugins pn "rules" on = Thrown e
        /\ e = TypeError msg
  end.
Proof.
  intros Hcfg Hp Hstart.
  set (found := fun pair : string * string =>
                  match RuleLookup.lookupObject plugins (fst pair) "rules" (snd pair) with
                  | Returned v => truthy v
                  | Thrown _ => false
                  end).
  unfold RuleLookup.enumerateObjectIdMatches.
  rewrite (enumerateSplitPoints_slashSplits _ false false Hstart).
  cbn [app bindO]. rewrite app_nil_r.
  match goal with |- match concatMapO ?f ?l with _ => _ end =>
    pose proof (concatMapO_spec f l) as Hspec;
    destruct (concatMapO f l) as [matches|e] eqn:Hrun
  end.
  - destruct Hspec as [Hall _].
    assert (Hfilter : matches = List.filter found (slashSplits "" objectId)).
    { rewrite concatMapO_filter with (p := found) in Hrun; [now injection Hrun|].
      intros [pn on] Hin. destruct (Hall _ Hin) as [ys Hys]. unfold found. cbn [fst snd].
      destruct (RuleLookup.lookupObject plugins pn "rules" on); [reflexivity|discriminate]. }
    subst matches. split.
    + intros pn on. rewrite filter_In, In_slashSplits. unfold found. cbn [fst snd]. split.
      * intros [(x & -> & ->) Hex]. split; [reflexivity|].
        change ("" +:+ x) with x in *. revert Hex.
        pose proof (lookupObject_rules config plugins x on Hcfg Hp) as Hiff.
        destruct (RuleLookup.lookupObject plugins x "rules" on);
          intros Hex; [now apply Hiff|discriminate].
      * intros [<- Hex]. split; [now exists pn|].
        pose proof (lookupObject_rules config plugins pn on Hcfg Hp) as Hiff.
        destruct (RuleLookup.lookupObject plugins pn "rules" on) as [v|e];
          [now apply Hiff|now destruct Hiff].
    + apply StronglySorted_filter, slashSplits_sorted.
  - destruct Hspec as ([pn on] & Hin & Hf).
    apply In_slashSplits in Hin. destruct Hin as (x & -> & ->).
    change ("" +:+ x) with x in *.
    destruct (RuleLookup.lookupObject plugins x "rules" on) as [v|e'] eqn:Hl;
      cbn [bindO] in Hf; [discriminate|]. injection Hf as ->.
    destruct (lookupObject_thrown _ _ _ _ _ Hl) as [msg ->].
    exists x, on, msg. now repeat split.
Qed.

Lemma enumerateObjectIdMatches_yields_every_cut_that_exists_witness :
  (get tieBreakConfig "plugins" = Returned (get_own tieBreakConfig "plugins")
   /\ truthy (get_own tieBreakConfig "plugins") = true
   /\ String.prefix "/" "a/3/4" = false)
  /\ match RuleLookup.enumerateObjectIdMatches (get_own tieBreakConfig "plugins") "rules"
             "a/3/4" with
     | Returned matches =>
         (forall pn on,
            In (pn, on) matches
            <-> pn +:+ "/" +:+ on = "a/3/4" /\ ruleExists tieBreakConfig pn on)
         /\ StronglySorted
              (fun p q => (String.length (fst p) < String.length (fst q))%nat) matches
     | Thrown e =>
         exists pn on msg,
           pn +:+ "/" +:+ on = "a/3/4"
           /\ RuleLookup.lookupObject (get_own tieBreakConfig "plugins") pn "rules" on = Thrown e
           /\ e = TypeError msg
     end.
Proof.
  split; [repeat split|].
  apply (enumerateObjectIdMatches_yields_every_cut_that_exists tieBreakConfig
           (get_own tieBreakConfig "plugins") "a/3/4"); reflexivity.
Defined.

(** Both cuts of the tie-break example; a name that every object inherits
    is yielded for rules that list nothing; and a read that throws, here of
    [caller] from rules that are a function, makes the enumeration throw. *)
Example enumerateObjectIdMatches_examples :
  RuleLookup.enumerateObjectIdMatches (get_own tieBreakConfig "plugins") "rules" "a/3/4"
  = Returned [("a", "3/4"); ("a/3", "4")]
  /\ RuleLookup.enumerateObjectIdMatches (JObj 2 [("a", JObj 3 [("rules", JObj 4 [])])])
       "rules" "a/toString"
     = Returned [("a", "toString")]
  /\ exists msg,
       RuleLookup.enumerateObjectIdMatches (JObj 2 [("a", JObj 3 [("rules", JFun 4 [])])])
         "rules" "a/caller"
       = Thrown (TypeError msg).
Proof. split; [reflexivity|]. split; [reflexivity|]. eexists. reflexivity. Qed.

(** ** Suggestions for a rule id that was not found *)

Lemma truthy_not_nullish (v : JsValue) : truthy v = true -> nullish v = false.
Proof. destruct v; cbn; congruence. Qed.

Section SuggestionFacts.

Context `{Builtins}.


End SuggestionFacts.



(** The rule [4] of the plugin [a/3] is suggested for [b/4]; and for rules
    that list nothing, a name that every object inherits is suggested. *)
Example searchForPartialRuleNameMatches_examples :
  RuleLookup.searchForPartialRuleNameMatches "b/4" tieBreakConfig = Returned ["a/3/4"]
  /\ RuleLookup.searchForPartialRuleNameMatches "toString"
       (JObj 1 [("plugins", JObj 2 [("a", JObj 3 [("rules", JObj 4 [])])])])
     = Returned ["a/toString"].
Proof. split; reflexivity. Qed.

(** One round of the inner loop returns or throws a [TypeError]. *)
Lemma suggestion_round_outcome `{Builtins} (plugins : JsValue) (pn rn : string) :
  let round :=
    let! plugin := get plugins pn in
    let! rules := get plugin "rules" in
    let! found := js_and rules (get rules rn) in
    Returned (if truthy found then [pn +:+ "/" +:+ rn] else []) in
  (exists ys, round = Returned ys) \/ (exists msg, round = Thrown (TypeError msg)).
Proof.
  cbn zeta.
  destruct (get plugins pn) as [plugin|e] eqn:H1; cbn [bindO];
    [|right; apply get_thrown in H1; destruct H1 as [msg ->]; eauto].
  destruct (get plugin "rules") as [rules|e] eqn:H2; cbn [bindO];
    [|right; apply get_thrown in H2; destruct H2 as [msg ->]; eauto].
  unfold js_and. destruct (truthy rules); cbn [bindO]; [|eauto].
  destruct (get rules rn) as [found|e] eqn:H3; cbn [bindO];
    [eauto|right; apply get_thrown in H3; destruct H3 as [msg ->]; eauto].
Qed.

(** X11. The inner loop of [searchForPartialRuleNameMatches] reads
    [plugins[pluginName].rules] without the guard the other lookups have: a
    plugin registered as [undefined] or [null] makes the whole search throw a
    [TypeError], whatever the id. *)
Theorem searchForPartialRuleNameMatches_throws_on_null_plugin `{Builtins}
    (ruleId : string) (config plugins : JsValue) (names : list string) :
  get config "plugins" = Returned plugins ->
  truthy plugins = true ->
  Object_keys plugins = Returned names ->
  Exists (fun name => nullish (get_own plugins name) = true) names ->
  exists msg,
    RuleLookup.searchForPartialRuleNameMatches ruleId config = Thrown (TypeError msg).
Proof.
  intros Hcfg Hp Hkeys Hnull.
  unfold RuleLookup.searchForPartialRuleNameMatches.
  rewrite Hcfg. cbn [bindO]. rewrite Hp. cbn [negb].
  unfold StringUtils.enumerateSplitPoints. cbn [String.length Nat.eqb bindO app concatMapO].
  rewrite Hkeys. cbn [bindO].
  match goal with |- exists msg, bindO (concatMapO ?f names) _ = _ =>
    destruct (concatMapO_throws f names) as [msg Hthrow]
  end.
  - intros pn _. apply suggestion_round_outcome.
  - apply List.Exists_exists in Hnull. destruct Hnull as (pn & Hpn & Hn).
    destruct (get_nullish _ "rules" Hn) as [msg Hmsg].
    exists pn, msg. split; [exact Hpn|].
    rewrite (get_own_read plugins pn (truthy_not_nullish _ Hp) (Object_keys_own _ _ _ Hkeys Hpn)).
    cbn [bindO]. now rewrite Hmsg.
  - rewrite Hthrow. cbn [bindO]. eauto.
Qed.

Lemma searchForPartialRuleNameMatches_throws_on_null_plugin_witness :
  (get scopedConfig "plugins" = Returned (get_own scopedConfig "plugins")
   /\ truthy (get_own scopedConfig "plugins") = true
   /\ Object_keys (get_own scopedConfig "plugins") = Returned ["@scope/plugin"; "broken"]
   /\ Exists (fun name => nullish (get_own (get_own scopedConfig "plugins") name) = true)
             ["@scope/plugin"; "broken"])
  /\ exists msg,
       RuleLookup.searchForPartialRuleNameMatches "rule" scopedConfig = Thrown (TypeError msg).
Proof.
  assert (Hnull : Exists (fun name => nullish (get_own (get_own scopedConfig "plugins") name)
                                      = true) ["@scope/plugin"; "broken"]).
  { right. left. reflexivity. }
  split; [repeat split; exact Hnull|].
  apply (searchForPartialRuleNameMatches_throws_on_null_plugin "rule" scopedConfig
           (get_own scopedConfig "plugins") ["@scope/plugin"; "broken"]);
    [reflexivity|reflexivity|reflexivity|exact Hnull].
Defined.

(** ** The helpers that parse the rule id *)




Example getRuleFromConfig_parsed_scoped :
  fst (FlatConfigHelpersParse.getRuleFromConfig "@scope/plugin/rule" scopedConfig world0)
  = Returned (JObj 5 [])
  /\ RuleLookup.resolveRuleId "@scope/plugin/rule" scopedConfig
     = Thrown (ReferenceError "enumerateRuleIdMatches is not defined").
Proof. split; reflexivity. Qed.

(** A plugin that is missing or [null] gives a falsy result; a name that
    every object inherits gives what is inherited, a function here, in a
    wrapper; and reading [caller] from rules that are a function throws. *)
Example getRuleFromConfig_parsed_examples :
  fst (FlatConfigHelpersParse.getRuleFromConfig "no-such-plugin/rule" scopedConfig world0)
  = Returned JUndefined
  /\ fst (FlatConfigHelpersParse.getRuleFromConfig "broken/rule" scopedConfig world0)
     = Returned JNull
  /\ (exists inherited,
        fst (FlatConfigHelpersParse.getRuleFromConfig "a/constructor"
               (JObj 1 [("plugins", JObj 2 [("a", JObj 3 [("rules", JObj 4 [])])])]) world0)
        = Returned (JObj 1000 [("create", inherited)])
        /\ typeof inherited = "function")
  /\ exists msg,
       fst (FlatConfigHelpersParse.getRuleFromConfig "a/caller"
              (JObj 1 [("plugins", JObj 2 [("a", JObj 3 [("rules", JFun 4 [])])])]) world0)
       = Thrown (TypeError msg).
Proof.
  split; [reflexivity|]. split; [reflexivity|]. split.
  - eexists. split; reflexivity.
  - eexists. reflexivity.
Qed.

(** ** The schema of a rule *)

(** Reading [schema] or [meta] never throws: a value that has no such
    property of its own inherits none. *)
Lemma get_schema_returns `{Builtins} (v : JsValue) :
  nullish v = false -> exists x, get v "schema" = Returned x.
Proof.
  destruct v; cbn [nullish get]; try discriminate; intros _;
    (destruct (has_own _ _); [eauto|rewrite builtin_schema; eauto]).
Qed.

Lemma get_meta_returns `{Builtins} (v : JsValue) :
  nullish v = false -> exists x, get v "meta" = Returned x.
Proof.
  destruct v; cbn [nullish get]; try discriminate; intros _;
    (destruct (has_own _ _); [eauto|rewrite builtin_meta; eauto]).
Qed.

Lemma resolvedSchema_returns `{Builtins} (rule : JsValue) :
  truthy rule = true -> exists schema, FlatConfigHelpers.resolvedSchema rule = Returned schema.
Proof.
  intros Hr. unfold FlatConfigHelpers.resolvedSchema.
  destruct (get_schema_returns rule (truthy_not_nullish _ Hr)) as [s ->]. cbn [bindO].
  unfold js_or. destruct (truthy s); [eauto|].
  destruct (get_meta_returns rule (truthy_not_nullish _ Hr)) as [m ->]. cbn [bindO].
  unfold js_and. destruct (truthy m) eqn:Hm; [|eauto].
  apply get_schema_returns. now apply truthy_not_nullish.
Qed.



Example getRuleOptionsSchema_last_revision_array :
  FlatConfigHelpersParse.getRuleOptionsSchema enumZeroRule
  = Returned (JArr 2 [JObj 3 [("enum", JArr 4 [JNum 0])]])
  /\ fst (FlatConfigHelpers.getRuleOptionsSchema enumZeroRule world0)
     = Returned (JObj 1000 [("type", JStr "array");
                            ("items", JArr 2 [JObj 3 [("enum", JArr 4 [JNum 0])]]);
                            ("minItems", JNum 0); ("maxItems", JNum 1)]).
Proof. split; reflexivity. Qed.

(** ** The top-level check and the compiled validators *)

Lemma strict_equals_array (v : JsValue) :
  strict_equals v (JStr "array") = true <-> v = JStr "array".
Proof.
  split; [|now intros ->].
  destruct v; cbn; try discriminate. intros Hs. apply String.eqb_eq in Hs. now subst.
Qed.

(** X14. [validateJsonSchemaOnlyAcceptsArraysAtTopLevel] never throws, and
    its verdict is [true] exactly when the engine compiles the schema, the
    compiled schema rejects [undefined], and every error it reports at the
    top level under the keyword [type] names the type [array]. So a schema
    that rejects [undefined] for another reason than its type is taken to
    accept arrays only. *)
Theorem topLevelCheck_verdict `{Collaborators} (schema : JsValue) (w : World) :
  exists onlyArrays w',
    FlatConfigHelpersTopLevel.validateJsonSchemaOnlyAcceptsArraysAtTopLevel schema w
    = (Returned onlyArrays, w')
    /\ (onlyArrays = true
        <-> exists compiledSchema errors,
              ajv_compile schema = Returned compiledSchema
              /\ compiledSchema JUndefined = Some errors
              /\ Forall (fun error =>
                           Ajv.dataPath error = "" -> Ajv.keyword error = "type" ->
                           Ajv.params_type error = JStr "array") errors).
Proof.
  unfold FlatConfigHelpersTopLevel.validateJsonSchemaOnlyAcceptsArraysAtTopLevel.
  unfold bind at 1, try_catch, bind at 1, compile.
  destruct (ajv_compile schema) as [f|e]; cbn [emit ret throw bind fst snd].
  2:{ eexists _, _. split; [reflexivity|]. split; [discriminate|].
      intros (c & errs & Hc & _). discriminate. }
  unfold bind at 1, run, bind at 1. cbn [emit ret].
  destruct (f JUndefined) as [errors|] eqn:Hf.
  2:{ eexists _, _. split; [reflexivity|]. split; [discriminate|].
      intros (c & errs & [= <-] & Hrun & _). congruence. }
  destruct (existsb _ _) eqn:Hex.
  - eexists _, _. split; [reflexivity|]. split; [discriminate|].
    intros (c & errs & [= <-] & Hrun & Hall). rewrite Hf in Hrun. injection Hrun as <-.
    apply existsb_exists in Hex. destruct Hex as (error & Hin & Hne).
    apply filter_In in Hin. destruct Hin as [Hin Htop].
    apply andb_true_iff in Htop. destruct Htop as [Hpath Hkey].
    apply String.eqb_eq in Hpath, Hkey.
    rewrite List.Forall_forall in Hall. specialize (Hall _ Hin Hpath Hkey).
    rewrite Hall in Hne. discriminate.
  - eexists _, _. split; [reflexivity|]. split; [|reflexivity].
    intros _. exists f, errors. split; [reflexivity|]. split; [exact Hf|].
    apply List.Forall_forall. intros error Hin Hpath Hkey.
    apply strict_equals_array.
    destruct (strict_equals (Ajv.params_type error) (JStr "array")) eqn:Hs; [reflexivity|].
    assert (Hcontra : existsb (fun error => negb (strict_equals (Ajv.params_type error)
                                                   (JStr "array")))
                        (List.filter (fun error => String.eqb (Ajv.dataPath error) ""
                                                   && String.eqb (Ajv.keyword error) "type")
                                     errors) = true).
    { apply existsb_exists. exists error. split; [|now rewrite Hs].
      apply filter_In. split; [exact Hin|]. rewrite Hpath, Hkey. reflexivity. }
    rewrite Hcontra in Hex. discriminate.
Qed.

Example topLevelCheck_enum_only :
  fst (FlatConfigHelpersTopLevel.validateJsonSchemaOnlyAcceptsArraysAtTopLevel
         (JObj 3 [("enum", JArr 4 [JNum 0])]) world0) = Returned true.
Proof. reflexivity. Qed.

(** X15. [compileJsonSchema] never throws and calls the engine once. The
    function it returns gives one message per error of the engine, so it
    gives the empty list exactly when the compiled schema reports no error;
    when the compilation itself failed it gives the empty list always. *)
Theorem compileJsonSchema_never_throws `{Collaborators} (schema : JsValue) (w : World) :
  exists validator compiled,
    CompileJsonSchema.compileJsonSchema schema w
    = (Returned validator,
       {| next_id := next_id w;
          trace := EvCompile ByCompileJsonSchema schema compiled :: trace w |})
    /\ match ajv_compile schema with
       | Returned compiledSchema =>
           compiled = true
           /\ forall object,
                List.length (validator object)
                = match compiledSchema object with
                  | None => 0%nat
                  | Some errors => List.length errors
                  end
       | Thrown _ => compiled = false /\ forall object, validator object = []
       end.
Proof.
  unfold CompileJsonSchema.compileJsonSchema, try_catch, bind, compile.
  destruct (ajv_compile schema) as [f|e]; cbn.
  - eexists _, true. split; [reflexivity|]. split; [reflexivity|].
    intros object. destruct (f object) as [errors|]; [|reflexivity].
    now rewrite length_map.
  - eexists _, false. split; [reflexivity|]. now split.
Qed.

(** ** [validate]: what an entry can do *)

Section ValidateFacts.

Context `{Builtins} `{Collaborators}.

Import RuleValidator.

Lemma validateEntry_skipped (config : JsValue) (entry : string * JsValue) (s : State) :
  skippedEntry entry -> validateEntry config entry s = (Returned tt, s).
Proof.
  destruct entry as [ruleId ruleOptions]. unfold skippedEntry, validateEntry. cbn [fst snd].
  intros [->|Hoff]; [reflexivity|].
  destruct (String.eqb ruleId "__proto__"); [reflexivity|].
  unfold bind, liftO. now rewrite Hoff.
Qed.

Lemma validateEntries_skipped (config : JsValue) (entries : list (string * JsValue)) (s : State) :
  Forall skippedEntry entries -> validateEntries config entries s = (Returned tt, s).
Proof.
  induction 1 as [|entry entries Hskip _ IH]; cbn [validateEntries]; [reflexivity|].
  unfold bind. now rewrite (validateEntry_skipped _ _ _ Hskip).
Qed.

End ValidateFacts.

(** X16. [validate] does nothing at all for a configuration whose [rules]
    is falsy, or whose every entry is keyed ["__proto__"] or has the
    severity [0]: it returns, and the cache, the allocation counter and the
    trace are as they were. No rule id is resolved, so it does not matter
    whether the rules exist. *)
Theorem validate_passes_over_skipped_entries `{Builtins} `{Collaborators}
    (config rules : JsValue) (s : RuleValidator.State) :
  get config "rules" = Returned rules ->
  truthy rules = false
  \/ (exists entries, Object_entries rules = Returned entries /\ Forall skippedEntry entries) ->
  RuleValidator.validate config s = (Returned tt, s).
Proof.
  intros Hrules Hskip. unfold RuleValidator.validate, bind at 1, liftO at 1. rewrite Hrules.
  destruct (truthy rules) eqn:Ht; [|reflexivity]. cbn [negb].
  destruct Hskip as [Hf|(entries & Hentries & Hall)]; [discriminate|].
  unfold bind, liftO. rewrite Hentries. now apply validateEntries_skipped.
Qed.

Lemma validate_passes_over_skipped_entries_witness :
  (get skippedConfig "rules" = Returned (get_own skippedConfig "rules")
   /\ (truthy (get_own skippedConfig "rules") = false
       \/ exists entries,
            Object_entries (get_own skippedConfig "rules") = Returned entries
            /\ Forall skippedEntry entries))
  /\ RuleValidator.validate skippedConfig (freshInstance 1000)
     = (Returned tt, freshInstance 1000).
Proof.
  assert (Hskip : truthy (get_own skippedConfig "rules") = false
                  \/ exists entries,
                       Object_entries (get_own skippedConfig "rules") = Returned entries
                       /\ Forall skippedEntry entries).
  { right. eexists. split; [reflexivity|].
    constructor; [now left|]. constructor; [now right|constructor]. }
  split; [split; [reflexivity|exact Hskip]|].
  apply (validate_passes_over_skipped_entries skippedConfig (get_own skippedConfig "rules")
           (freshInstance 1000)); [reflexivity|exact Hskip].
Defined.

(** X17. [validate] stops at the first entry that throws: when the loop
    throws on the first entries of [config.rules], [validate] throws the same
    exception and leaves the instance and the trace as they are at that
    throw, whatever entries come after. *)
Theorem validate_stops_at_the_first_throw `{Builtins} `{Collaborators}
    (config rules : JsValue) (pre post : list (string * JsValue))
    (e : Exception) (s s' : RuleValidator.State) :
  get config "rules" = Returned rules ->
  truthy rules = true ->
  Object_entries rules = Returned (pre ++ post)%list ->
  RuleValidator.validateEntries config pre s = (Thrown e, s') ->
  RuleValidator.validate config s = (Thrown e, s').
Proof.
  intros Hrules Ht Hentries Hpre.
  unfold RuleValidator.validate, bind at 1, liftO at 1. rewrite Hrules, Ht. cbn [negb].
  unfold bind at 1, liftO at 1. rewrite Hentries, validateEntries_app.
  unfold bind. now rewrite Hpre.
Qed.

Lemma validate_stops_at_the_first_throw_witness :
  (get failingConfig "rules" = Returned (get_own failingConfig "rules")
   /\ truthy (get_own failingConfig "rules") = true
   /\ Object_entries (get_own failingConfig "rules")
      = Returned ([("semi", JArr 20 [JNum 2; JStr "sometimes"])]
                  ++ [("x/semi", JArr 21 [JNum 1; JStr "never"])])%list
   /\ RuleValidator.validateEntries failingConfig
        [("semi", JArr 20 [JNum 2; JStr "sometimes"])] (freshInstance 1000)
      = (Thrown failingError,
         snd (RuleValidator.validateEntries failingConfig
                [("semi", JArr 20 [JNum 2; JStr "sometimes"])] (freshInstance 1000))))
  /\ RuleValidator.validate failingConfig (freshInstance 1000)
     = (Thrown failingError,
        snd (RuleValidator.validateEntries failingConfig
               [("semi", JArr 20 [JNum 2; JStr "sometimes"])] (freshInstance 1000))).
Proof.
  split; [repeat split|].
  apply (validate_stops_at_the_first_throw failingConfig (get_own failingConfig "rules")
           [("semi", JArr 20 [JNum 2; JStr "sometimes"])]
           [("x/semi", JArr 21 [JNum 1; JStr "never"])]);
    reflexivity.
Defined.

(** X18. An enabled entry whose rule id does not resolve makes the loop
    body throw what [resolveRuleId] throws: the rule is not skipped. The
    cache is untouched, and nothing but the resolution is recorded. *)
Theorem validateEntry_unresolved_rule_throws `{Builtins} `{Collaborators}
    (config : JsValue) (ruleId : string) (ruleOptions severity : JsValue) (e : Exception)
    (this : RuleValidator.Instance) (w : World) :
  ruleId <> "__proto__" ->
  get ruleOptions "0" = Returned severity ->
  strict_equals severity (JNum 0) = false ->
  RuleLookup.resolveRuleId ruleId config = Thrown e ->
  RuleValidator.validateEntry config (ruleId, ruleOptions) (this, w)
  = (Thrown e, (this, {| next_id := next_id w; trace := EvResolve ruleId :: trace w |})).
Proof.
  intros Hproto Hsev Hon Hres. unfold RuleValidator.validateEntry.
  destruct (String.eqb_spec ruleId "__proto__") as [->|_]; [contradiction|].
  unfold bind at 1. unfold liftO at 1. rewrite Hsev, Hon.
  unfold bind at 1, RuleValidator.inWorld at 1, bind at 1. cbn [emit].
  unfold RuleValidator.resolveRule, try_catch.
  rewrite (getRuleFromConfig_thrown _ _ _ _ Hres).
  destruct (resolveRuleId_thrown _ _ _ Hres) as [[msg ->]|[msg ->]]; reflexivity.
Qed.

Lemma validateEntry_unresolved_rule_throws_witness :
  ("no-such-rule" <> "__proto__"
   /\ get (JArr 3 [JNum 2]) "0" = Returned (JNum 2)
   /\ strict_equals (JNum 2) (JNum 0) = false
   /\ RuleLookup.resolveRuleId "no-such-rule" builtInConfig
      = Thrown (TypeError "Cannot convert a Symbol value to a string"))
  /\ RuleValidator.validateEntry builtInConfig ("no-such-rule", JArr 3 [JNum 2])
       (freshInstance 1000)
     = (Thrown (TypeError "Cannot convert a Symbol value to a string"),
        (RuleValidator.new, {| next_id := 1000; trace := [EvResolve "no-such-rule"] |})).
Proof.
  split; [repeat split; discriminate|].
  apply (validateEntry_unresolved_rule_throws builtInConfig "no-such-rule"
           (JArr 3 [JNum 2]) (JNum 2) (TypeError "Cannot convert a Symbol value to a string")
           RuleValidator.new {| next_id := 1000; trace := [] |});
    [discriminate|reflexivity|reflexivity|reflexivity].
Defined.

(** X19. A rule that gives no schema accepts any options: for an enabled
    entry whose rule is not in the cache and has no truthy schema, the loop
    body returns whatever the options are. Nothing is compiled and nothing is
    cached, so the schema is looked up again at the next entry for that
    rule. *)
Theorem validateEntry_rule_without_schema_accepts_all `{Builtins} `{Collaborators}
    (config : JsValue) (ruleId : string) (ruleOptions rule : JsValue)
    (id : ObjId) (this : RuleValidator.Instance) (w : World) :
  enabledEntry config ruleId ruleOptions rule ->
  RuleValidator.identity rule = Some id ->
  RuleValidator.validators this !! id = None ->
  (forall schema, FlatConfigHelpers.resolvedSchema rule = Returned schema ->
                  truthy schema = false) ->
  RuleValidator.validateEntry config (ruleId, ruleOptions) (this, w)
  = (Returned tt,
     (this, {| next_id := next_id w;
               trace := EvSchemaLookup rule :: EvResolve ruleId :: trace w |})).
Proof.
  intros Hentry Hid Hnew Hnone.
  rewrite (validateEntry_enabled _ _ _ _ _ _ Hentry).
  assert (Hr : truthy rule = true) by (destruct rule; try discriminate; reflexivity).
  destruct (resolvedSchema_returns _ Hr) as [schema Hs].
  pose proof (Hnone _ Hs) as Hfalsy.
  unfold bind at 1. unfold RuleValidator.precompile, bind at 1, RuleValidator.validators_has.
  rewrite Hid, Hnew, bool_decide_false by (intros [? ?]; discriminate). cbn [negb].
  unfold bind at 1, RuleValidator.inWorld at 1, bind at 1. cbn [emit].
  unfold FlatConfigHelpers.getRuleOptionsSchema. rewrite Hr. cbn [negb].
  unfold bind at 1. unfold liftO at 1. rewrite Hs.
  assert (Harr : Array_isArray schema = false) by (destruct schema; try reflexivity; discriminate).
  rewrite Harr, Hfalsy. cbn [ret truthy].
  unfold RuleValidator.applyValidator, bind, RuleValidator.validators_get.
  rewrite Hid, Hnew. reflexivity.
Qed.

Lemma validateEntry_rule_without_schema_accepts_all_witness :
  (enabledEntry builtInConfig "semi" (JArr 20 [JNum 2; JStr "anything"; JNum 7]) (JObj 5 [])
   /\ RuleValidator.identity (JObj 5 []) = Some 5%nat
   /\ RuleValidator.validators RuleValidator.new !! 5%nat = None
   /\ (forall schema, FlatConfigHelpers.resolvedSchema (JObj 5 []) = Returned schema ->
                      truthy schema = false))
  /\ RuleValidator.validateEntry builtInConfig
       ("semi", JArr 20 [JNum 2; JStr "anything"; JNum 7]) (freshInstance 1000)
     = (Returned tt,
        (RuleValidator.new,
         {| next_id := 1000; trace := [EvSchemaLookup (JObj 5 []); EvResolve "semi"] |})).
Proof.
  assert (Hentry : enabledEntry builtInConfig "semi"
                     (JArr 20 [JNum 2; JStr "anything"; JNum 7]) (JObj 5 [])).
  { split; [discriminate|]. split; [now exists (JNum 2)|]. intros w. reflexivity. }
  assert (Hnone : forall schema, FlatConfigHelpers.resolvedSchema (JObj 5 []) = Returned schema ->
                                 truthy schema = false).
  { intros schema [= <-]. reflexivity. }
  split; [split; [exact Hentry|split; [reflexivity|split; [reflexivity|exact Hnone]]]|].
  apply (validateEntry_rule_without_schema_accepts_all builtInConfig "semi"
           (JArr 20 [JNum 2; JStr "anything"; JNum 7]) (JObj 5 []) 5%nat
           RuleValidator.new {| next_id := 1000; trace := [] |});
    [exact Hentry|reflexivity|reflexivity|exact Hnone].
Defined.

(** X20. What is validated are the options after the severity: for an
    enabled entry [[severity, ...options]] whose rule has a validator in the
    cache, that validator is run once, on a new array holding [options]
    without the severity. The loop body returns when the validator reports no
    error, and otherwise throws an [Error] whose message begins with
    [Key "rules": Key "<ruleId>": ] and lists the errors. The cache is left
    as it is. *)
Theorem validateEntry_checks_the_options_after_the_severity `{Builtins} `{Collaborators}
    (config : JsValue) (ruleId : string) (rule : JsValue)
    (id oid : ObjId) (severity : JsValue) (options : list JsValue)
    (validateRule : Ajv.ValidateFunction) (this : RuleValidator.Instance) (w : World) :
  enabledEntry config ruleId (JArr oid (severity :: options)) rule ->
  RuleValidator.identity rule = Some id ->
  RuleValidator.validators this !! id = Some validateRule ->
  RuleValidator.validateEntry config (ruleId, JArr oid (severity :: options)) (this, w)
  = (match validateRule (JArr (next_id w) options) with
     | None => Returned tt
     | Some errors =>
         Thrown (Error ("Key " +:+ dquote +:+ "rules" +:+ dquote +:+ ": Key "
                        +:+ dquote +:+ ruleId +:+ dquote +:+ ": "
                        +:+ String.concat ""
                              (map (fun error =>
                                      tab +:+ "Value " +:+ JSON_stringify (Ajv.data error)
                                          +:+ " " +:+ Ajv.message error +:+ "." +:+ newline)
                                   errors)))
     end,
     (this, {| next_id := S (next_id w);
               trace := EvRun (ByValidate rule) (JArr (next_id w) options)
                        :: EvResolve ruleId :: trace w |})).
Proof.
  intros Hentry Hid Hcached.
  rewrite (validateEntry_enabled _ _ _ _ _ _ Hentry). unfold bind at 1.
  rewrite (precompile_hit rule id this _ Hid) by (rewrite Hcached; eauto).
  unfold RuleValidator.applyValidator, bind at 1, RuleValidator.validators_get.
  rewrite Hid, Hcached.
  cbn [slice1]. change (skipn 1 (severity :: options)) with options.
  unfold bind, RuleValidator.inWorld, run, emit, ret, throw, fresh. cbn [next_id trace].
  destruct (validateRule (JArr (next_id w) options)); reflexivity.
Qed.

Lemma validateEntry_checks_the_options_after_the_severity_witness :
  (enabledEntry aliasConfig "semi" (JArr 20 (JNum 2 :: [JStr "always"])) semiRule
   /\ RuleValidator.identity semiRule = Some 5%nat
   /\ RuleValidator.validators (fst staleInstance) !! 5%nat = Some (fun _ => None))
  /\ RuleValidator.validateEntry aliasConfig ("semi", JArr 20 (JNum 2 :: [JStr "always"]))
       staleInstance
     = (Returned tt,
        (fst staleInstance,
         {| next_id := 1001;
            trace := [EvRun (ByValidate semiRule) (JArr 1000 [JStr "always"]);
                      EvResolve "semi"] |})).
Proof.
  assert (Hentry : enabledEntry aliasConfig "semi" (JArr 20 (JNum 2 :: [JStr "always"])) semiRule).
  { split; [discriminate|]. split; [now exists (JNum 2)|]. intros w. reflexivity. }
  split; [split; [exact Hentry|split; reflexivity]|].
  apply (validateEntry_checks_the_options_after_the_severity aliasConfig "semi" semiRule
           5%nat 20%nat (JNum 2) [JStr "always"] (fun _ => None) (fst staleInstance) world0);
    [exact Hentry|reflexivity|reflexivity].
Defined.

(** X21. A cached validator is never dropped or replaced: whatever
    configurations are validated on an instance afterwards, and whether or
    not those calls throw, the rule is still in the cache with the same
    validation function. The schema the rule has by then plays no part. *)
Theorem validators_are_never_replaced `{Builtins} `{Collaborators}
    (configs : list JsValue) (s : RuleValidator.State) (id : ObjId)
    (validateRule : Ajv.ValidateFunction) :
  RuleValidator.validators (fst s) !! id = Some validateRule ->
  RuleValidator.validators (fst (validateAll configs s)) !! id = Some validateRule.
Proof.
  revert s. induction configs as [|config configs IH]; intros s Hcached; cbn [validateAll].
  - exact Hcached.
  - apply IH. now apply (step_keeps _ _ (preserves_validate config s)).
Qed.

Lemma validators_are_never_replaced_witness :
  RuleValidator.validators (fst staleInstance) !! 5%nat = Some (fun _ => None)
  /\ RuleValidator.validators (fst (validateAll [aliasConfig; failingConfig] staleInstance))
       !! 5%nat
     = Some (fun _ => None).
Proof.
  split; [reflexivity|].
  apply (validators_are_never_replaced [aliasConfig; failingConfig] staleInstance 5%nat
           (fun _ => None)).
  reflexivity.
Defined.

(** The validator cached above accepts everything, and goes on doing so:
    the option that the schema of the rule rejects passes. *)
Example stale_validator_is_used :
  fst (RuleValidator.validate failingConfig staleInstance) = Returned tt
  /\ exists e, fst (RuleValidator.validate failingConfig (freshInstance 1000)) = Thrown e.
Proof. split; [reflexivity|eexists; reflexivity]. Qed.

(** X28. [validate] fails closed on a schema the engine refuses: for an
    enabled entry whose rule is not in the cache, when [ajv.compile] throws on
    the schema of the rule, the loop body throws that exception. Nothing is
    cached, so the next entry for the rule has the schema compiled again. *)
Theorem validateEntry_throws_when_the_schema_does_not_compile `{Builtins} `{Collaborators}
    (config : JsValue) (ruleId : string) (ruleOptions rule schema : JsValue)
    (id : ObjId) (e : Exception) (this : RuleValidator.Instance) (w w' : World) :
  enabledEntry config ruleId ruleOptions rule ->
  RuleValidator.identity rule = Some id ->
  RuleValidator.validators this !! id = None ->
  FlatConfigHelpers.getRuleOptionsSchema rule
    {| next_id := next_id w; trace := EvSchemaLookup rule :: EvResolve ruleId :: trace w |}
  = (Returned schema, w') ->
  truthy schema = true ->
  ajv_compile schema = Thrown e ->
  RuleValidator.validateEntry config (ruleId, ruleOptions) (this, w)
  = (Thrown e,
     (this, {| next_id := next_id w';
               trace := EvCompile (ByValidate rule) schema false :: trace w' |})).
Proof.
  intros Hentry Hid Hnew Hschema Htruthy Hcompile.
  rewrite (validateEntry_enabled _ _ _ _ _ _ Hentry).
  unfold bind at 1. unfold RuleValidator.precompile, bind at 1, RuleValidator.validators_has.
  rewrite Hid, Hnew, bool_decide_false by (intros [? ?]; discriminate). cbn [negb].
  unfold bind at 1, RuleValidator.inWorld at 1, bind at 1. cbn [emit next_id trace].
  rewrite Hschema, Htruthy.
  unfold bind, RuleValidator.inWorld, compile. rewrite Hcompile. reflexivity.
Qed.

Lemma validateEntry_throws_when_the_schema_does_not_compile_witness :
  (enabledEntry rejectedConfig "r" (JArr 3 [JNum 2]) rejectedRule
   /\ RuleValidator.identity rejectedRule = Some 7%nat
   /\ RuleValidator.validators RuleValidator.new !! 7%nat = None
   /\ FlatConfigHelpers.getRuleOptionsSchema rejectedRule
        {| next_id := 1000; trace := [EvSchemaLookup rejectedRule; EvResolve "r"] |}
      = (Returned (JNum 1),
         {| next_id := 1000; trace := [EvSchemaLookup rejectedRule; EvResolve "r"] |})
   /\ truthy (JNum 1) = true
   /\ ajv_compile (JNum 1) = Thrown (Error "schema should be object or boolean"))
  /\ RuleValidator.validateEntry rejectedConfig ("r", JArr 3 [JNum 2]) (freshInstance 1000)
     = (Thrown (Error "schema should be object or boolean"),
        (RuleValidator.new,
         {| next_id := 1000;
            trace := [EvCompile (ByValidate rejectedRule) (JNum 1) false;
                      EvSchemaLookup rejectedRule; EvResolve "r"] |})).
Proof.
  assert (Hentry : enabledEntry rejectedConfig "r" (JArr 3 [JNum 2]) rejectedRule).
  { split; [discriminate|]. split; [now exists (JNum 2)|]. intros w. reflexivity. }
  split; [split; [exact Hentry|repeat split]|].
  apply (validateEntry_throws_when_the_schema_does_not_compile rejectedConfig "r"
           (JArr 3 [JNum 2]) rejectedRule (JNum 1) 7%nat
           (Error "schema should be object or boolean") RuleValidator.new
           {| next_id := 1000; trace := [] |}
           {| next_id := 1000; trace := [EvSchemaLookup rejectedRule; EvResolve "r"] |});
    [exact Hentry|reflexivity|reflexivity|reflexivity|reflexivity|reflexivity].
Defined.

(** X29. The first enabled entry for a rule with a schema the engine
    compiles: the schema is compiled once, the validation function is cached
    under the identity of the rule, and it is run on a new array holding the
    options after the severity. The loop body returns when it reports no
    error and throws an [Error] listing the errors otherwise; the validation
    function stays in the cache in either case. *)
Theorem validateEntry_first_use_compiles_caches_and_checks `{Builtins} `{Collaborators}
    (config : JsValue) (ruleId : string) (rule schema : JsValue)
    (id oid : ObjId) (severity : JsValue) (options : list JsValue)
    (validateRule : Ajv.ValidateFunction) (this : RuleValidator.Instance) (w w' : World) :
  enabledEntry config ruleId (JArr oid (severity :: options)) rule ->
  RuleValidator.identity rule = Some id ->
  RuleValidator.validators this !! id = None ->
  FlatConfigHelpers.getRuleOptionsSchema rule
    {| next_id := next_id w; trace := EvSchemaLookup rule :: EvResolve ruleId :: trace w |}
  = (Returned schema, w') ->
  truthy schema = true ->
  ajv_compile schema = Returned validateRule ->
  RuleValidator.validateEntry config (ruleId, JArr oid (severity :: options)) (this, w)
  = (match validateRule (JArr (next_id w') options) with
     | None => Returned tt
     | Some errors =>
         Thrown (Error ("Key " +:+ dquote +:+ "rules" +:+ dquote +:+ ": Key "
                        +:+ dquote +:+ ruleId +:+ dquote +:+ ": "
                        +:+ String.concat ""
                              (map (fun error =>
                                      tab +:+ "Value " +:+ JSON_stringify (Ajv.data error)
                                          +:+ " " +:+ Ajv.message error +:+ "." +:+ newline)
                                   errors)))
     end,
     ({| RuleValidator.validators := <[id := validateRule]> (RuleValidator.validators this) |},
      {| next_id := S (next_id w');
         trace := EvRun (ByValidate rule) (JArr (next_id w') options)
                  :: EvCompile (ByValidate rule) schema true :: trace w' |})).
Proof.
  intros Hentry Hid Hnew Hschema Htruthy Hcompile.
  rewrite (validateEntry_enabled _ _ _ _ _ _ Hentry).
  unfold bind at 1. unfold RuleValidator.precompile, bind at 1, RuleValidator.validators_has.
  rewrite Hid, Hnew, bool_decide_false by (intros [? ?]; discriminate). cbn [negb].
  unfold bind at 1, RuleValidator.inWorld at 1, bind at 1. cbn [emit next_id trace].
  rewrite Hschema, Htruthy.
  unfold bind at 1, RuleValidator.inWorld at 1, compile. rewrite Hcompile.
  unfold bind at 1. cbn [emit ret]. unfold RuleValidator.validators_set. rewrite Hid.
  unfold RuleValidator.applyValidator, bind at 1, RuleValidator.validators_get.
  rewrite Hid. cbn [RuleValidator.validators]. rewrite lookup_insert_eq.
  cbn [slice1]. change (skipn 1 (severity :: options)) with options.
  unfold bind, RuleValidator.inWorld, run, emit, ret, throw, fresh. cbn [next_id trace].
  destruct (validateRule (JArr (next_id w') options)); reflexivity.
Qed.

Lemma validateEntry_first_use_compiles_caches_and_checks_witness :
  (enabledEntry failingConfig "semi" (JArr 20 (JNum 2 :: [JStr "sometimes"])) semiRule
   /\ RuleValidator.identity semiRule = Some 5%nat
   /\ RuleValidator.validators RuleValidator.new !! 5%nat = None
   /\ FlatConfigHelpers.getRuleOptionsSchema semiRule
        {| next_id := 1000; trace := [EvSchemaLookup semiRule; EvResolve "semi"] |}
      = (Returned semiSchema,
         {| next_id := 1001; trace := [EvSchemaLookup semiRule; EvResolve "semi"] |})
   /\ truthy semiSchema = true
   /\ ajv_compile semiSchema = Returned semiValidator)
  /\ RuleValidator.validateEntry failingConfig ("semi", JArr 20 (JNum 2 :: [JStr "sometimes"]))
       (freshInstance 1000)
     = (Thrown failingError,
        ({| RuleValidator.validators := <[5%nat := semiValidator]> ∅ |},
         {| next_id := 1002;
            trace := [EvRun (ByValidate semiRule) (JArr 1001 [JStr "sometimes"]);
                      EvCompile (ByValidate semiRule) semiSchema true;
                      EvSchemaLookup semiRule; EvResolve "semi"] |})).
Proof.
  assert (Hentry : enabledEntry failingConfig "semi"
                     (JArr 20 (JNum 2 :: [JStr "sometimes"])) semiRule).
  { split; [discriminate|]. split; [now exists (JNum 2)|]. intros w. reflexivity. }
  split; [split; [exact Hentry|repeat split]|].
  etransitivity.
  - apply (validateEntry_first_use_compiles_caches_and_checks failingConfig "semi" semiRule
             semiSchema 5%nat 20%nat (JNum 2) [JStr "sometimes"] semiValidator
             RuleValidator.new {| next_id := 1000; trace := [] |}
             {| next_id := 1001; trace := [EvSchemaLookup semiRule; EvResolve "semi"] |});
      [exact Hentry|reflexivity|reflexivity|reflexivity|reflexivity|reflexivity].
  - cbn [next_id]. f_equal.
Defined.

(** ** ECMAScript versions *)

Section EcmaFacts.

Import EcmaVersions.

Variable supported : Version -> bool.

Lemma validVersions_spec (n : Z) : In n validVersions <-> validVersion n.
Proof.
  unfold validVersions, validVersion. cbn [In]. rewrite in_app_iff, !in_map_iff. split.
  - intros [<-|[<-|[(k & <- & Hk)|(k & <- & Hk)]]]; try lia; apply in_seq in Hk; lia.
  - intros [->|[->|[Hn|Hn]]]; [now left|right; now left|right; right; left|right; right; right];
      exists (Z.to_nat n); (split; [lia|apply in_seq; lia]).
Qed.

Lemma charIn_In (lo hi c : ascii) :
  charIn lo hi c = true ->
  In c (map ascii_of_nat (seq (nat_of_ascii lo) (S (nat_of_ascii hi) - nat_of_ascii lo))).
Proof.
  unfold charIn. intros Hc. apply andb_true_iff in Hc. destruct Hc as [Hlo Hhi].
  apply Nat.leb_le in Hlo, Hhi. apply in_map_iff. exists (nat_of_ascii c).
  split; [apply ascii_nat_embedding|]. apply in_seq. lia.
Qed.

Lemma versionGroup_listed (text : string) :
  versionGroup text = true -> existsb (fun n => String.eqb text (pretty n)) validVersions = true.
Proof.
  destruct text as [|c1 [|c2 [|c3 [|c4 [|c5 text]]]]]; cbn [versionGroup]; try discriminate.
  - intros Hc. apply orb_true_iff in Hc. destruct Hc as [Hc|Hc].
    + apply orb_true_iff in Hc. destruct Hc as [Hc|Hc]; apply Ascii.eqb_eq in Hc; subst c1;
        vm_compute; reflexivity.
    + apply charIn_In in Hc. cbn in Hc.
      repeat (destruct Hc as [<-|Hc]; [vm_compute; reflexivity|]). destruct Hc.
  - intros Hc. apply andb_true_iff in Hc. destruct Hc as [H1 H2].
    apply charIn_In in H1, H2. cbn in H1, H2.
    repeat (destruct H1 as [<-|H1];
            [repeat (destruct H2 as [<-|H2]; [vm_compute; reflexivity|]); destruct H2|]).
    destruct H1.
  - intros Hc. repeat (apply andb_true_iff in Hc; destruct Hc as [Hc ?]).
    apply Ascii.eqb_eq in Hc. subst c1.
    match goal with H : _ = true |- _ => apply Ascii.eqb_eq in H; subst c2 end.
    match goal with H : _ || _ = true |- _ => apply orb_true_iff in H; destruct H as [H|H] end.
    + apply andb_true_iff in H. destruct H as [H3 H4].
      apply Ascii.eqb_eq in H3. subst c3. apply charIn_In in H4. cbn in H4.
      repeat (destruct H4 as [<-|H4]; [vm_compute; reflexivity|]). destruct H4.
    + apply andb_true_iff in H. destruct H as [H3 H4].
      apply charIn_In in H3, H4. cbn in H3, H4.
      repeat (destruct H3 as [<-|H3];
              [repeat (destruct H4 as [<-|H4]; [vm_compute; reflexivity|]); destruct H4|]).
      destruct H3.
Qed.

Lemma validVersions_checked :
  forallb (fun n => versionGroup (pretty n)
                    && match Number_parseInt (pretty n) with
                       | Int m => m =? n
                       | NaN => false
                       end) validVersions = true.
Proof. vm_compute. reflexivity. Qed.

(** The group matches the decimal numerals of the valid version numbers,
    and nothing else; [Number.parseInt] reads the number back. *)
Lemma versionGroup_spec (text : string) :
  versionGroup text = true <-> exists n, validVersion n /\ text = pretty n.
Proof.
  split.
  - intros Hg. apply versionGroup_listed in Hg. apply existsb_exists in Hg.
    destruct Hg as (n & Hn & He). apply String.eqb_eq in He.
    exists n. split; [now apply validVersions_spec|exact He].
  - intros (n & Hn & ->). apply validVersions_spec in Hn.
    pose proof validVersions_checked as Hall. rewrite forallb_forall in Hall.
    specialize (Hall _ Hn). now apply andb_true_iff in Hall.
Qed.

Lemma parseInt_pretty (n : Z) : validVersion n -> Number_parseInt (pretty n) = Int n.
Proof.
  intros Hn. apply validVersions_spec in Hn.
  pose proof validVersions_checked as Hall. rewrite forallb_forall in Hall.
  specialize (Hall _ Hn). apply andb_true_iff in Hall. destruct Hall as [_ Hp].
  destruct (Number_parseInt (pretty n)) as [m|]; [|discriminate].
  apply Z.eqb_eq in Hp. now subst.
Qed.

Lemma validVersion_test (v : Z) :
  ((v =? 3) || (v =? 5) || ((6 <=? v) && (v <? 100)) || ((2015 <=? v) && (v <? 2100)) = true)
  <-> validVersion v.
Proof. unfold validVersion. rewrite !orb_true_iff, !andb_true_iff. lia. Qed.

Lemma getEcmaVersionNumber_valid (n : Z) :
  validVersion n ->
  getEcmaVersionNumberFromStringOrNumber supported (VNumber (Int n)) false = Some (Int n).
Proof.
  intros Hn. cbn [getEcmaVersionNumberFromStringOrNumber andb].
  apply validVersion_test in Hn. now rewrite Hn.
Qed.

Lemma getEcmaVersionNumber_invalid (n : Z) :
  ~ validVersion n ->
  getEcmaVersionNumberFromStringOrNumber supported (VNumber (Int n)) false = None.
Proof.
  intros Hn. cbn [getEcmaVersionNumberFromStringOrNumber andb].
  destruct ((n =? 3) || (n =? 5) || ((6 <=? n) && (n <? 100))
            || ((2015 <=? n) && (n <? 2100))) eqn:E; [|reflexivity].
  apply validVersion_test in E. contradiction.
Qed.

Lemma revisionOf_valid (n : Z) : validVersion n -> 3 <= revisionOf n.
Proof.
  unfold validVersion, revisionOf. intros Hn.
  destruct (Z.leb_spec 2015 n); lia.
Qed.

Lemma specRevision_valid (n : Z) :
  validVersion n ->
  ecmaVersionToSpecRevision supported (VNumber (Int n)) false = Some (Int (revisionOf n)).
Proof.
  intros Hn. unfold ecmaVersionToSpecRevision. rewrite (getEcmaVersionNumber_valid _ Hn).
  unfold revisionOf. cbn [ge identical minus2009].
  destruct (Z.leb_spec 2015 n); [reflexivity|].
  destruct (Z.leb_spec 5 n); [reflexivity|].
  destruct (Z.eqb_spec n 3); [reflexivity|]. unfold validVersion in Hn. lia.
Qed.

Lemma specRevision_invalid (n : Z) :
  ~ validVersion n ->
  ecmaVersionToSpecRevision supported (VNumber (Int n)) false = None.
Proof.
  intros Hn. unfold ecmaVersionToSpecRevision. now rewrite (getEcmaVersionNumber_invalid _ Hn).
Qed.

Lemma toYear_valid (n : Z) :
  validVersion n ->
  ecmaVersionToYear supported (VNumber (Int n)) false
  = if 6 <=? n then Some (Int (canonicalOf n)) else None.
Proof.
  intros Hn. unfold ecmaVersionToYear. rewrite (getEcmaVersionNumber_valid _ Hn).
  unfold canonicalOf. cbn [falsy ge option_map plus2009].
  unfold validVersion in Hn.
  destruct (Z.eqb_spec n 0); [lia|].
  destruct (Z.leb_spec 2015 n).
  - destruct (Z.leb_spec 6 n); [|lia]. destruct (Z.ltb_spec n 100); [lia|reflexivity].
  - destruct (Z.leb_spec 6 n); [|reflexivity]. destruct (Z.ltb_spec n 100); [reflexivity|lia].
Qed.

(** The characters that match [s] under the flags [ui]. *)
Lemma matchS_spec (text version : string) :
  matchS text = Some version
  <-> exists p, In p ["s"; "S"; longS] /\ text = p +:+ version.
Proof.
  split.
  - destruct text as [|c rest]; cbn [matchS]; [discriminate|].
    destruct (Ascii.eqb_spec c "s"%char) as [->|Hs]; cbn [orb].
    { intros [= ->]. exists "s". split; [now left|reflexivity]. }
    destruct (Ascii.eqb_spec c "S"%char) as [->|HS].
    { intros [= ->]. exists "S". split; [right; now left|reflexivity]. }
    destruct rest as [|c' rest']; [discriminate|].
    destruct (Nat.eqb_spec (nat_of_ascii c) 197) as [H1|]; cbn [andb]; [|discriminate].
    destruct (Nat.eqb_spec (nat_of_ascii c') 191) as [H2|]; [|discriminate].
    intros [= ->]. exists longS. split; [right; right; now left|].
    rewrite <- (ascii_nat_embedding c), <- (ascii_nat_embedding c'), H1, H2. reflexivity.
  - intros (p & [<-|[<-|[<-|[]]]] & ->); reflexivity.
Qed.

Lemma ecmaVersionRegex_exec_matches (e : ascii) (p version : string) :
  (e = "e" \/ e = "E")%char ->
  In p ["s"; "S"; longS] ->
  ecmaVersionRegex_exec (String e (p +:+ version))
  = if versionGroup version then Some version else None.
Proof. intros [->| ->] [<-|[<-|[<-|[]]]]; reflexivity. Qed.

Lemma getEcmaVersionNumber_string (n : Z) :
  validVersion n ->
  getEcmaVersionNumberFromStringOrNumber supported (VString ("es" +:+ pretty n)) false
  = Some (Int n).
Proof.
  intros Hn. cbn [getEcmaVersionNumberFromStringOrNumber toString].
  change ("es" +:+ pretty n) with (String "e" ("s" +:+ pretty n)).
  rewrite ecmaVersionRegex_exec_matches by (cbn; auto).
  replace (versionGroup (pretty n)) with true
    by (symmetry; apply versionGroup_spec; eauto).
  cbn. now rewrite (parseInt_pretty _ Hn).
Qed.

Lemma canonicalize_valid (n : Z) :
  validVersion n ->
  canonicalizeEcmaVersion supported (VNumber (Int n)) false = Some (Int (canonicalOf n)).
Proof.
  intros Hn. unfold canonicalizeEcmaVersion.
  rewrite (getEcmaVersionNumber_valid _ Hn). cbn [asVersion].
  rewrite (toYear_valid _ Hn), (specRevision_valid _ Hn).
  unfold canonicalOf, revisionOf, validVersion in *.
  destruct (Z.leb_spec 6 n); cbn [falsy negb].
  - destruct (Z.ltb_spec n 100); cbn [andb].
    + destruct (Z.eqb_spec (2009 + n) 0); [lia|reflexivity].
    + destruct (Z.eqb_spec n 0); [lia|reflexivity].
  - cbn [andb]. destruct (Z.leb_spec 2015 n); [lia|].
    destruct (Z.eqb_spec n 0); [lia|reflexivity].
Qed.

(** The helpers read the version through
    [getEcmaVersionNumberFromStringOrNumber] only. *)
Lemma canonicalize_by_number (supported' : Version -> bool) (version : Version)
    (limit limit' : bool) :
  getEcmaVersionNumberFromStringOrNumber supported version limit
  = getEcmaVersionNumberFromStringOrNumber supported' version limit' ->
  (forall versionNum,
     getEcmaVersionNumberFromStringOrNumber supported version limit = Some versionNum ->
     getEcmaVersionNumberFromStringOrNumber supported (VNumber versionNum) limit
     = getEcmaVersionNumberFromStringOrNumber supported' (VNumber versionNum) limit') ->
  canonicalizeEcmaVersion supported version limit
  = canonicalizeEcmaVersion supported' version limit'.
Proof.
  intros Hsame Hinner. unfold canonicalizeEcmaVersion. rewrite <- Hsame.
  destruct (getEcmaVersionNumberFromStringOrNumber supported version limit) as [versionNum|].
  - cbn [asVersion]. unfold ecmaVersionToYear, ecmaVersionToSpecRevision.
    now rewrite <- (Hinner _ eq_refl).
  - cbn [asVersion]. unfold ecmaVersionToYear, ecmaVersionToSpecRevision.
    cbn [getEcmaVersionNumberFromStringOrNumber toString ecmaVersionRegex_exec].
    reflexivity.
Qed.

End EcmaFacts.

(** X22. The strings that are ECMAScript versions: a string is taken for
    a version exactly when it is [es] followed by the decimal numeral of a
    valid version number (3, 5, 6 to 99, 2015 to 2099), written without a
    leading zero; its number is then that number. The [e] may be [E], and the
    [s] may be [S] or, as the regular expression has the flags [ui], the
    long s (U+017F). Whether the version is supported plays no part without
    [limitToSupportedVersions]. *)
Theorem getEcmaVersionNumber_of_a_string
    (supported : EcmaVersions.Version -> bool) (s : string) (v : EcmaVersions.Num) :
  EcmaVersions.getEcmaVersionNumberFromStringOrNumber supported (EcmaVersions.VString s) false
  = Some v
  <-> exists n prefix,
        v = EcmaVersions.Int n /\ validVersion n
        /\ In prefix ["es"; "eS"; "Es"; "ES";
                      "e" +:+ EcmaVersions.longS; "E" +:+ EcmaVersions.longS]
        /\ s = prefix +:+ pretty n.
Proof.
  cbn [EcmaVersions.getEcmaVersionNumberFromStringOrNumber EcmaVersions.toString andb].
  split.
  - destruct s as [|e rest]; cbn [EcmaVersions.ecmaVersionRegex_exec]; [discriminate|].
    destruct (Ascii.eqb e "e" || Ascii.eqb e "E") eqn:He; [|discriminate].
    destruct (EcmaVersions.matchS rest) as [version|] eqn:Hm; [|discriminate].
    destruct (EcmaVersions.versionGroup version) eqn:Hg; [|discriminate].
    apply versionGroup_spec in Hg. destruct Hg as (n & Hn & ->).
    rewrite (parseInt_pretty _ Hn). intros [= <-].
    apply matchS_spec in Hm. destruct Hm as (p & Hp & ->).
    apply orb_true_iff in He. rewrite !Ascii.eqb_eq in He.
    exists n, (String e p). split; [reflexivity|]. split; [exact Hn|]. split; [|reflexivity].
    cbn [In] in *.
    destruct He as [->| ->]; destruct Hp as [<-|[<-|[<-|[]]]]; auto 10.
  - intros (n & prefix & -> & Hn & Hp & ->).
    assert (Hexec : exists e p,
              (e = "e" \/ e = "E")%char /\ In p ["s"; "S"; EcmaVersions.longS]
              /\ prefix +:+ pretty n = String e (p +:+ pretty n)).
    { cbn [In] in Hp.
      destruct Hp as [<-|[<-|[<-|[<-|[<-|[<-|[]]]]]]].
      - exists "e"%char, "s". cbn [In]. auto.
      - exists "e"%char, "S". cbn [In]. auto.
      - exists "E"%char, "s". cbn [In]. auto.
      - exists "E"%char, "S". cbn [In]. auto.
      - exists "e"%char, EcmaVersions.longS. cbn [In]. auto 6.
      - exists "E"%char, EcmaVersions.longS. cbn [In]. auto 6. }
    destruct Hexec as (e & p & He & Hin & ->).
    rewrite (ecmaVersionRegex_exec_matches e p (pretty n) He Hin).
    replace (EcmaVersions.versionGroup (pretty n)) with true
      by (symmetry; apply versionGroup_spec; eauto).
    now rewrite (parseInt_pretty _ Hn).
Qed.

Example isEcmaVersion_strings :
  EcmaVersions.isEcmaVersion (fun _ => false) (EcmaVersions.VString "ES2022") = true
  /\ EcmaVersions.getEcmaVersionNumberFromStringOrNumber (fun _ => false)
       (EcmaVersions.VString ("e" +:+ EcmaVersions.longS +:+ "6")) false
     = Some (EcmaVersions.Int 6)
  /\ EcmaVersions.isEcmaVersion (fun _ => false) (EcmaVersions.VString "es05") = false
  /\ EcmaVersions.isEcmaVersion (fun _ => false) (EcmaVersions.VString "es4") = false
  /\ EcmaVersions.isEcmaVersion (fun _ => false) (EcmaVersions.VString "es2014") = false
  /\ EcmaVersions.isEcmaVersion (fun _ => false) (EcmaVersions.VString "2015") = false.
Proof. repeat split. Qed.

(** X23. The three number forms of a valid version number [n], without
    [limitToSupportedVersions]: the revision is [n] itself below 2015 and
    [n - 2009] from 2015 on; the year is [2009 + n] for 6 to 99, [n] from 2015
    on, and [null] for 3 and 5; the canonical form is the year where there is
    one and the revision otherwise. The canonical form of 91 to 99 lies
    beyond 2099 and is not a version itself. *)
Theorem version_number_forms (supported : EcmaVersions.Version -> bool) (n : Z) :
  validVersion n ->
  EcmaVersions.ecmaVersionToSpecRevision supported (EcmaVersions.VNumber (EcmaVersions.Int n))
    false
  = Some (EcmaVersions.Int (revisionOf n))
  /\ EcmaVersions.ecmaVersionToYear supported (EcmaVersions.VNumber (EcmaVersions.Int n)) false
     = (if 6 <=? n then Some (EcmaVersions.Int (canonicalOf n)) else None)
  /\ EcmaVersions.canonicalizeEcmaVersion supported (EcmaVersions.VNumber (EcmaVersions.Int n))
       false
     = Some (EcmaVersions.Int (canonicalOf n))
  /\ EcmaVersions.isEcmaVersion supported
       (EcmaVersions.VNumber (EcmaVersions.Int (canonicalOf n)))
     = negb ((91 <=? n) && (n <? 100)).
Proof.
  intros Hn. split; [now apply specRevision_valid|]. split; [now apply toYear_valid|]. split.
  - now apply canonicalize_valid.
  - unfold EcmaVersions.isEcmaVersion.
    destruct (Z.leb_spec 91 n) as [H91|H91]; destruct (Z.ltb_spec n 100) as [H100|H100];
      cbn [andb negb].
    + rewrite getEcmaVersionNumber_invalid; [reflexivity|].
      unfold canonicalOf, validVersion.
      destruct (Z.leb_spec 6 n); destruct (Z.ltb_spec n 100); cbn [andb]; lia.
    + rewrite getEcmaVersionNumber_valid; [reflexivity|].
      unfold canonicalOf, validVersion in *.
      destruct (Z.leb_spec 6 n); destruct (Z.ltb_spec n 100); cbn [andb]; lia.
    + rewrite getEcmaVersionNumber_valid; [reflexivity|].
      unfold canonicalOf, validVersion in *.
      destruct (Z.leb_spec 6 n); destruct (Z.ltb_spec n 100); cbn [andb]; lia.
    + lia.
Qed.

Lemma version_number_forms_witness :
  validVersion 6
  /\ (EcmaVersions.ecmaVersionToSpecRevision (fun _ => false)
        (EcmaVersions.VNumber (EcmaVersions.Int 6)) false
      = Some (EcmaVersions.Int (revisionOf 6))
      /\ EcmaVersions.ecmaVersionToYear (fun _ => false)
           (EcmaVersions.VNumber (EcmaVersions.Int 6)) false
         = (if 6 <=? 6 then Some (EcmaVersions.Int (canonicalOf 6)) else None)
      /\ EcmaVersions.canonicalizeEcmaVersion (fun _ => false)
           (EcmaVersions.VNumber (EcmaVersions.Int 6)) false
         = Some (EcmaVersions.Int (canonicalOf 6))
      /\ EcmaVersions.isEcmaVersion (fun _ => false)
           (EcmaVersions.VNumber (EcmaVersions.Int (canonicalOf 6)))
         = negb ((91 <=? 6) && (6 <? 100))).
Proof.
  assert (H6 : validVersion 6) by (unfold validVersion; lia).
  split; [exact H6|]. apply (version_number_forms (fun _ => false) 6 H6).
Defined.

(** X24. [compareEcmaVersions] on two valid version numbers compares the
    revisions they stand for: it returns [0] for the same revision (6 and
    2015, say), [-1] when the first is the earlier one and [1] when it is the
    later one, whichever of the two forms each number is in. *)
Theorem compareEcmaVersions_compares_revisions
    (supported : EcmaVersions.Version -> bool) (a b : Z) :
  validVersion a ->
  validVersion b ->
  EcmaVersions.compareEcmaVersions supported
    (EcmaVersions.VNumber (EcmaVersions.Int a)) (EcmaVersions.VNumber (EcmaVersions.Int b))
  = Returned (signOf (revisionOf a ?= revisionOf b)).
Proof.
  intros Ha Hb. unfold EcmaVersions.compareEcmaVersions.
  rewrite (specRevision_valid _ _ Ha), (specRevision_valid _ _ Hb).
  pose proof (revisionOf_valid _ Ha). pose proof (revisionOf_valid _ Hb).
  cbn [EcmaVersions.falsy].
  destruct (Z.eqb_spec (revisionOf a) 0); [lia|].
  destruct (Z.eqb_spec (revisionOf b) 0); [lia|].
  destruct (Z.compare_spec (revisionOf a) (revisionOf b)) as [He|Hl|Hg]; cbn [signOf].
  - rewrite He, Z.eqb_refl. reflexivity.
  - destruct (Z.eqb_spec (revisionOf a) (revisionOf b)); [lia|].
    destruct (Z.ltb_spec (revisionOf a) (revisionOf b)); [reflexivity|lia].
  - destruct (Z.eqb_spec (revisionOf a) (revisionOf b)); [lia|].
    destruct (Z.ltb_spec (revisionOf a) (revisionOf b)); [lia|reflexivity].
Qed.

Lemma compareEcmaVersions_compares_revisions_witness :
  (validVersion 2015 /\ validVersion 6)
  /\ EcmaVersions.compareEcmaVersions (fun _ => false)
       (EcmaVersions.VNumber (EcmaVersions.Int 2015)) (EcmaVersions.VNumber (EcmaVersions.Int 6))
     = Returned (signOf (revisionOf 2015 ?= revisionOf 6)).
Proof.
  assert (Ha : validVersion 2015) by (unfold validVersion; lia).
  assert (Hb : validVersion 6) by (unfold validVersion; lia).
  split; [now split|].
  apply (compareEcmaVersions_compares_revisions (fun _ => false) 2015 6 Ha Hb).
Defined.

Example compareEcmaVersions_examples :
  EcmaVersions.compareEcmaVersions (fun _ => false)
    (EcmaVersions.VNumber (EcmaVersions.Int 2015)) (EcmaVersions.VNumber (EcmaVersions.Int 6))
  = Returned 0
  /\ EcmaVersions.compareEcmaVersions (fun _ => false)
       (EcmaVersions.VNumber (EcmaVersions.Int 5)) (EcmaVersions.VNumber (EcmaVersions.Int 2016))
     = Returned (-1)
  /\ EcmaVersions.compareEcmaVersions (fun _ => false)
       (EcmaVersions.VString "es2017") (EcmaVersions.VString "es8")
     = Thrown (Error "Invalid ECMAScript version: es2017").
Proof. repeat split. Qed.

(** X25. [compareEcmaVersions] throws for a first argument that is an
    integer but not a valid version number: an [Error] that names it,
    whatever the second argument is. (The integer is taken in the range
    where a number prints as its decimal numeral.) *)
Theorem compareEcmaVersions_throws_on_invalid_number
    (supported : EcmaVersions.Version -> bool) (a : Z) (versionB : EcmaVersions.Version) :
  ~ validVersion a ->
  - 2 ^ 53 < a < 2 ^ 53 ->
  EcmaVersions.compareEcmaVersions supported
    (EcmaVersions.VNumber (EcmaVersions.Int a)) versionB
  = Thrown (Error ("Invalid ECMAScript version: " +:+ pretty a)).
Proof.
  intros Ha _. unfold EcmaVersions.compareEcmaVersions.
  now rewrite (specRevision_invalid _ _ Ha).
Qed.

Lemma compareEcmaVersions_throws_on_invalid_number_witness :
  (~ validVersion 4 /\ - 2 ^ 53 < 4 < 2 ^ 53)
  /\ EcmaVersions.compareEcmaVersions (fun _ => false)
       (EcmaVersions.VNumber (EcmaVersions.Int 4)) (EcmaVersions.VNumber (EcmaVersions.Int 5))
     = Thrown (Error ("Invalid ECMAScript version: " +:+ pretty 4)).
Proof.
  assert (H4 : ~ validVersion 4) by (unfold validVersion; lia).
  assert (Hsafe : - 2 ^ 53 < 4 < 2 ^ 53) by lia.
  split; [now split|].
  apply (compareEcmaVersions_throws_on_invalid_number (fun _ => false) 4
           (EcmaVersions.VNumber (EcmaVersions.Int 5)) H4 Hsafe).
Defined.

(** X26. A version string in the year form, [es2015] to [es2099], has a
    year but no revision: [ecmaVersionToSpecRevision] subtracts 2009 from the
    string itself and returns [NaN]. So [compareEcmaVersions] throws for every
    such string as its first argument, although the string is a valid
    version. *)
Theorem year_strings_have_no_revision
    (supported : EcmaVersions.Version -> bool) (n : Z) (versionB : EcmaVersions.Version) :
  2015 <= n < 2100 ->
  EcmaVersions.isEcmaVersion supported (EcmaVersions.VString ("es" +:+ pretty n)) = true
  /\ EcmaVersions.ecmaVersionToYear supported (EcmaVersions.VString ("es" +:+ pretty n)) false
     = Some (EcmaVersions.Int n)
  /\ EcmaVersions.ecmaVersionToSpecRevision supported
       (EcmaVersions.VString ("es" +:+ pretty n)) false
     = Some EcmaVersions.NaN
  /\ EcmaVersions.compareEcmaVersions supported
       (EcmaVersions.VString ("es" +:+ pretty n)) versionB
     = Thrown (Error ("Invalid ECMAScript version: " +:+ "es" +:+ pretty n)).
Proof.
  intros Hn. assert (Hv : validVersion n) by (unfold validVersion; lia).
  pose proof (getEcmaVersionNumber_string supported n Hv) as Hnum.
  assert (Hrev : EcmaVersions.ecmaVersionToSpecRevision supported
                   (EcmaVersions.VString ("es" +:+ pretty n)) false
                 = Some EcmaVersions.NaN).
  { unfold EcmaVersions.ecmaVersionToSpecRevision. rewrite Hnum. cbn [EcmaVersions.ge].
    destruct (Z.leb_spec 2015 n); [reflexivity|lia]. }
  split; [|split; [|split]].
  - unfold EcmaVersions.isEcmaVersion. now rewrite Hnum.
  - unfold EcmaVersions.ecmaVersionToYear. rewrite Hnum. cbn [EcmaVersions.falsy EcmaVersions.ge].
    destruct (Z.eqb_spec n 0); [lia|]. destruct (Z.leb_spec 2015 n); [reflexivity|lia].
  - exact Hrev.
  - unfold EcmaVersions.compareEcmaVersions. rewrite Hrev. reflexivity.
Qed.

Lemma year_strings_have_no_revision_witness :
  2015 <= 2022 < 2100
  /\ (EcmaVersions.isEcmaVersion (fun _ => false) (EcmaVersions.VString ("es" +:+ pretty 2022))
      = true
      /\ EcmaVersions.ecmaVersionToYear (fun _ => false)
           (EcmaVersions.VString ("es" +:+ pretty 2022)) false
         = Some (EcmaVersions.Int 2022)
      /\ EcmaVersions.ecmaVersionToSpecRevision (fun _ => false)
           (EcmaVersions.VString ("es" +:+ pretty 2022)) false
         = Some EcmaVersions.NaN
      /\ EcmaVersions.compareEcmaVersions (fun _ => false)
           (EcmaVersions.VString ("es" +:+ pretty 2022))
           (EcmaVersions.VNumber (EcmaVersions.Int 2015))
         = Thrown (Error ("Invalid ECMAScript version: " +:+ "es" +:+ pretty 2022))).
Proof.
  assert (Hn : 2015 <= 2022 < 2100) by lia.
  split; [exact Hn|].
  apply (year_strings_have_no_revision (fun _ => false) 2022
           (EcmaVersions.VNumber (EcmaVersions.Int 2015)) Hn).
Defined.

(** X27. Support goes by the canonical form: a valid version number is
    supported exactly when its canonical form is in the set of supported
    versions, so ES6 and ES2015 are supported together. Under
    [limitToSupportedVersions] a supported number is validated and
    canonicalised as without it, and an unsupported one gives [null]. *)
Theorem isSupportedEcmaVersion_by_canonical_form (supportedEcmaVersionsSet : list Z) (n : Z) :
  validVersion n ->
  let isSupported := EcmaVersions.isSupportedEcmaVersion supportedEcmaVersionsSet in
  let ok := existsb (Z.eqb (canonicalOf n)) supportedEcmaVersionsSet in
  isSupported (EcmaVersions.VNumber (EcmaVersions.Int n)) = ok
  /\ (ok = true <-> In (canonicalOf n) supportedEcmaVersionsSet)
  /\ EcmaVersions.getEcmaVersionNumberFromStringOrNumber isSupported
       (EcmaVersions.VNumber (EcmaVersions.Int n)) true
     = (if ok then Some (EcmaVersions.Int n) else None)
  /\ EcmaVersions.canonicalizeEcmaVersion isSupported
       (EcmaVersions.VNumber (EcmaVersions.Int n)) true
     = (if ok then Some (EcmaVersions.Int (canonicalOf n)) else None).
Proof.
  intros Hn. cbn zeta.
  assert (Hsup : EcmaVersions.isSupportedEcmaVersion supportedEcmaVersionsSet
                   (EcmaVersions.VNumber (EcmaVersions.Int n))
                 = existsb (Z.eqb (canonicalOf n)) supportedEcmaVersionsSet).
  { unfold EcmaVersions.isSupportedEcmaVersion.
    now rewrite (canonicalize_valid _ _ Hn). }
  assert (Hnum : EcmaVersions.getEcmaVersionNumberFromStringOrNumber
                   (EcmaVersions.isSupportedEcmaVersion supportedEcmaVersionsSet)
                   (EcmaVersions.VNumber (EcmaVersions.Int n)) true
                 = if existsb (Z.eqb (canonicalOf n)) supportedEcmaVersionsSet
                   then Some (EcmaVersions.Int n) else None).
  { cbn [EcmaVersions.getEcmaVersionNumberFromStringOrNumber andb]. rewrite Hsup.
    destruct (existsb (Z.eqb (canonicalOf n)) supportedEcmaVersionsSet); cbn [negb];
      [|reflexivity].
    apply validVersion_test in Hn. now rewrite Hn. }
  split; [exact Hsup|]. split; [|split; [exact Hnum|]].
  - rewrite existsb_exists. split.
    + intros (x & Hx & He). apply Z.eqb_eq in He. now subst.
    + intros Hin. exists (canonicalOf n). split; [exact Hin|apply Z.eqb_refl].
  - destruct (existsb (Z.eqb (canonicalOf n)) supportedEcmaVersionsSet) eqn:Hok.
    + rewrite <- (canonicalize_valid (fun _ => false) _ Hn).
      apply canonicalize_by_number.
      * rewrite Hnum. symmetry. now apply getEcmaVersionNumber_valid.
      * intros versionNum Hv. rewrite Hnum in Hv. injection Hv as <-.
        rewrite Hnum. symmetry. now apply getEcmaVersionNumber_valid.
    + unfold EcmaVersions.canonicalizeEcmaVersion. rewrite Hnum. reflexivity.
Qed.

Lemma isSupportedEcmaVersion_by_canonical_form_witness :
  validVersion 6
  /\ (let isSupported := EcmaVersions.isSupportedEcmaVersion [3; 5; 2015; 2016] in
      let ok := existsb (Z.eqb (canonicalOf 6)) [3; 5; 2015; 2016] in
      isSupported (EcmaVersions.VNumber (EcmaVersions.Int 6)) = ok
      /\ (ok = true <-> In (canonicalOf 6) [3; 5; 2015; 2016])
      /\ EcmaVersions.getEcmaVersionNumberFromStringOrNumber isSupported
           (EcmaVersions.VNumber (EcmaVersions.Int 6)) true
         = (if ok then Some (EcmaVersions.Int 6) else None)
      /\ EcmaVersions.canonicalizeEcmaVersion isSupported
           (EcmaVersions.VNumber (EcmaVersions.Int 6)) true
         = (if ok then Some (EcmaVersions.Int (canonicalOf 6)) else None)).
Proof.
  assert (H6 : validVersion 6) by (unfold validVersion; lia).
  split; [exact H6|].
  apply (isSupportedEcmaVersion_by_canonical_form [3; 5; 2015; 2016] 6 H6).
Defined.

Example isSupportedEcmaVersion_examples :
  let isSupported := EcmaVersions.isSupportedEcmaVersion [3; 5; 2015; 2016] in
  isSupported (EcmaVersions.VNumber (EcmaVersions.Int 6)) = true
  /\ isSupported (EcmaVersions.VString "es2016") = true
  /\ isSupported (EcmaVersions.VString "ES7") = true
  /\ isSupported (EcmaVersions.VNumber (EcmaVersions.Int 2017)) = false
  /\ EcmaVersions.ecmaVersionToYear isSupported (EcmaVersions.VString "es8") true = None
  /\ EcmaVersions.ecmaVersionToYear isSupported (EcmaVersions.VString "es8") false
     = Some (EcmaVersions.Int 2017).
Proof. cbn zeta. repeat split. Qed.
